(** * Claimvoyant: the claim pipeline stages and the claims API

    A shallow embedding of the five pipeline stages (Intake, Policy,
    Damage, Valuation, Decision) and of the two API modules, followed by
    the properties of the specification that were checked against them.

    Conventions of the embedding.
    - Python values that travel as JSON are [pyval]; a [dict] is an
      association list in insertion order, as Python dictionaries are.
    - Text is ASCII text: [string] of the standard library, every
      character below 128.  On such text case folding, [\d], [\w], [\s],
      [re.I] and [strip] are as Python has them; beyond ASCII Python's
      classes hold more characters, so a property that rests on a class
      is stated for [ascii_text].
    - A Python float is carried as the rational of its source literal
      ([PFloat]); the modelled code does no float arithmetic.
    - Code inside [try]/[except] runs in the [outcome] monad; [Raise]
      carries the exception, and the handler turns it into the 500 result.
    - Each external call (AWS, Weaviate, Bedrock, the clock) takes its
      outcome from an environment record of the stage. *)

From Stdlib Require Import String Ascii ZArith QArith Bool List Lia.
From Stdlib Require Import OrderedTypeEx Permutation.
Import ListNotations.

Local Open Scope string_scope.
Local Open Scope Z_scope.

(** ** Python values *)

#[local] Unset Elimination Schemes.
Inductive pyval : Type :=
| PNone
| PBool (b : bool)
| PInt (z : Z)
| PFloat (q : Q)
| PStr (s : string)
| PList (l : list pyval)
| PDict (d : list (string * pyval)).
#[local] Set Elimination Schemes.

Definition dict : Type := list (string * pyval).

(** [bool(v)]: Python truthiness. *)
Definition truthy (v : pyval) : bool :=
  match v with
  | PNone => false
  | PBool b => b
  | PInt z => negb (z =? 0)
  | PFloat q => negb (Qnum q =? 0)
  | PStr s => negb (String.eqb s EmptyString)
  | PList l => match l with [] => false | _ => true end
  | PDict d => match d with [] => false | _ => true end
  end.

(** [type(v).__name__] *)
Definition type_name (v : pyval) : string :=
  match v with
  | PNone => "NoneType"
  | PBool _ => "bool"
  | PInt _ => "int"
  | PFloat _ => "float"
  | PStr _ => "str"
  | PList _ => "list"
  | PDict _ => "dict"
  end.

(** ** Dictionaries *)

Fixpoint dlookup {V : Type} (k : string) (d : list (string * V)) : option V :=
  match d with
  | [] => None
  | (k', v) :: d' => if String.eqb k k' then Some v else dlookup k d'
  end.

(** [k in d] *)
Definition dmem (k : string) (d : dict) : bool :=
  match dlookup k d with Some _ => true | None => false end.

(** [d.get(k)] *)
Definition dget (k : string) (d : dict) : pyval :=
  match dlookup k d with Some v => v | None => PNone end.

(** [d.get(k, dflt)]: the default is used only when the key is absent. *)
Definition dget_or (k : string) (dflt : pyval) (d : dict) : pyval :=
  match dlookup k d with Some v => v | None => dflt end.

(** [d[k] = v]: an existing key keeps its place, a new one goes last. *)
Fixpoint dset {V : Type} (k : string) (v : V) (d : list (string * V))
  : list (string * V) :=
  match d with
  | [] => [(k, v)]
  | (k', v') :: d' =>
      if String.eqb k k' then (k, v) :: d' else (k', v') :: dset k v d'
  end.

Definition dkeys {V : Type} (d : list (string * V)) : list string := map fst d.

(** ** Exceptions and the outcome monad *)

Record exn : Type := Exn { exn_class : string; exn_str : string }.

Inductive outcome (A : Type) : Type :=
| Ok (a : A)
| Raise (e : exn).
Arguments Ok {A} a.
Arguments Raise {A} e.

Definition obind {A B : Type} (m : outcome A) (f : A -> outcome B) : outcome B :=
  match m with
  | Ok a => f a
  | Raise e => Raise e
  end.

Declare Scope outcome_scope.
Delimit Scope outcome_scope with outcome.
Notation "'let*' x ':=' m 'in' k" := (obind m (fun x => k))
  (at level 10, x name, m at level 100, k at level 200) : outcome_scope.
Local Open Scope outcome_scope.

Definition AttributeError (v : pyval) (attr : string) : exn :=
  Exn "AttributeError"
      ("'" ++ type_name v ++ "' object has no attribute '" ++ attr ++ "'").
Definition KeyError (k : string) : exn := Exn "KeyError" ("'" ++ k ++ "'").
Definition TypeError (msg : string) : exn := Exn "TypeError" msg.
Definition IndexError (msg : string) : exn := Exn "IndexError" msg.
Definition ValueError (msg : string) : exn := Exn "ValueError" msg.

(** [v.get(k)] on a value that may not be a dictionary. *)
Definition py_get (v : pyval) (k : string) : outcome pyval :=
  match v with
  | PDict d => Ok (dget k d)
  | _ => Raise (AttributeError v "get")
  end.

(** [v.get(k, dflt)] *)
Definition py_get_or (v : pyval) (k : string) (dflt : pyval) : outcome pyval :=
  match v with
  | PDict d => Ok (dget_or k dflt d)
  | _ => Raise (AttributeError v "get")
  end.

(** [v[k]] with a string key. *)
Definition py_getitem (v : pyval) (k : string) : outcome pyval :=
  match v with
  | PDict d =>
      match dlookup k d with
      | Some x => Ok x
      | None => Raise (KeyError k)
      end
  | PStr _ => Raise (TypeError "string indices must be integers, not 'str'")
  | PList _ => Raise (TypeError "list indices must be integers or slices, not str")
  | _ => Raise (TypeError ("'" ++ type_name v ++ "' object is not subscriptable"))
  end.

(** [v[0]] *)
Definition py_first (v : pyval) : outcome pyval :=
  match v with
  | PList (x :: _) => Ok x
  | PList [] => Raise (IndexError "list index out of range")
  | PStr (String c _) => Ok (PStr (String c EmptyString))
  | PStr EmptyString => Raise (IndexError "string index out of range")
  | PDict _ => Raise (Exn "KeyError" "0")
  | _ => Raise (TypeError ("'" ++ type_name v ++ "' object is not subscriptable"))
  end.

(** ** Text *)

Definition ascii_lower (c : ascii) : ascii :=
  let n := N_of_ascii c in
  if ((65 <=? n) && (n <=? 90))%N then ascii_of_N (n + 32) else c.

(** [s.lower()] *)
Fixpoint lower (s : string) : string :=
  match s with
  | EmptyString => EmptyString
  | String c t => String (ascii_lower c) (lower t)
  end.

Definition is_digit (c : ascii) : bool :=
  let n := N_of_ascii c in ((48 <=? n) && (n <=? 57))%N.

Definition is_word (c : ascii) : bool :=
  let n := N_of_ascii c in
  (((48 <=? n) && (n <=? 57)) || ((65 <=? n) && (n <=? 90))
   || ((97 <=? n) && (n <=? 122)) || (n =? 95))%N.

(** Whitespace of [str.isspace], [str.strip] and of [\s] in a str pattern. *)
Definition is_space (c : ascii) : bool :=
  let n := N_of_ascii c in
  (((9 <=? n) && (n <=? 13)) || ((28 <=? n) && (n <=? 32)))%N.

Fixpoint lstrip (s : string) : string :=
  match s with
  | String c t => if is_space c then lstrip t else s
  | EmptyString => EmptyString
  end.

Fixpoint rstrip (s : string) : string :=
  match s with
  | EmptyString => EmptyString
  | String c t =>
      match rstrip t with
      | EmptyString => if is_space c then EmptyString else String c EmptyString
      | t' => String c t'
      end
  end.

(** [s.strip()] *)
Definition strip (s : string) : string := rstrip (lstrip s).

(** [s.split(".")[-1]]: what follows the last dot, or all of [s]. *)
Fixpoint last_segment (s acc : string) : string :=
  match s with
  | EmptyString => acc
  | String c t =>
      if Ascii.eqb c "."%char then last_segment t EmptyString
      else last_segment t (acc ++ String c EmptyString)
  end.

(** The first [n] characters of [s]. *)
Fixpoint take_str (n : nat) (s : string) : string :=
  match n, s with
  | S n', String c t => String c (take_str n' t)
  | _, _ => EmptyString
  end.

(** [s[:n]] for a bound [n] that is not negative. *)
Fixpoint slice_to (n : Z) (s : string) : string :=
  match s with
  | String c t => if 0 <? n then String c (slice_to (n - 1) t) else EmptyString
  | EmptyString => EmptyString
  end.

(** [sep.join(l)] *)
Fixpoint join (sep : string) (l : list string) : string :=
  match l with
  | [] => EmptyString
  | [x] => x
  | x :: l' => x ++ sep ++ join sep l'
  end.

(** ** Regular expressions: the backtracking search of [re]

    Only what the two patterns of the Intake stage use: character classes,
    concatenation, ordered alternation, a greedy optional part and the greedy
    repetition of a class.  [rmatch r s k] tries [r] at the head of [s] and
    hands every way of matching it, in the priority order of [re], to the
    continuation [k], which receives the text that is left. *)

Inductive regex : Type :=
| Cls (p : ascii -> bool)
| Cat (r1 r2 : regex)
| Alt (r1 r2 : regex)
| Opt (r : regex)
| Rep (p : ascii -> bool).

Fixpoint rep_match {A : Type} (p : ascii -> bool) (s : string)
    (k : string -> option A) : option A :=
  match s with
  | String c t =>
      if p c then
        match rep_match p t k with
        | Some x => Some x
        | None => k s
        end
      else k s
  | EmptyString => k s
  end.

Fixpoint rmatch {A : Type} (r : regex) (s : string)
    (k : string -> option A) : option A :=
  match r with
  | Cls p =>
      match s with
      | String c t => if p c then k t else None
      | EmptyString => None
      end
  | Cat r1 r2 => rmatch r1 s (fun s' => rmatch r2 s' k)
  | Alt r1 r2 =>
      match rmatch r1 s k with
      | Some x => Some x
      | None => rmatch r2 s k
      end
  | Opt r1 =>
      match rmatch r1 s k with
      | Some x => Some x
      | None => k s
      end
  | Rep p => rep_match p s k
  end.

(** The text of the match at the head of [s], if [r] matches there. *)
Definition match_here (r : regex) (s : string) : option string :=
  match rmatch r s Some with
  | Some rest => Some (take_str (String.length s - String.length rest) s)
  | None => None
  end.

(** [re.search(r, s)]: the match at the leftmost position that has one. *)
Fixpoint re_search (r : regex) (s : string) : option string :=
  match match_here r s with
  | Some m => Some m
  | None =>
      match s with
      | String _ t => re_search r t
      | EmptyString => None
      end
  end.

Definition chr (c : ascii) : regex := Cls (Ascii.eqb c).
(** A literal character under [re.I]. *)
Definition chr_i (c : ascii) : regex :=
  Cls (fun x => Ascii.eqb (ascii_lower x) (ascii_lower c)).
Definition plus (p : ascii -> bool) : regex := Cat (Cls p) (Rep p).

Fixpoint lit_i (s : string) : regex :=
  match s with
  | EmptyString => Opt (Cls (fun _ => false))
  | String c EmptyString => chr_i c
  | String c t => Cat (chr_i c) (lit_i t)
  end.

Definition digit : regex := Cls is_digit.


(** [a + b] on two strings. *)
Definition py_concat (a b : pyval) : outcome string :=
  match a, b with
  | PStr x, PStr y => Ok (x ++ y)
  | _, _ => Raise (TypeError "unsupported operand type(s) for +")
  end.

(** ** The stores the stages write to *)

(** An item of the AuditLog table.  [log_id] is the f-string
    [f"{claim_id}-<stage>"], kept as its two parts; [details] is the
    dictionary whose JSON text the item holds. *)
Record audit_entry : Type := {
  log_id : pyval * string;
  a_timestamp : string;
  a_claim_id : pyval;
  agent : string;
  action : string;
  status : string;
  details : dict
}.

(** An item of the Claims table.  The key attributes [claim_id] (partition)
    and [version] (sort) are strings; the fields the Decision stage writes
    with [json.dumps] hold the value that text encodes. *)
Record claim_record : Type := {
  claim_id : string;
  version : string;
  c_status : pyval;
  decision_data : dict;
  policy_data : pyval;
  extracted_data : pyval;
  entities : pyval;
  timestamp : string
}.

(** An object of the ClaimArtifacts collection. *)
Record artifact : Type := {
  art_claim_id : pyval;
  s3_bucket : pyval;
  s3_key : string;
  art_file_type : pyval;
  extracted_text : string;
  art_entities : dict;
  metadata : dict
}.

(** An object written to the reports bucket. *)
Record report_object : Type := {
  rep_bucket : string;
  rep_key : string;
  rep_body : dict
}.

Record world : Type := {
  audit_log : list audit_entry;
  claims : list claim_record;
  artifacts : list artifact;
  reports : list report_object
}.

Definition put_audit (e : audit_entry) (w : world) : world :=
  {| audit_log := audit_log w ++ [e]; claims := claims w;
     artifacts := artifacts w; reports := reports w |}.

Definition put_claim (c : claim_record) (w : world) : world :=
  {| audit_log := audit_log w; claims := claims w ++ [c];
     artifacts := artifacts w; reports := reports w |}.

Definition put_artifact (a : artifact) (w : world) : world :=
  {| audit_log := audit_log w; claims := claims w;
     artifacts := artifacts w ++ [a]; reports := reports w |}.

Definition put_report (r : report_object) (w : world) : world :=
  {| audit_log := audit_log w; claims := claims w;
     artifacts := artifacts w; reports := reports w ++ [r] |}.

(** What every stage returns from its [except] branch. *)
Definition failure (e : exn) : dict :=
  [ ("statusCode", PInt 500); ("error", PStr (exn_str e)) ].

Definition statusCode (r : dict) : pyval := dget "statusCode" r.

(** ** Intake stage (src/functions/intake/lambda_function.py) *)

Module Intake.

(** A block of a Textract result. *)
Record block : Type := { BlockType : string; Text : option string }.

(** One answer of [textract.get_document_text_detection]. *)
Inductive textract_poll : Type :=
| PollRaise (e : exn)
| PollResult (JobStatus : string) (Blocks : list block)
             (StatusMessage : option string).

Record rek_label : Type := { Name : string; Confidence : Q }.
Record rek_text : Type := { DetectedText : string; Type_ : string }.

(** The outcomes of the external calls of one invocation.  [textract_polls]
    lists the answers to the successive polls of the job. *)
Record env : Type := {
  now_compact : string;
  now_iso : string;
  textract_start : outcome string;
  textract_polls : list textract_poll;
  rekognition_detect_labels : outcome (list rek_label);
  rekognition_detect_text : outcome (list rek_text);
  weaviate_connect : outcome unit;
  weaviate_insert : outcome unit;
  audit_put_item : outcome unit
}.

Definition block_lines (blocks : list block) : string :=
  fold_left
    (fun acc b =>
       if String.eqb (BlockType b) "LINE"
       then acc ++ match Text b with Some t => t | None => EmptyString end
                ++ String "010"%char EmptyString
       else acc)
    blocks EmptyString.

(** The polling loop of [extract_text_from_pdf]: [None] when the answers run
    out before the job reaches a final status (the loop is still waiting). *)
Fixpoint poll_job (job_id : string) (polls : list textract_poll)
  : option (outcome dict) :=
  match polls with
  | [] => None
  | PollRaise e :: _ => Some (Raise e)
  | PollResult st blocks msg :: rest =>
      if String.eqb st "SUCCEEDED" then
        Some (Ok [ ("text", PStr (strip (block_lines blocks)));
                   ("job_id", PStr job_id) ])
      else if String.eqb st "FAILED" then
        Some (Raise (Exn "Exception"
               ("Textract job failed: "
                ++ match msg with Some m => m | None => "None" end)))
      else poll_job job_id rest
  end.

Definition extract_text_from_pdf (E : env) : option dict :=
  let on_error e := [ ("text", PStr EmptyString); ("error", PStr (exn_str e)) ] in
  match textract_start E with
  | Raise e => Some (on_error e)
  | Ok job_id =>
      match poll_job job_id (textract_polls E) with
      | None => None
      | Some (Ok d) => Some d
      | Some (Raise e) => Some (on_error e)
      end
  end.

Definition analyze_image (E : env) : dict :=
  let body :=
    let* label_response := rekognition_detect_labels E in
    let* text_response := rekognition_detect_text E in
    let labels :=
      map (fun l => PDict [ ("name", PStr (Name l));
                            ("confidence", PFloat (Confidence l)) ])
          label_response in
    let detected_text :=
      join " " (map DetectedText
                    (List.filter (fun t => String.eqb (Type_ t) "LINE")
                                 text_response)) in
    Ok [ ("labels", PList labels); ("detected_text", PStr detected_text) ] in
  match body with
  | Ok d => d
  | Raise e => [ ("labels", PList []); ("detected_text", PStr EmptyString);
                 ("error", PStr (exn_str e)) ]
  end.

(** [(AUTO-\d+|POL-\d+|POLICY[:\s]+(\w+-?\d+))] under [re.I].  The outer
    parenthesis is group 1 and spans the whole match. *)
Definition policy_pattern : regex :=
  Alt (Cat (lit_i "AUTO-") (plus is_digit))
      (Alt (Cat (lit_i "POL-") (plus is_digit))
           (Cat (lit_i "POLICY")
                (Cat (plus (fun c => Ascii.eqb c ":"%char || is_space c))
                     (Cat (plus is_word)
                          (Cat (Opt (chr "-"%char)) (plus is_digit)))))).

Definition digits4 : regex := Cat digit (Cat digit (Cat digit digit)).
Definition digits2 : regex := Cat digit digit.
Definition digits1_2 : regex := Cat digit (Opt digit).

(** [(\d{4}-\d{2}-\d{2}|\d{1,2}/\d{1,2}/\d{4})]; group 1 is the whole
    match. *)
Definition date_pattern : regex :=
  Alt (Cat digits4
           (Cat (chr "-"%char) (Cat digits2 (Cat (chr "-"%char) digits2))))
      (Cat digits1_2
           (Cat (chr "/"%char) (Cat digits1_2 (Cat (chr "/"%char) digits4)))).

Definition extract_entities (text : string) : dict :=
  let entities :=
    [ ("policy_number", PNone);
      ("claimant_name", PNone);
      ("incident_date", PNone);
      ("incident_location", PNone);
      ("vehicle_info", PNone) ] in
  let entities :=
    match re_search policy_pattern text with
    | Some group1 => dset "policy_number" (PStr group1) entities
    | None => entities
    end in
  let entities :=
    match re_search date_pattern text with
    | Some group1 => dset "incident_date" (PStr group1) entities
    | None => entities
    end in
  entities.

(** Bucket and key, from an S3 notification or from a direct invocation. *)
Definition locate (event : dict) : outcome (pyval * pyval) :=
  if dmem "Records" event then
    let* records := py_getitem (PDict event) "Records" in
    let* record := py_first records in
    let* s3 := py_getitem record "s3" in
    let* b := py_getitem s3 "bucket" in
    let* bucket := py_getitem b "name" in
    let* o := py_getitem s3 "object" in
    let* key := py_getitem o "key" in
    Ok (bucket, key)
  else Ok (dget "bucket" event, dget "key" event).

(** The [try] block that stores the claim in Weaviate.  Its [except] branch
    only prints and processing continues, so the collection alone records
    what happened (a fault of the final [close] changes nothing more). *)
Definition store_artifact (E : env) (a : artifact) (w : world) : world :=
  match weaviate_connect E with
  | Raise _ => w
  | Ok _ =>
      match weaviate_insert E with
      | Raise _ => w
      | Ok _ => put_artifact a w
      end
  end.

(** The body of the handler's [try]: [None] when the Textract loop never
    ends; otherwise the world reached and the result or the exception. *)
Definition handler_body (E : env) (w : world) (event : dict)
  : option (world * outcome dict) :=
  match locate event with
  | Raise e => Some (w, Raise e)
  | Ok (bucket, key) =>
      if negb (truthy bucket) || negb (truthy key) then
        Some (w, Raise (ValueError "Missing bucket or key in event"))
      else
        let claim_id :=
          if truthy (dget "claim_id" event) then dget "claim_id" event
          else PStr ("CLAIM-" ++ now_compact E) in
        match key with
        | PStr key_s =>
            let file_extension := last_segment (lower key_s) EmptyString in
            let extraction :=
              if String.eqb file_extension "pdf" then
                option_map (dset "file_type" (PStr "pdf"))
                           (extract_text_from_pdf E)
              else if existsb (String.eqb file_extension)
                              ["jpg"; "jpeg"; "png"] then
                Some (dset "file_type" (PStr "image") (analyze_image E))
              else
                Some [ ("file_type", PStr "unknown");
                       ("error",
                        PStr ("Unsupported file type: " ++ file_extension)) ]
            in
            match extraction with
            | None => None
            | Some extracted_data =>
                match
                  (let* t := py_concat (dget_or "text" (PStr EmptyString) extracted_data)
                                       (PStr " ") in
                   py_concat (PStr t)
                             (dget_or "detected_text" (PStr EmptyString) extracted_data))
                with
                | Raise e => Some (w, Raise e)
                | Ok text_content =>
                    let entities := extract_entities text_content in
                    let w1 :=
                      store_artifact E
                        {| art_claim_id := claim_id;
                           s3_bucket := bucket;
                           s3_key := key_s;
                           art_file_type :=
                             dget_or "file_type" (PStr "unknown") extracted_data;
                           extracted_text :=
                             slice_to 50000 text_content;
                           art_entities := entities;
                           metadata := extracted_data |} w in
                    match audit_put_item E with
                    | Raise e => Some (w1, Raise e)
                    | Ok _ =>
                        let entry :=
                          {| log_id := (claim_id, "-intake");
                             a_timestamp := now_iso E;
                             a_claim_id := claim_id;
                             agent := "intake";
                             action := "extract_data";
                             status :=
                               if negb (truthy (dget "error" extracted_data))
                               then "success" else "error";
                             details :=
                               [ ("bucket", bucket);
                                 ("key", key);
                                 ("file_type", dget "file_type" extracted_data);
                                 ("entities", PDict entities) ] |} in
                        Some (put_audit entry w1,
                              Ok [ ("statusCode", PInt 200);
                                   ("claim_id", claim_id);
                                   ("bucket", bucket);
                                   ("key", key);
                                   ("extracted_data", PDict extracted_data);
                                   ("entities", PDict entities) ])
                    end
                end
            end
        | _ => Some (w, Raise (AttributeError key "lower"))
        end
  end.

Definition lambda_handler (E : env) (w : world) (event : dict)
  : option (world * dict) :=
  match handler_body E w event with
  | None => None
  | Some (w', Ok r) => Some (w', r)
  | Some (w', Raise e) => Some (w', failure e)
  end.

End Intake.

(** ** Policy stage (src/functions/policy/lambda_function.py) *)

Module Policy.

(** [hybrid q] is the list of the properties of [result.objects] for the
    query [q] (at most one object is requested). *)
Record env : Type := {
  now_iso : string;
  weaviate_connect : outcome unit;
  hybrid : pyval -> outcome (list dict);
  weaviate_close : outcome unit;
  audit_put_item : outcome unit
}.

(** The calls of [query_policy] that can fault: connect, search, close. *)
Definition lookup (E : env) (policy_number : pyval) : outcome (list dict) :=
  let* _ := weaviate_connect E in
  let* objects := hybrid E policy_number in
  let* _ := weaviate_close E in
  Ok objects.

Definition query_policy (E : env) (policy_number : pyval) : dict :=
  match lookup E policy_number with
  | Ok (policy_data :: _) =>
      [ ("found", PBool true);
        ("policy_id", dget "policy_id" policy_data);
        ("coverage_type", dget "coverage_type" policy_data);
        ("deductible", dget "deductible" policy_data);
        ("coverage_limit", dget "coverage_limit" policy_data);
        ("filing_deadline_days", dget "filing_deadline_days" policy_data);
        ("content", dget "content" policy_data) ]
  | Ok [] => [ ("found", PBool false); ("error", PStr "Policy not found") ]
  | Raise e => [ ("found", PBool false); ("error", PStr (exn_str e)) ]
  end.

Definition handler_body (E : env) (w : world) (event : dict)
  : world * outcome dict :=
  let claim_id := dget "claim_id" event in
  let entities := dget_or "entities" (PDict []) event in
  match py_get entities "policy_number" with
  | Raise e => (w, Raise e)
  | Ok pn =>
      let policy_number := if truthy pn then pn else PStr "AUTO-001" in
      let policy_data := query_policy E policy_number in
      match audit_put_item E with
      | Raise e => (w, Raise e)
      | Ok _ =>
          let entry :=
            {| log_id := (claim_id, "-policy");
               a_timestamp := now_iso E;
               a_claim_id := claim_id;
               agent := "policy";
               action := "query_policy";
               status :=
                 if truthy (dget "found" policy_data)
                 then "success" else "not_found";
               details :=
                 [ ("policy_number", policy_number);
                   ("found", dget "found" policy_data) ] |} in
          (put_audit entry w,
           Ok [ ("statusCode", PInt 200);
                ("claim_id", claim_id);
                ("policy_number", policy_number);
                ("policy_data", PDict policy_data);
                ("entities", entities);
                ("extracted_data", dget "extracted_data" event) ])
      end
  end.

Definition lambda_handler (E : env) (w : world) (event : dict) : world * dict :=
  match handler_body E w event with
  | (w', Ok r) => (w', r)
  | (w', Raise e) => (w', failure e)
  end.

End Policy.

(** ** Damage stage (lambda/damage/lambda_function.py) *)

Module Damage.

Record env : Type := {
  now_iso : string;
  audit_put_item : outcome unit
}.

Definition vocabulary : list string :=
  [ "car"; "vehicle"; "damage"; "accident"; "crash" ].

(** [iter(v)]: the items a [for] sees. *)
Definition py_iter (v : pyval) : outcome (list pyval) :=
  match v with
  | PList l => Ok l
  | PDict d => Ok (map (fun kv => PStr (fst kv)) d)
  | PStr s => Ok (map (fun c => PStr (String c EmptyString))
                      (list_ascii_of_string s))
  | _ => Raise (TypeError ("'" ++ type_name v ++ "' object is not iterable"))
  end.

(** [label["name"].lower() in [...]] *)
Definition label_matches (label : pyval) : outcome bool :=
  let* name := py_getitem label "name" in
  match name with
  | PStr n => Ok (existsb (String.eqb (lower n)) vocabulary)
  | _ => Raise (AttributeError name "lower")
  end.

(** [any(... for label in labels)]: stops at the first label that matches,
    so what follows it is never looked at. *)
Fixpoint any_label (labels : list pyval) : outcome bool :=
  match labels with
  | [] => Ok false
  | label :: rest =>
      let* b := label_matches label in
      if b then Ok true else any_label rest
  end.

Definition assess_damage (extracted_data : pyval) : outcome dict :=
  let* labels := py_get_or extracted_data "labels" (PList []) in
  let* items := py_iter labels in
  let* damage_detected := any_label items in
  Ok [ ("damage_detected", PBool damage_detected);
       ("severity", PStr (if damage_detected then "MODERATE" else "NONE"));
       ("estimated_repair_cost",
        PFloat (if damage_detected then 2500 # 1 else 0 # 1));
       ("damage_locations",
        PList (if damage_detected
               then [ PStr "Front bumper"; PStr "Hood" ] else []));
       ("confidence", PFloat (75 # 100)) ].

Definition handler_body (E : env) (w : world) (event : dict)
  : world * outcome dict :=
  let claim_id := dget "claim_id" event in
  let extracted_data := dget_or "extracted_data" (PDict []) event in
  match assess_damage extracted_data with
  | Raise e => (w, Raise e)
  | Ok damage_assessment =>
      match audit_put_item E with
      | Raise e => (w, Raise e)
      | Ok _ =>
          let entry :=
            {| log_id := (claim_id, "-damage");
               a_timestamp := now_iso E;
               a_claim_id := claim_id;
               agent := "damage";
               action := "assess_damage";
               status := "success";
               details := damage_assessment |} in
          (put_audit entry w,
           Ok [ ("statusCode", PInt 200);
                ("claim_id", claim_id);
                ("damage_assessment", PDict damage_assessment);
                ("policy_data", dget "policy_data" event);
                ("entities", dget "entities" event);
                ("extracted_data", extracted_data) ])
      end
  end.

Definition lambda_handler (E : env) (w : world) (event : dict) : world * dict :=
  match handler_body E w event with
  | (w', Ok r) => (w', r)
  | (w', Raise e) => (w', failure e)
  end.

End Damage.

(** ** Valuation stage (src/functions/valuation/lambda_function.py) *)

Module Valuation.

Record env : Type := {
  now_iso : string;
  audit_put_item : outcome unit
}.

Definition get_vehicle_value (entities : pyval) : outcome dict :=
  let* vehicle_info := py_get_or entities "vehicle_info" (PStr "Unknown") in
  Ok [ ("vehicle_value", PFloat (25000 # 1));
       ("vehicle_info", vehicle_info);
       ("market_source", PStr "Mock Data (KBB/NADA in production)");
       ("confidence", PFloat (8 # 10)) ].

Definition handler_body (E : env) (w : world) (event : dict)
  : world * outcome dict :=
  let claim_id := dget "claim_id" event in
  let entities := dget_or "entities" (PDict []) event in
  match get_vehicle_value entities with
  | Raise e => (w, Raise e)
  | Ok valuation =>
      match audit_put_item E with
      | Raise e => (w, Raise e)
      | Ok _ =>
          let entry :=
            {| log_id := (claim_id, "-valuation");
               a_timestamp := now_iso E;
               a_claim_id := claim_id;
               agent := "valuation";
               action := "get_valuation";
               status := "success";
               details := valuation |} in
          (put_audit entry w,
           Ok [ ("statusCode", PInt 200);
                ("claim_id", claim_id);
                ("valuation", PDict valuation);
                ("damage_assessment", dget "damage_assessment" event);
                ("policy_data", dget "policy_data" event);
                ("entities", entities);
                ("extracted_data", dget "extracted_data" event) ])
      end
  end.

Definition lambda_handler (E : env) (w : world) (event : dict) : world * dict :=
  match handler_body E w event with
  | (w', Ok r) => (w', r)
  | (w', Raise e) => (w', failure e)
  end.

End Valuation.

(** ** JSON text

    [json_loads] follows [json.loads] on ASCII JSON text: white space,
    [null], [true], [false], numbers (an integer literal is a [PInt], one
    with a fraction or an exponent a [PFloat]), strings with the one-letter
    escapes, arrays and objects; of two members with one key the later value
    stays.  Left out, and refused here: the escapes by code point and the
    names [NaN] and [Infinity].  The decoder serves to run the Decision
    stage on concrete responses; the properties of that stage are stated for
    any decoder.  The message of a decode error is not modelled. *)

Module Json.

Definition decode_error : exn := Exn "JSONDecodeError" "invalid JSON text".

Definition is_json_ws (c : ascii) : bool :=
  let n := N_of_ascii c in ((n =? 32) || (n =? 9) || (n =? 10) || (n =? 13))%N.

Fixpoint skip_ws (s : string) : string :=
  match s with
  | String c t => if is_json_ws c then skip_ws t else s
  | EmptyString => s
  end.

Fixpoint strip_prefix (p s : string) : option string :=
  match p, s with
  | EmptyString, _ => Some s
  | String a p', String b s' => if Ascii.eqb a b then strip_prefix p' s' else None
  | _, EmptyString => None
  end.

Definition digit_val (c : ascii) : Z := Z.of_N (N_of_ascii c) - 48.

(** The digits at the head of [s]: their value after [acc], how many there
    are, and the rest of the text. *)
Fixpoint digits (s : string) (acc : Z) (n : nat) : Z * nat * string :=
  match s with
  | String c t =>
      if is_digit c then digits t (10 * acc + digit_val c) (S n) else (acc, n, s)
  | EmptyString => (acc, n, s)
  end.

(** A JSON number: an optional minus, [0] or a digit string without a
    leading zero, an optional fraction, an optional exponent. *)
Definition parse_number (s : string) : option (pyval * string) :=
  let (neg, s1) :=
    match s with
    | String "-"%char t => (true, t)
    | _ => (false, s)
    end in
  let int_part :=
    match s1 with
    | String "0"%char t => Some (0, t)
    | String c _ =>
        if is_digit c then
          let '(v, _, rest) := digits s1 0 O in Some (v, rest)
        else None
    | EmptyString => None
    end in
  match int_part with
  | None => None
  | Some (i, s2) =>
      let '(m, fraclen, s3, has_frac) :=
        match s2 with
        | String "."%char t =>
            let '(v, n, rest) := digits t i O in
            match n with
            | O => (i, O, s2, false)
            | _ => (v, n, rest, true)
            end
        | _ => (i, O, s2, false)
        end in
      let '(e, s4, has_exp) :=
        match s3 with
        | String c t =>
            if Ascii.eqb c "e"%char || Ascii.eqb c "E"%char then
              let (eneg, t1) :=
                match t with
                | String "-"%char u => (true, u)
                | String "+"%char u => (false, u)
                | _ => (false, t)
                end in
              let '(v, n, rest) := digits t1 0 O in
              match n with
              | O => (0, s3, false)
              | _ => (if eneg then - v else v, rest, true)
              end
            else (0, s3, false)
        | EmptyString => (0, s3, false)
        end in
      let signed := if neg then - m else m in
      if has_frac || has_exp then
        let p := e - Z.of_nat fraclen in
        let q :=
          if 0 <=? p then Qmake (signed * 10 ^ p) 1
          else Qmake signed (Z.to_pos (10 ^ (- p))) in
        Some (PFloat q, s4)
      else Some (PInt signed, s4)
  end.

Definition escape (c : ascii) : option ascii :=
  if Ascii.eqb c "034"%char then Some "034"%char
  else if Ascii.eqb c "\"%char then Some "\"%char
  else if Ascii.eqb c "/"%char then Some "/"%char
  else if Ascii.eqb c "b"%char then Some "008"%char
  else if Ascii.eqb c "f"%char then Some "012"%char
  else if Ascii.eqb c "n"%char then Some "010"%char
  else if Ascii.eqb c "r"%char then Some "013"%char
  else if Ascii.eqb c "t"%char then Some "009"%char
  else None.

(** The characters of a string literal up to its closing quote. *)
Fixpoint parse_chars (s : string) : option (string * string) :=
  match s with
  | EmptyString => None
  | String c t =>
      if Ascii.eqb c "034"%char then Some (EmptyString, t)
      else if Ascii.eqb c "\"%char then
        match t with
        | String d u =>
            match escape d, parse_chars u with
            | Some x, Some (str, rest) => Some (String x str, rest)
            | _, _ => None
            end
        | EmptyString => None
        end
      else if (N_of_ascii c <? 32)%N then None
      else
        match parse_chars t with
        | Some (str, rest) => Some (String c str, rest)
        | None => None
        end
  end.

Fixpoint parse_value (fuel : nat) (s : string) {struct fuel}
  : option (pyval * string) :=
  match fuel with
  | O => None
  | S f =>
      match s with
      | EmptyString => None
      | String c t =>
          if Ascii.eqb c "034"%char then
            match parse_chars t with
            | Some (str, rest) => Some (PStr str, rest)
            | None => None
            end
          else if Ascii.eqb c "["%char then
            match skip_ws t with
            | String "]"%char rest => Some (PList [], rest)
            | t' => parse_items f t' []
            end
          else if Ascii.eqb c "{"%char then
            match skip_ws t with
            | String "}"%char rest => Some (PDict [], rest)
            | t' => parse_members f t' []
            end
          else
            match strip_prefix "null" s with
            | Some rest => Some (PNone, rest)
            | None =>
                match strip_prefix "true" s with
                | Some rest => Some (PBool true, rest)
                | None =>
                    match strip_prefix "false" s with
                    | Some rest => Some (PBool false, rest)
                    | None => parse_number s
                    end
                end
            end
      end
  end
with parse_items (fuel : nat) (s : string) (acc : list pyval) {struct fuel}
  : option (pyval * string) :=
  match fuel with
  | O => None
  | S f =>
      match parse_value f s with
      | None => None
      | Some (v, rest) =>
          match skip_ws rest with
          | String "]"%char rest' => Some (PList (acc ++ [v]), rest')
          | String ","%char rest' => parse_items f (skip_ws rest') (acc ++ [v])
          | _ => None
          end
      end
  end
with parse_members (fuel : nat) (s : string) (acc : dict) {struct fuel}
  : option (pyval * string) :=
  match fuel with
  | O => None
  | S f =>
      match s with
      | String "034"%char t =>
          match parse_chars t with
          | None => None
          | Some (key, rest) =>
              match skip_ws rest with
              | String ":"%char rest1 =>
                  match parse_value f (skip_ws rest1) with
                  | None => None
                  | Some (v, rest2) =>
                      match skip_ws rest2 with
                      | String "}"%char rest' =>
                          Some (PDict (dset key v acc), rest')
                      | String ","%char rest' =>
                          parse_members f (skip_ws rest') (dset key v acc)
                      | _ => None
                      end
                  end
              | _ => None
              end
          end
      | _ => None
      end
  end.

Definition json_loads (s : string) : outcome pyval :=
  match parse_value (2 * String.length s + 2) (skip_ws s) with
  | Some (v, rest) =>
      match skip_ws rest with
      | EmptyString => Ok v
      | _ => Raise decode_error
      end
  | None => Raise decode_error
  end.

End Json.


(** ** Decision stage (lambda/decision/lambda_function.py) *)

Module Decision.

(** [invoke_model] is the outcome of [bedrock.invoke_model] for the prompt of
    this invocation: the text of the response body, or the fault.
    [build_decision_prompt] only formats the event into that prompt. *)
Record env : Type := {
  now_iso : string;
  BUCKET_PREFIX : option string;
  invoke_model : outcome string;
  claims_put_item : outcome unit;
  s3_put_object : outcome unit;
  audit_put_item : outcome unit
}.

Section WithDecoder.

(** [json.loads] *)
Variable json_loads : string -> outcome pyval.

(** The text of the first content block of the response. *)
Definition response_text (E : env) : outcome pyval :=
  let* body := invoke_model E in
  let* response_body := json_loads body in
  let* content := py_getitem response_body "content" in
  let* first := py_first content in
  py_getitem first "text".

(** [json.loads(content)] *)
Definition loads_value (content : pyval) : outcome pyval :=
  match content with
  | PStr text => json_loads text
  | _ => Raise (TypeError "the JSON object must be str, bytes or bytearray")
  end.

Definition fallback (e : exn) : pyval :=
  PDict [ ("decision", PStr "ERROR");
          ("reasoning", PStr ("Failed to process claim: " ++ exn_str e));
          ("confidence", PFloat (0 # 1)) ].

Definition invoke_claude (E : env) : pyval :=
  match (let* content := response_text E in loads_value content) with
  | Ok decision_data => decision_data
  | Raise e => fallback e
  end.

(** [claims_table.put_item]: the key attribute [claim_id] of the table is a
    string, and DynamoDB refuses an item whose key is missing or is not. *)
Definition put_claim_item (E : env) (cid : pyval) : outcome string :=
  match cid with
  | PStr c => let* _ := claims_put_item E in Ok c
  | _ => Raise (Exn "ClientError" "ValidationException: key attribute claim_id")
  end.

Definition handler_body (E : env) (w : world) (event : dict)
  : world * outcome dict :=
  let cid := dget "claim_id" event in
  let bucket_prefix :=
    match BUCKET_PREFIX E with Some b => b | None => "claimvoyant" end in
  match invoke_claude E with
  | PDict decision_data =>
      let version := now_iso E in
      match put_claim_item E cid with
      | Raise e => (w, Raise e)
      | Ok c =>
          let w1 :=
            put_claim
              {| claim_id := c;
                 version := version;
                 c_status := dget_or "decision" (PStr "ERROR") decision_data;
                 decision_data := decision_data;
                 policy_data := dget_or "policy_data" (PDict []) event;
                 extracted_data := dget_or "extracted_data" (PDict []) event;
                 entities := dget_or "entities" (PDict []) event;
                 timestamp := version |} w in
          let report :=
            [ ("claim_id", cid);
              ("timestamp", PStr version);
              ("decision", dget "decision" decision_data);
              ("reasoning", dget "reasoning" decision_data);
              ("confidence", dget "confidence" decision_data);
              ("estimated_payout", dget "estimated_payout" decision_data);
              ("deductible_applies", dget "deductible_applies" decision_data);
              ("required_actions",
               dget_or "required_actions" (PList []) decision_data);
              ("risk_factors", dget_or "risk_factors" (PList []) decision_data);
              ("policy_data", dget "policy_data" event);
              ("entities", dget "entities" event) ] in
          let report_key := c ++ "/final_decision.json" in
          match s3_put_object E with
          | Raise e => (w1, Raise e)
          | Ok _ =>
              let w2 :=
                put_report {| rep_bucket := bucket_prefix ++ "-reports";
                              rep_key := report_key;
                              rep_body := report |} w1 in
              match audit_put_item E with
              | Raise e => (w2, Raise e)
              | Ok _ =>
                  let entry :=
                    {| log_id := (cid, "-decision");
                       a_timestamp := version;
                       a_claim_id := cid;
                       agent := "decision";
                       action := "make_decision";
                       status := "success";
                       details :=
                         [ ("decision", dget "decision" decision_data);
                           ("confidence", dget "confidence" decision_data) ] |}
                  in
                  (put_audit entry w2,
                   Ok [ ("statusCode", PInt 200);
                        ("claim_id", cid);
                        ("version", PStr version);
                        ("decision", dget "decision" decision_data);
                        ("decision_data", PDict decision_data);
                        ("report_s3_key", PStr report_key) ])
              end
          end
      end
  | other => (w, Raise (AttributeError other "get"))
  end.

Definition lambda_handler (E : env) (w : world) (event : dict) : world * dict :=
  match handler_body E w event with
  | (w', Ok r) => (w', r)
  | (w', Raise e) =>
      (w', [ ("statusCode", PInt 500);
             ("claim_id", dget "claim_id" event);
             ("error", PStr (exn_str e)) ])
  end.

End WithDecoder.

End Decision.

(** ** The Claims table as the API reads it *)

(** [table] lists the items in the order a scan meets them; [outage] is the
    fault every call raises while the service cannot be reached. *)
Record dynamo : Type := {
  table : list claim_record;
  outage : option exn
}.

(** [sorted(l, key=key, reverse=True)]: stable, largest key first. *)
Fixpoint insert_desc {A : Type} (key : A -> string) (x : A) (l : list A)
  : list A :=
  match l with
  | [] => [x]
  | y :: l' =>
      if String.ltb (key x) (key y) then y :: insert_desc key x l'
      else x :: y :: l'
  end.

Definition sort_desc {A : Type} (key : A -> string) (l : list A) : list A :=
  fold_right (insert_desc key) [] l.

(** The value of a partition key is a string of 1 to 2048 bytes: DynamoDB
    refuses a request that names another, whatever the table holds. *)
Definition key_accepted (cid : string) : bool :=
  negb (String.eqb cid EmptyString)
  && (Z.of_nat (String.length cid) <=? 2048).

Definition key_refused : exn :=
  Exn "ClientError"
      "An error occurred (ValidationException) when calling the Query operation: One or more parameter values are not valid.".

(** [query(claim_id = :cid, ScanIndexForward=False, Limit=1)] *)
Definition query_latest (db : dynamo) (cid : string)
  : outcome (list claim_record) :=
  match outage db with
  | Some e => Raise e
  | None =>
      if key_accepted cid then
        Ok (firstn 1 (sort_desc version
                        (List.filter (fun r => String.eqb (claim_id r) cid)
                                     (table db))))
      else Raise key_refused
  end.

(** [scan(Limit=limit)]: the first [limit] items met; a limit below 1 is
    refused. *)
Definition scan (db : dynamo) (limit : Z) : outcome (list claim_record) :=
  match outage db with
  | Some e => Raise e
  | None =>
      if limit <? 1 then
        Raise (Exn "ParamValidationError" "Invalid value for parameter Limit")
      else Ok (firstn (Z.to_nat limit) (table db))
  end.

(** One turn of the grouping loop shared by both listings. *)
Definition group_step (claims_dict : list (string * claim_record))
    (item : claim_record) : list (string * claim_record) :=
  match dlookup (claim_id item) claims_dict with
  | None => dset (claim_id item) item claims_dict
  | Some current =>
      if String.ltb (version current) (version item)
      then dset (claim_id item) item claims_dict
      else claims_dict
  end.

Definition group_latest (items : list claim_record)
  : list (string * claim_record) :=
  fold_left group_step items [].

Definition summary (claim : claim_record) : dict :=
  [ ("claim_id", PStr (claim_id claim));
    ("version", PStr (version claim));
    ("status", c_status claim);
    ("timestamp", PStr (timestamp claim));
    ("decision", dget "decision" (decision_data claim));
    ("confidence", dget "confidence" (decision_data claim)) ].

Definition str_key (k : string) (d : dict) : string :=
  match dget k d with PStr s => s | _ => EmptyString end.

(** The listing both modules compute from the scanned items. *)
Definition recent_claims (items : list claim_record) : list dict :=
  sort_desc (str_key "timestamp") (map summary (map snd (group_latest items))).

Definition processing (cid : string) : dict :=
  [ ("claim_id", PStr cid);
    ("status", PStr "processing");
    ("message", PStr "Claim is being processed") ].

Definition claim_details (cid : string) (claim : claim_record) : dict :=
  [ ("claim_id", PStr cid);
    ("version", PStr (version claim));
    ("status", c_status claim);
    ("timestamp", PStr (timestamp claim));
    ("decision", dget "decision" (decision_data claim));
    ("reasoning", dget "reasoning" (decision_data claim));
    ("confidence", dget "confidence" (decision_data claim));
    ("estimated_payout", dget "estimated_payout" (decision_data claim));
    ("entities", entities claim) ].

(** ** The FastAPI module (lambda/api/lambda_function.py) *)

Module Api.

Inductive http_result : Type :=
| Returns (body : dict)
| HTTPException (status_code : Z) (detail : string).

Definition get_claim (db : dynamo) (cid : string) : http_result :=
  match query_latest db cid with
  | Ok [] => Returns (processing cid)
  | Ok (claim :: _) => Returns (claim_details cid claim)
  | Raise e => HTTPException 500 (exn_str e)
  end.

Definition list_claims (db : dynamo) (limit : Z) : http_result :=
  match scan db limit with
  | Ok items =>
      Returns [ ("claims",
                 PList (map PDict (firstn (Z.to_nat limit)
                                          (recent_claims items)))) ]
  | Raise e => HTTPException 500 (exn_str e)
  end.

End Api.

(** ** The plain module (lambda/api/lambda_function_simple.py) *)

Module ApiSimple.

(** [body] is the dictionary whose JSON text the response carries. *)
Record gateway_response : Type := {
  gw_statusCode : Z;
  gw_headers : dict;
  gw_body : dict
}.

Definition response (status_code : Z) (body : dict) : gateway_response :=
  {| gw_statusCode := status_code;
     gw_headers :=
       [ ("Content-Type", PStr "application/json");
         ("Access-Control-Allow-Origin", PStr "*");
         ("Access-Control-Allow-Methods", PStr "GET, POST, OPTIONS");
         ("Access-Control-Allow-Headers", PStr "Content-Type") ];
     gw_body := body |}.

Definition handle_list_claims (db : dynamo) : gateway_response :=
  match scan db 10 with
  | Ok items =>
      response 200 [ ("claims", PList (map PDict (recent_claims items))) ]
  | Raise e => response 500 [ ("error", PStr (exn_str e)) ]
  end.

Definition handle_get_claim (db : dynamo) (cid : string) : gateway_response :=
  match query_latest db cid with
  | Ok [] => response 200 (processing cid)
  | Ok (claim :: _) => response 200 (claim_details cid claim)
  | Raise e => response 500 [ ("error", PStr (exn_str e)) ]
  end.

End ApiSimple.

(** ** Uploads and the rest of the API *)

(** A Step Functions execution, as [start_execution] is asked to start it;
    [exec_input] is the dictionary whose JSON text is the input. *)
Record execution : Type := {
  exec_name : string;
  exec_input : dict
}.

(** An object put into a bucket. *)
Record s3_object : Type := {
  obj_bucket : string;
  obj_key : string;
  obj_body : string;
  obj_content_type : string
}.

(** [s[n:]] *)
Fixpoint drop_str (n : nat) (s : string) : string :=
  match n, s with
  | S n', String _ t => drop_str n' t
  | _, _ => s
  end.

(** [s.split(sep)[-1]] for a separator of one character. *)
Fixpoint last_part (sep : ascii) (s acc : string) : string :=
  match s with
  | EmptyString => acc
  | String c t =>
      if Ascii.eqb c sep then last_part sep t EmptyString
      else last_part sep t (acc ++ String c EmptyString)
  end.

(** [v == s] for a string [s]. *)
Definition is_str (v : pyval) (s : string) : bool :=
  match v with
  | PStr x => String.eqb x s
  | _ => false
  end.

(** *** The handler of the plain module (lambda/api/lambda_function_simple.py) *)

Module ApiSimpleHandler.

(** The clock is read once for the health check, and twice by an upload: for
    the claim id and for the name of the execution. *)
Record env : Type := {
  now_iso : string;
  now_compact : string;
  now_compact_again : string;
  BUCKET_PREFIX : option string;
  STATE_MACHINE_ARN : option string;
  start_execution : outcome unit
}.

Definition bucket_prefix (E : env) : string :=
  match BUCKET_PREFIX E with Some b => b | None => "claimvoyant" end.

Definition state_machine_arn (E : env) : string :=
  match STATE_MACHINE_ARN E with Some a => a | None => EmptyString end.

Definition handle_health_check (E : env) : ApiSimple.gateway_response :=
  ApiSimple.response 200
    [ ("status", PStr "ok");
      ("service", PStr "Claimvoyant API");
      ("version", PStr "1.0.0");
      ("timestamp", PStr (now_iso E)) ].

(** The stage prefix is taken off once, and the path is made to start with a
    slash. *)
Definition normalize (raw_path : string) : string :=
  let path :=
    if String.prefix "/prod/" raw_path then drop_str 5 raw_path
    else if String.prefix "/prod" raw_path then
      match drop_str 5 raw_path with
      | EmptyString => "/"
      | p => p
      end
    else raw_path in
  if String.prefix "/" path then path else "/" ++ path.

Section WithCodecs.

(** [json.loads], and [base64.b64decode(...).decode("utf-8")]. *)
Variable json_loads : string -> outcome pyval.
Variable b64decode_utf8 : string -> outcome string.

(** The body of an upload is decoded and parsed, and then not used. *)
Definition parse_body (event : dict) : outcome pyval :=
  let body := dget_or "body" (PStr EmptyString) event in
  let* body :=
    if truthy (dget "isBase64Encoded" event) then
      match body with
      | PStr b => let* text := b64decode_utf8 b in Ok (PStr text)
      | _ => Raise (TypeError "argument should be a bytes-like object or ASCII string")
      end
    else Ok body in
  if truthy body then
    match body with
    | PStr text => json_loads text
    | _ => Raise (TypeError "the JSON object must be str, bytes or bytearray")
    end
  else Ok (PDict []).

Definition handle_upload_claim (E : env) (started : list execution)
    (event : dict) : list execution * ApiSimple.gateway_response :=
  match parse_body event with
  | Raise e => (started, ApiSimple.response 500 [ ("error", PStr (exn_str e)) ])
  | Ok _ =>
      let claim_id := "CLAIM-" ++ now_compact E in
      let accepted :=
        ApiSimple.response 200
          [ ("claim_id", PStr claim_id);
            ("status", PStr "processing");
            ("message", PStr "Claim uploaded successfully") ] in
      if truthy (PStr (state_machine_arn E)) then
        let execution_input :=
          [ ("claim_id", PStr claim_id);
            ("bucket", PStr (bucket_prefix E ++ "-raw-claims"));
            ("key", PStr (claim_id ++ "/test.txt")) ] in
        match start_execution E with
        | Raise e =>
            (started, ApiSimple.response 500 [ ("error", PStr (exn_str e)) ])
        | Ok _ =>
            ((started ++ [ {| exec_name := claim_id ++ "-" ++ now_compact_again E;
                              exec_input := execution_input |} ])%list,
             accepted)
        end
      else (started, accepted)
  end.

(** Method and path of the request. *)
Definition request_line (event : dict) : outcome (pyval * string) :=
  let* http := py_get_or (dget_or "requestContext" (PDict []) event)
                         "http" (PDict []) in
  let* http_method := py_get_or http "method" (PStr "GET") in
  match dget_or "rawPath" (PStr "/") event with
  | PStr raw_path => Ok (http_method, normalize raw_path)
  | other => Raise (AttributeError other "startswith")
  end.

Definition handler (E : env) (db : dynamo) (started : list execution)
    (event : dict) : list execution * ApiSimple.gateway_response :=
  match request_line event with
  | Raise e => (started, ApiSimple.response 500 [ ("error", PStr (exn_str e)) ])
  | Ok (http_method, path) =>
      if String.eqb path "/" && is_str http_method "GET" then
        (started, handle_health_check E)
      else if String.eqb path "/api/v1/claims" && is_str http_method "GET" then
        (started, ApiSimple.handle_list_claims db)
      else if String.prefix "/api/v1/claims/" path && is_str http_method "GET"
      then
        let claim_id := last_part "/"%char path EmptyString in
        (started, ApiSimple.handle_get_claim db claim_id)
      else if String.eqb path "/api/v1/claims/upload"
              && is_str http_method "POST" then
        handle_upload_claim E started event
      else
        (started,
         ApiSimple.response 404
           [ ("error", PStr "Not found");
             ("path", PStr path);
             ("method", http_method) ])
  end.

End WithCodecs.

End ApiSimpleHandler.

(** *** The other routes of the FastAPI module (lambda/api/lambda_function.py) *)

Module ApiRoutes.

Record upload_file : Type := {
  filename : option string;
  content : string;
  content_type : option string
}.

(** [s3_put_object key] is the outcome of putting the object with that key. *)
Record env : Type := {
  now_iso : string;
  now_compact : string;
  now_compact_again : string;
  BUCKET_PREFIX : option string;
  STATE_MACHINE_ARN : option string;
  s3_put_object : string -> outcome unit;
  start_execution : outcome unit
}.

(** What the route writes to: the puts made to the bucket of raw claims, in
    their order (in the bucket a later put replaces an earlier one with its
    key), and the executions started. *)
Record cloud : Type := {
  objects : list s3_object;
  executions : list execution
}.

Definition bucket_prefix (E : env) : string :=
  match BUCKET_PREFIX E with Some b => b | None => "claimvoyant" end.

Definition state_machine_arn (E : env) : string :=
  match STATE_MACHINE_ARN E with Some a => a | None => EmptyString end.

Definition root (E : env) : dict :=
  [ ("status", PStr "ok");
    ("service", PStr "Claimvoyant API");
    ("version", PStr "1.0.0");
    ("timestamp", PStr (now_iso E)) ].

(** [f"{claim_id}/{file.filename}"] *)
Definition file_key (claim_id : string) (file : upload_file) : string :=
  claim_id ++ "/" ++ match filename file with Some n => n | None => "None" end.

Definition stored_object (E : env) (claim_id : string) (file : upload_file)
  : s3_object :=
  {| obj_bucket := bucket_prefix E ++ "-raw-claims";
     obj_key := file_key claim_id file;
     obj_body := content file;
     obj_content_type :=
       match content_type file with
       | Some t => if String.eqb t EmptyString
                   then "application/octet-stream" else t
       | None => "application/octet-stream"
       end |}.

Definition uploaded_entry (claim_id : string) (file : upload_file) : dict :=
  [ ("filename",
     match filename file with Some n => PStr n | None => PNone end);
    ("s3_key", PStr (file_key claim_id file));
    ("size", PInt (Z.of_nat (String.length (content file)))) ].

(** The loop over the files: it stops at the first put that faults, and what
    was put before stays. *)
Fixpoint upload_files (E : env) (claim_id : string) (files : list upload_file)
    (objs : list s3_object) (uploaded_files : list dict)
  : list s3_object * outcome (list dict) :=
  match files with
  | [] => (objs, Ok uploaded_files)
  | file :: rest =>
      match s3_put_object E (file_key claim_id file) with
      | Raise e => (objs, Raise e)
      | Ok _ =>
          upload_files E claim_id rest
            (objs ++ [stored_object E claim_id file])%list
            (uploaded_files ++ [uploaded_entry claim_id file])%list
      end
  end.

Definition upload_claim (E : env) (c : cloud) (files : list upload_file)
  : cloud * Api.http_result :=
  let claim_id := "CLAIM-" ++ now_compact E in
  match upload_files E claim_id files (objects c) [] with
  | (objs, Raise e) =>
      ({| objects := objs; executions := executions c |},
       Api.HTTPException 500 (exn_str e))
  | (objs, Ok uploaded_files) =>
      let accepted :=
        Api.Returns
          [ ("claim_id", PStr claim_id);
            ("status", PStr "processing");
            ("files", PList (map PDict uploaded_files));
            ("message",
             PStr "Claim uploaded successfully and processing started") ] in
      if truthy (PStr (state_machine_arn E)) then
        match uploaded_files with
        | [] =>
            ({| objects := objs; executions := executions c |},
             Api.HTTPException 500 "list index out of range")
        | first :: _ =>
            match py_getitem (PDict first) "s3_key" with
            | Raise e =>
                ({| objects := objs; executions := executions c |},
                 Api.HTTPException 500 (exn_str e))
            | Ok key =>
                match start_execution E with
                | Raise e =>
                    ({| objects := objs; executions := executions c |},
                     Api.HTTPException 500 (exn_str e))
                | Ok _ =>
                    ({| objects := objs;
                        executions :=
                          (executions c ++
                           [ {| exec_name :=
                                  claim_id ++ "-" ++ now_compact_again E;
                                exec_input :=
                                  [ ("claim_id", PStr claim_id);
                                    ("bucket",
                                     PStr (bucket_prefix E ++ "-raw-claims"));
                                    ("key", key) ] |} ])%list |},
                     accepted)
                end
            end
        end
      else ({| objects := objs; executions := executions c |}, accepted)
  end.

(** The AuditLog table as the route reads it: its items in scan order, the
    outcome of a query of the index on the claim id, and the fault of a scan
    when scans fail. *)
Record audit_table : Type := {
  audit_items : list audit_entry;
  index_query : string -> outcome (list audit_entry);
  scan_fault : option exn
}.

(** [scan(FilterExpression="claim_id = :cid")] *)
Definition scan_claim (t : audit_table) (cid : string)
  : outcome (list audit_entry) :=
  match scan_fault t with
  | Some e => Raise e
  | None =>
      Ok (List.filter (fun e => is_str (a_claim_id e) cid) (audit_items t))
  end.

(** The answer carries the items with their details decoded, which is how an
    [audit_entry] holds them. *)
Inductive audit_result : Type :=
| AuditLogs (claim_id : string) (audit_logs : list audit_entry)
| AuditException (status_code : Z) (detail : string).

Definition get_claim_audit_log (t : audit_table) (cid : string)
  : audit_result :=
  match index_query t cid with
  | Ok logs => AuditLogs cid logs
  | Raise _ =>
      match scan_claim t cid with
      | Ok logs => AuditLogs cid logs
      | Raise scan_error => AuditException 500 (exn_str scan_error)
      end
  end.

End ApiRoutes.

(** *** The prompt of the Decision stage (lambda/decision/lambda_function.py) *)

Module DecisionPrompt.

Definition nl : string := String "010"%char EmptyString.

Definition quoted (s : string) : string :=
  String "034"%char (s ++ String "034"%char EmptyString).

Section WithFormatting.

(** [json.dumps(v, indent=2)], and [str(v)] as an f-string formats a value. *)
Variable json_dumps_indent2 : pyval -> string.
Variable py_str : pyval -> string.

Definition build_decision_prompt (event : dict) : string :=
  let claim_id := dget "claim_id" event in
  let policy_data := dget_or "policy_data" (PDict []) event in
  let extracted_data := dget_or "extracted_data" (PDict []) event in
  let entities := dget_or "entities" (PDict []) event in
  join nl
    [ "You are an expert auto insurance claims adjuster. Analyze the following claim and provide a decision.";
      EmptyString;
      "CLAIM ID: " ++ py_str claim_id;
      EmptyString;
      "POLICY INFORMATION:";
      json_dumps_indent2 policy_data;
      EmptyString;
      "EXTRACTED CLAIM DATA:";
      json_dumps_indent2 extracted_data;
      EmptyString;
      "EXTRACTED ENTITIES:";
      json_dumps_indent2 entities;
      EmptyString;
      "INSTRUCTIONS:";
      "1. Review the policy coverage and limits";
      "2. Assess the claim validity based on extracted information";
      "3. Check if the claim falls within coverage";
      "4. Determine if deductible applies";
      "5. Calculate estimated payout (if applicable)";
      "6. Provide a clear decision: APPROVED, DENIED, or PENDING";
      EmptyString;
      "RESPOND WITH VALID JSON ONLY (no markdown, no code blocks):";
      "{";
      "  " ++ quoted "decision" ++ ": " ++ quoted "APPROVED|DENIED|PENDING" ++ ",";
      "  " ++ quoted "reasoning" ++ ": "
           ++ quoted "Brief explanation of your decision (2-3 sentences)" ++ ",";
      "  " ++ quoted "confidence" ++ ": 0.0-1.0,";
      "  " ++ quoted "estimated_payout" ++ ": 0.0,";
      "  " ++ quoted "deductible_applies" ++ ": true|false,";
      "  " ++ quoted "required_actions" ++ ": [" ++ quoted "list" ++ ", "
           ++ quoted "of" ++ ", " ++ quoted "actions" ++ "],";
      "  " ++ quoted "risk_factors" ++ ": [" ++ quoted "identified" ++ ", "
           ++ quoted "risks" ++ "]";
      "}";
      EmptyString;
      "Respond now with JSON:" ].

End WithFormatting.

End DecisionPrompt.

(** ** The set-up script (scripts/init_weaviate.py) *)

Module InitWeaviate.

(** The requests the script makes of Weaviate, in the order it makes them.
    An insertion is named by the policy it inserts. *)
Inductive call : Type :=
| Connect (cluster_url api_key : string)
| Delete (name : string)
| Create (name : string)
| Insert (policy_id : string)
| Close.

(** The variables of the environment, and the outcome of each request; the
    value of [is_ready] is only printed. *)
Record env : Type := {
  WEAVIATE_URL : option string;
  WEAVIATE_API_KEY : option string;
  connect : outcome unit;
  list_all : outcome (list string);
  delete : string -> outcome unit;
  create : string -> outcome unit;
  insert : string -> outcome unit;
  close : outcome unit
}.

(** The lines still to be read from the terminal, and the requests made. *)
Record console : Type := { stdin : list string; calls : list call }.

Definition script (A : Type) : Type := console -> console * outcome A.

Definition ret {A : Type} (a : A) : script A := fun s => (s, Ok a).

Definition bind {A B : Type} (m : script A) (k : A -> script B) : script B :=
  fun s =>
    match m s with
    | (s', Ok a) => k a s'
    | (s', Raise e) => (s', Raise e)
    end.

Notation "'run' x ':=' m 'in' k" := (bind m (fun x => k))
  (at level 10, x name, m at level 200, k at level 200, only parsing).

Definition lift {A : Type} (o : outcome A) : script A := fun s => (s, o).

(** [input(prompt)] *)
Definition input : script string :=
  fun s =>
    match stdin s with
    | [] => (s, Raise (Exn "EOFError" "EOF when reading a line"))
    | line :: rest => ({| stdin := rest; calls := calls s |}, Ok line)
    end.

(** A request is made, and then succeeds or faults. *)
Definition request (c : call) (o : outcome unit) : script unit :=
  fun s => ({| stdin := stdin s; calls := (calls s ++ [c])%list |}, o).

(** [os.getenv(name, default)], the default already evaluated. *)
Definition getenv (value : option string) (default : string) : string :=
  match value with Some v => v | None => default end.

Definition create_collections (E : env) : script unit :=
  run _ := request (Create "PolicyDocuments") (create E "PolicyDocuments") in
  request (Create "ClaimArtifacts") (create E "ClaimArtifacts").

Definition sample_policies : list string :=
  [ "AUTO-001"; "AUTO-002"; "AUTO-003" ].

Fixpoint insert_each (E : env) (policies : list string) : script unit :=
  match policies with
  | [] => ret tt
  | policy :: rest =>
      run _ := request (Insert policy) (insert E policy) in
      insert_each E rest
  end.

Definition load_sample_policies (E : env) : script unit :=
  insert_each E sample_policies.

(** [recreate] is a single variable: the second question overwrites the
    answer to the first.  It is read only where PolicyDocuments exists, and
    there it has been assigned. *)
Definition main (E : env) : script unit :=
  run url_line := input in
  let weaviate_url := getenv (WEAVIATE_URL E) (strip url_line) in
  run key_line := input in
  let weaviate_api_key := getenv (WEAVIATE_API_KEY E) (strip key_line) in
  run _ := request (Connect weaviate_url weaviate_api_key) (connect E) in
  run existing_collections := lift (list_all E) in
  run recreate :=
    (if existsb (String.eqb "PolicyDocuments") existing_collections then
       run line := input in
       let recreate := lower (strip line) in
       run _ := (if String.eqb recreate "y"
                 then request (Delete "PolicyDocuments")
                              (delete E "PolicyDocuments")
                 else ret tt) in
       ret (Some recreate)
     else ret None) in
  run recreate :=
    (if existsb (String.eqb "ClaimArtifacts") existing_collections then
       run line := input in
       let recreate := lower (strip line) in
       run _ := (if String.eqb recreate "y"
                 then request (Delete "ClaimArtifacts")
                              (delete E "ClaimArtifacts")
                 else ret tt) in
       ret (Some recreate)
     else ret recreate) in
  run _ :=
    (if negb (existsb (String.eqb "PolicyDocuments") existing_collections)
     then create_collections E
     else
       match recreate with
       | Some answer =>
           if String.eqb answer "y" then create_collections E else ret tt
       | None =>
           lift (Raise (Exn "UnboundLocalError"
                            "local variable 'recreate' referenced before assignment"))
       end) in
  run line := input in
  let load_sample := lower (strip line) in
  run _ := (if negb (String.eqb load_sample "n")
            then load_sample_policies E else ret tt) in
  request Close (close E).

End InitWeaviate.

(** ** Sample worlds, environments and events *)

Definition empty_world : world :=
  {| audit_log := []; claims := []; artifacts := []; reports := [] |}.

Definition fault (msg : string) : exn := Exn "Exception" msg.

(** An Intake environment in which everything but, possibly, the content
    index answers. *)
Definition intake_env (connect insert : outcome unit) : Intake.env :=
  {| Intake.now_compact := "20251022101500";
     Intake.now_iso := "2025-10-22T10:15:00.000000";
     Intake.textract_start := Ok "job-1";
     Intake.textract_polls :=
       [ Intake.PollResult "IN_PROGRESS" [] None;
         Intake.PollResult "SUCCEEDED"
           [ {| Intake.BlockType := "LINE";
                Intake.Text := Some "Policy: AUTO-042 reported" |};
             {| Intake.BlockType := "LINE";
                Intake.Text := Some "incident 2025-10-22" |} ] None ];
     Intake.rekognition_detect_labels :=
       Ok [ {| Intake.Name := "Car"; Intake.Confidence := 912 # 10 |} ];
     Intake.rekognition_detect_text := Ok [];
     Intake.weaviate_connect := connect;
     Intake.weaviate_insert := insert;
     Intake.audit_put_item := Ok tt |}.

Definition upload_event : dict :=
  [ ("claim_id", PStr "CLAIM-20251022101500");
    ("bucket", PStr "claimvoyant-raw-claims");
    ("key", PStr "CLAIM-20251022101500/report.pdf") ].

(** The same Intake environment with other outcomes of the index write. *)
Definition with_index (E : Intake.env) (connect insert : outcome unit)
  : Intake.env :=
  {| Intake.now_compact := Intake.now_compact E;
     Intake.now_iso := Intake.now_iso E;
     Intake.textract_start := Intake.textract_start E;
     Intake.textract_polls := Intake.textract_polls E;
     Intake.rekognition_detect_labels := Intake.rekognition_detect_labels E;
     Intake.rekognition_detect_text := Intake.rekognition_detect_text E;
     Intake.weaviate_connect := connect;
     Intake.weaviate_insert := insert;
     Intake.audit_put_item := Intake.audit_put_item E |}.

(** What the caller and a reader of the audit log see of an execution. *)
Definition observed (x : option (world * dict))
  : option (list audit_entry * dict) :=
  match x with
  | Some (w, r) => Some (audit_log w, r)
  | None => None
  end.

Definition policy_env (connect : outcome unit) (found : list dict)
  : Policy.env :=
  {| Policy.now_iso := "2025-10-22T10:15:02.000000";
     Policy.weaviate_connect := connect;
     Policy.hybrid := fun _ => Ok found;
     Policy.weaviate_close := Ok tt;
     Policy.audit_put_item := Ok tt |}.

Definition intake_output : dict :=
  [ ("statusCode", PInt 200);
    ("claim_id", PStr "CLAIM-20251022101500");
    ("bucket", PStr "claimvoyant-raw-claims");
    ("key", PStr "CLAIM-20251022101500/photo.jpg");
    ("extracted_data",
     PDict [ ("labels",
              PList [ PDict [ ("name", PStr "Car");
                              ("confidence", PFloat (912 # 10)) ] ]);
             ("detected_text", PStr "POL-77");
             ("file_type", PStr "image") ]);
    ("entities",
     PDict [ ("policy_number", PStr "POL-77"); ("claimant_name", PNone);
             ("incident_date", PNone); ("incident_location", PNone);
             ("vehicle_info", PNone) ]) ].

Definition damage_env : Damage.env :=
  {| Damage.now_iso := "2025-10-22T10:15:03.000000";
     Damage.audit_put_item := Ok tt |}.

Definition valuation_env : Valuation.env :=
  {| Valuation.now_iso := "2025-10-22T10:15:04.000000";
     Valuation.audit_put_item := Ok tt |}.

(** The outputs of the next stages when each is fed its predecessor's. *)
Definition policy_output : dict :=
  snd (Policy.lambda_handler (policy_env (Ok tt) []) empty_world intake_output).

Definition damage_output : dict :=
  snd (Damage.lambda_handler damage_env empty_world policy_output).

Definition valuation_output : dict :=
  snd (Valuation.lambda_handler valuation_env empty_world damage_output).

Definition dq : string := String "034"%char EmptyString.

(** The body of a model response whose only content block is [text] (a text
    without quotes or backslashes). *)
Definition bedrock_body (text : string) : string :=
  "{" ++ dq ++ "content" ++ dq ++ ": [{" ++ dq ++ "type" ++ dq ++ ": "
      ++ dq ++ "text" ++ dq ++ ", " ++ dq ++ "text" ++ dq ++ ": "
      ++ dq ++ text ++ dq ++ "}]}".

Definition decision_env (model : outcome string) (s3 : outcome unit)
  : Decision.env :=
  {| Decision.now_iso := "2025-10-22T10:15:05.000000";
     Decision.BUCKET_PREFIX := None;
     Decision.invoke_model := model;
     Decision.claims_put_item := Ok tt;
     Decision.s3_put_object := s3;
     Decision.audit_put_item := Ok tt |}.

(** The reasoning call of the Decision stage: the response text, decoded. *)
Definition reasoning (json_loads : string -> outcome pyval) (E : Decision.env)
  : outcome pyval :=
  let* content := Decision.response_text json_loads E in
  Decision.loads_value json_loads content.

Definition fallback_decision (e : exn) : dict :=
  [ ("decision", PStr "ERROR");
    ("reasoning", PStr ("Failed to process claim: " ++ exn_str e));
    ("confidence", PFloat (0 # 1)) ].

(** [r] is among [items], and no item of [items] with its claim id has a
    later version. *)
Definition latest_among (items : list claim_record) (r : claim_record) : Prop :=
  In r items
  /\ forall r', In r' items -> claim_id r' = claim_id r ->
                String.leb (version r') (version r) = true.

Definition decided (cid version : string) : claim_record :=
  {| claim_id := cid;
     version := version;
     c_status := PStr "APPROVED";
     decision_data := [ ("decision", PStr "APPROVED");
                        ("confidence", PFloat (9 # 10)) ];
     policy_data := PDict [];
     extracted_data := PDict [];
     entities := PDict [];
     timestamp := version |}.

(** Eleven decisions on one claim, in the order of their versions. *)
Definition eleven_versions : dynamo :=
  {| table :=
       map (fun n => decided "CLAIM-20251022101500"
                             ("2025-10-22T10:15:" ++ n ++ ".000000"))
           [ "01"; "02"; "03"; "04"; "05"; "06"; "07"; "08"; "09"; "10"; "11" ];
     outage := None |}.

(** [forwards fields event r]: each of [fields] that the input has is in the
    output with the same value. *)
Definition forwards (fields : list string) (event r : dict) : Prop :=
  forall f v, In f fields -> dlookup f event = Some v -> dlookup f r = Some v.

(** ** The vocabulary of the properties *)

Definition spec_example_text : string :=
  "Policy: AUTO-042 reported incident 2025-10-22".

(** The name of a well-formed label: a dictionary whose "name" is a string. *)
Definition label_name (label : pyval) : option string :=
  match label with
  | PDict d =>
      match dlookup "name" d with
      | Some (PStr n) => Some n
      | _ => None
      end
  | _ => None
  end.

(** Two names are equal up to case. *)
Definition same_word (a b : string) : Prop := lower a = lower b.

Definition in_vocabulary (n : string) : bool :=
  existsb (String.eqb (lower n)) Damage.vocabulary.

Definition car_labels : pyval :=
  PDict [ ("labels",
           PList [ PDict [ ("name", PStr "Car");
                           ("confidence", PFloat (912 # 10)) ] ]) ].

Definition tree_labels : pyval :=
  PDict [ ("labels",
           PList [ PDict [ ("name", PStr "Tree");
                           ("confidence", PFloat (80 # 1)) ] ]) ].

(** What an execution leaves in the audit log: one entry of the stage when
    it returns 200, nothing when it returns 500. *)
Definition audited (stage : string) (w w' : world) (r : dict) : Prop :=
  (statusCode r = PInt 200
   /\ exists entry,
        audit_log w' = (audit_log w ++ [entry])%list /\ agent entry = stage)
  \/ (statusCode r = PInt 500 /\ audit_log w' = audit_log w).

Record grouped (seen : list claim_record)
    (d : list (string * claim_record)) : Prop := {
  grouped_keys : NoDup (dkeys d);
  grouped_latest : forall k r, dlookup k d = Some r ->
                               claim_id r = k /\ latest_among seen r;
  grouped_all : forall r, In r seen -> dlookup (claim_id r) d <> None
}.

(** ** Vocabulary of the further properties *)

(** The extraction step of the Intake handler, chosen by the extension of
    the key. *)
Definition intake_extraction (E : Intake.env) (key_s : string) : option dict :=
  let file_extension := last_segment (lower key_s) EmptyString in
  if String.eqb file_extension "pdf" then
    option_map (dset "file_type" (PStr "pdf")) (Intake.extract_text_from_pdf E)
  else if existsb (String.eqb file_extension) ["jpg"; "jpeg"; "png"] then
    Some (dset "file_type" (PStr "image") (Intake.analyze_image E))
  else
    Some [ ("file_type", PStr "unknown");
           ("error", PStr ("Unsupported file type: " ++ file_extension)) ].

(** The text the entities are searched in. *)
Definition intake_text (extracted_data : dict) : outcome string :=
  let* t := py_concat (dget_or "text" (PStr EmptyString) extracted_data)
                      (PStr " ") in
  py_concat (PStr t)
            (dget_or "detected_text" (PStr EmptyString) extracted_data).

(** The claim id the Intake handler works with. *)
Definition intake_claim_id (E : Intake.env) (event : dict) : pyval :=
  if truthy (dget "claim_id" event) then dget "claim_id" event
  else PStr ("CLAIM-" ++ Intake.now_compact E).

(** What a successful Intake execution stores, audits and returns. *)
Definition intake_artifact (E : Intake.env) (event : dict)
    (bucket : pyval) (key_s : string) (extracted_data : dict) (text : string)
  : artifact :=
  {| art_claim_id := intake_claim_id E event;
     s3_bucket := bucket;
     s3_key := key_s;
     art_file_type := dget_or "file_type" (PStr "unknown") extracted_data;
     extracted_text := slice_to 50000 text;
     art_entities := Intake.extract_entities text;
     metadata := extracted_data |}.

Definition intake_entry (E : Intake.env) (event : dict)
    (bucket : pyval) (key_s : string) (extracted_data : dict) (text : string)
  : audit_entry :=
  {| log_id := (intake_claim_id E event, "-intake");
     a_timestamp := Intake.now_iso E;
     a_claim_id := intake_claim_id E event;
     agent := "intake";
     action := "extract_data";
     status := if negb (truthy (dget "error" extracted_data))
               then "success" else "error";
     details := [ ("bucket", bucket);
                  ("key", PStr key_s);
                  ("file_type", dget "file_type" extracted_data);
                  ("entities", PDict (Intake.extract_entities text)) ] |}.

Definition intake_result (E : Intake.env) (event : dict)
    (bucket : pyval) (key_s : string) (extracted_data : dict) (text : string)
  : dict :=
  [ ("statusCode", PInt 200);
    ("claim_id", intake_claim_id E event);
    ("bucket", bucket);
    ("key", PStr key_s);
    ("extracted_data", PDict extracted_data);
    ("entities", PDict (Intake.extract_entities text)) ].

(** A poll answer that keeps the Textract loop waiting. *)
Definition pending (p : Intake.textract_poll) : Prop :=
  match p with
  | Intake.PollRaise _ => False
  | Intake.PollResult st _ _ => st <> "SUCCEEDED" /\ st <> "FAILED"
  end.

(** The text is ASCII: every character has a code below 128. *)
Fixpoint ascii_text (s : string) : Prop :=
  match s with
  | EmptyString => True
  | String c t => (N_of_ascii c < 128)%N /\ ascii_text t
  end.

(** None of the digits 0 to 9 occurs in the text. *)
Fixpoint no_digit (s : string) : Prop :=
  match s with
  | EmptyString => True
  | String c t => is_digit c = false /\ no_digit t
  end.

(** No match of the pattern can do without a digit. *)
Inductive needs_digit : regex -> Prop :=
| needs_digit_cls p :
    (forall c, p c = true -> is_digit c = true) -> needs_digit (Cls p)
| needs_digit_left r1 r2 : needs_digit r1 -> needs_digit (Cat r1 r2)
| needs_digit_right r1 r2 : needs_digit r2 -> needs_digit (Cat r1 r2)
| needs_digit_alt r1 r2 :
    needs_digit r1 -> needs_digit r2 -> needs_digit (Alt r1 r2).

(** The labels of the extracted data are dictionaries with a string name. *)
Definition labels_named (extracted_data : dict) : Prop :=
  exists labels,
    dget_or "labels" (PList []) extracted_data = PList labels
    /\ Forall (fun l => label_name l <> None) labels.

(** A run of the Intake stage on the sample upload. *)
Definition intake_upload_run : world * dict :=
  match Intake.lambda_handler (intake_env (Ok tt) (Ok tt)) empty_world
          upload_event with
  | Some x => x
  | None => (empty_world, [])
  end.

(** The Claims table as the API finds it after the stages have written to
    the world. *)
Definition dynamo_of (w : world) : dynamo :=
  {| table := claims w; outage := None |}.

(** The record, the report and the audit entry of a Decision execution for
    the claim [c] that decided [decision_data]. *)
Definition decision_record (E : Decision.env) (event : dict) (c : string)
    (decision_data : dict) : claim_record :=
  {| claim_id := c;
     version := Decision.now_iso E;
     c_status := dget_or "decision" (PStr "ERROR") decision_data;
     decision_data := decision_data;
     policy_data := dget_or "policy_data" (PDict []) event;
     extracted_data := dget_or "extracted_data" (PDict []) event;
     entities := dget_or "entities" (PDict []) event;
     timestamp := Decision.now_iso E |}.

Definition decision_report_key (c : string) : string :=
  c ++ "/final_decision.json".

(** Two events agree on what the Decision stage reads. *)
Definition same_decision_inputs (e1 e2 : dict) : Prop :=
  forall k, In k [ "claim_id"; "policy_data"; "extracted_data"; "entities" ] ->
            dlookup k e1 = dlookup k e2.

(** [l] is in order of keys that do not increase. *)
Fixpoint descending {A : Type} (key : A -> string) (l : list A) : Prop :=
  match l with
  | [] => True
  | x :: l' =>
      (forall y, In y l' -> String.leb (key y) (key x) = true)
      /\ descending key l'
  end.

(** An audit table whose index on the claim id was never created. *)
Definition audit_table_without_index : ApiRoutes.audit_table :=
  {| ApiRoutes.audit_items := audit_log (fst intake_upload_run);
     ApiRoutes.index_query := fun _ => Raise (fault "index not found");
     ApiRoutes.scan_fault := None |}.

Definition simple_env (arn : option string) : ApiSimpleHandler.env :=
  {| ApiSimpleHandler.now_iso := "2025-10-22T10:15:00.000000";
     ApiSimpleHandler.now_compact := "20251022101500";
     ApiSimpleHandler.now_compact_again := "20251022101500";
     ApiSimpleHandler.BUCKET_PREFIX := None;
     ApiSimpleHandler.STATE_MACHINE_ARN := arn;
     ApiSimpleHandler.start_execution := Ok tt |}.

(** A request as the HTTP API passes it to the handler. *)
Definition request (method raw_path : string) : dict :=
  [ ("rawPath", PStr raw_path);
    ("requestContext", PDict [ ("http", PDict [ ("method", PStr method) ]) ]) ].

Definition no_base64 (s : string) : outcome string :=
  Raise (Exn "binascii.Error" "Incorrect padding").

Definition routes_env (arn : option string)
    (put : string -> outcome unit) : ApiRoutes.env :=
  {| ApiRoutes.now_iso := "2025-10-22T10:15:00.000000";
     ApiRoutes.now_compact := "20251022101500";
     ApiRoutes.now_compact_again := "20251022101500";
     ApiRoutes.BUCKET_PREFIX := None;
     ApiRoutes.STATE_MACHINE_ARN := arn;
     ApiRoutes.s3_put_object := put;
     ApiRoutes.start_execution := Ok tt |}.

Definition empty_cloud : ApiRoutes.cloud :=
  {| ApiRoutes.objects := []; ApiRoutes.executions := [] |}.

Definition report_pdf : ApiRoutes.upload_file :=
  {| ApiRoutes.filename := Some "report.pdf";
     ApiRoutes.content := "%PDF-1.4";
     ApiRoutes.content_type := Some "application/pdf" |}.

Definition photo_jpg : ApiRoutes.upload_file :=
  {| ApiRoutes.filename := Some "photo.jpg";
     ApiRoutes.content := "JFIF";
     ApiRoutes.content_type := None |}.

(** A cluster that holds the named collections and answers every request. *)
Definition weaviate_env (url key : option string) (existing : list string)
  : InitWeaviate.env :=
  {| InitWeaviate.WEAVIATE_URL := url;
     InitWeaviate.WEAVIATE_API_KEY := key;
     InitWeaviate.connect := Ok tt;
     InitWeaviate.list_all := Ok existing;
     InitWeaviate.delete := fun _ => Ok tt;
     InitWeaviate.create := fun _ => Ok tt;
     InitWeaviate.insert := fun _ => Ok tt;
     InitWeaviate.close := Ok tt |}.

(** The same cluster refusing to create a collection that it holds. *)
Definition weaviate_refusing (E : InitWeaviate.env) (name : string)
  : InitWeaviate.env :=
  {| InitWeaviate.WEAVIATE_URL := InitWeaviate.WEAVIATE_URL E;
     InitWeaviate.WEAVIATE_API_KEY := InitWeaviate.WEAVIATE_API_KEY E;
     InitWeaviate.connect := InitWeaviate.connect E;
     InitWeaviate.list_all := InitWeaviate.list_all E;
     InitWeaviate.delete := InitWeaviate.delete E;
     InitWeaviate.create :=
       fun n => if String.eqb n name
                then Raise (fault "class already exists")
                else InitWeaviate.create E n;
     InitWeaviate.insert := InitWeaviate.insert E;
     InitWeaviate.close := InitWeaviate.close E |}.

Definition typed (lines : list string) : InitWeaviate.console :=
  {| InitWeaviate.stdin := lines; InitWeaviate.calls := [] |}.

(** Kinds of request. *)
Definition is_create (c : InitWeaviate.call) : bool :=
  match c with InitWeaviate.Create _ => true | _ => false end.

Definition is_close (c : InitWeaviate.call) : bool :=
  match c with InitWeaviate.Close => true | _ => false end.

(** A part of the script only adds to the requests made. *)
Definition grows {A : Type} (m : InitWeaviate.script A) : Prop :=
  forall s, exists more,
    InitWeaviate.calls (fst (m s)) = (InitWeaviate.calls s ++ more)%list.

(** A part of the script does not close the connection. *)
Definition quiet {A : Type} (m : InitWeaviate.script A) : Prop :=
  forall s, existsb is_close (InitWeaviate.calls s) = false ->
            existsb is_close (InitWeaviate.calls (fst (m s))) = false.

(** A part of the script closes the connection as its last request when it
    succeeds, and not at all when it faults. *)
Definition closes_last {A : Type} (m : InitWeaviate.script A) : Prop :=
  forall s, existsb is_close (InitWeaviate.calls s) = false ->
    match m s with
    | (s', Raise _) => existsb is_close (InitWeaviate.calls s') = false
    | (s', Ok _) =>
        exists before,
          InitWeaviate.calls s' = (before ++ [InitWeaviate.Close])%list
          /\ existsb is_close before = false
    end.

(** * Properties *)

(** ** Entity extraction *)

(** The search keeps one match per pattern, the leftmost one, and a pattern
    without a match leaves the entry at [None]; no case raises. *)
Lemma extract_entities_policy_number (text : string) :
  dget "policy_number" (Intake.extract_entities text) =
  match re_search Intake.policy_pattern text with
  | Some m => PStr m
  | None => PNone
  end.
Proof.
  unfold Intake.extract_entities.
  destruct (re_search Intake.policy_pattern text),
           (re_search Intake.date_pattern text); reflexivity.
Qed.

Lemma extract_entities_incident_date (text : string) :
  dget "incident_date" (Intake.extract_entities text) =
  match re_search Intake.date_pattern text with
  | Some m => PStr m
  | None => PNone
  end.
Proof.
  unfold Intake.extract_entities.
  destruct (re_search Intake.policy_pattern text),
           (re_search Intake.date_pattern text); reflexivity.
Qed.

(** A second policy number or date later in the text is not reported. *)
Example extract_entities_first_match :
  Intake.extract_entities "POL-9 filed 1/2/2024, see AUTO-17 of 2024-03-04" =
  [ ("policy_number", PStr "POL-9"); ("claimant_name", PNone);
    ("incident_date", PStr "1/2/2024"); ("incident_location", PNone);
    ("vehicle_info", PNone) ].
Proof. reflexivity. Qed.

Example extract_entities_no_match :
  Intake.extract_entities "water damage in the kitchen" =
  [ ("policy_number", PNone); ("claimant_name", PNone);
    ("incident_date", PNone); ("incident_location", PNone);
    ("vehicle_info", PNone) ].
Proof. reflexivity. Qed.

(** At the start of the example text the third alternative of the policy
    pattern matches, and its match takes in the word before the number. *)
Example policy_pattern_on_spec_example :
  match_here Intake.policy_pattern spec_example_text = Some "Policy: AUTO-042".
Proof. reflexivity. Qed.

(** C4. On the text of the specification's example, entity extraction
    returns the date "2025-10-22" and, as policy number, group 1 of the
    match, which is "Policy: AUTO-042": the prefix that introduces the
    number is part of it, so the value is not "AUTO-042". *)
Theorem extract_entities_spec_example :
  Intake.extract_entities spec_example_text =
  [ ("policy_number", PStr "Policy: AUTO-042");
    ("claimant_name", PNone);
    ("incident_date", PStr "2025-10-22");
    ("incident_location", PNone);
    ("vehicle_info", PNone) ]
  /\ dget "policy_number" (Intake.extract_entities spec_example_text)
     <> PStr "AUTO-042".
Proof. split; [reflexivity | discriminate]. Qed.

(** ** Entities and the valuation echo *)

Lemma extract_entities_keys (text : string) :
  dkeys (Intake.extract_entities text) =
  [ "policy_number"; "claimant_name"; "incident_date"; "incident_location";
    "vehicle_info" ].
Proof.
  unfold Intake.extract_entities.
  destruct (re_search Intake.policy_pattern text),
           (re_search Intake.date_pattern text); reflexivity.
Qed.

Lemma extract_entities_unset (text : string) :
  dlookup "claimant_name" (Intake.extract_entities text) = Some PNone
  /\ dlookup "incident_location" (Intake.extract_entities text) = Some PNone
  /\ dlookup "vehicle_info" (Intake.extract_entities text) = Some PNone.
Proof.
  unfold Intake.extract_entities.
  destruct (re_search Intake.policy_pattern text),
           (re_search Intake.date_pattern text); repeat split; reflexivity.
Qed.

(** C9. For every text, entity extraction returns exactly the five keys,
    with claimant_name, incident_location and vehicle_info at [None]; on
    these entities the valuation has vehicle_value 25000.0, and its
    vehicle_info echo is [None], not "Unknown": the key is present, so the
    default of [get] is not used. *)
Theorem valuation_of_extracted_entities (text : string) :
  dkeys (Intake.extract_entities text) =
    [ "policy_number"; "claimant_name"; "incident_date"; "incident_location";
      "vehicle_info" ]
  /\ dget "claimant_name" (Intake.extract_entities text) = PNone
  /\ dget "incident_location" (Intake.extract_entities text) = PNone
  /\ dget "vehicle_info" (Intake.extract_entities text) = PNone
  /\ exists valuation,
       Valuation.get_vehicle_value (PDict (Intake.extract_entities text))
         = Ok valuation
       /\ dget "vehicle_value" valuation = PFloat (25000 # 1)
       /\ dget "vehicle_info" valuation = PNone
       /\ dget "vehicle_info" valuation <> PStr "Unknown".
Proof.
  destruct (extract_entities_unset text) as (Hc & Hl & Hv).
  split; [apply extract_entities_keys |].
  unfold dget. rewrite Hc, Hl, Hv. repeat split.
  unfold Valuation.get_vehicle_value, py_get_or, dget_or. rewrite Hv.
  eexists. split; [reflexivity |]. repeat split. discriminate.
Qed.

(** The default is what a context without the key gets. *)
Example valuation_without_vehicle_info :
  Valuation.get_vehicle_value (PDict [ ("policy_number", PStr "AUTO-001") ]) =
  Ok [ ("vehicle_value", PFloat (25000 # 1));
       ("vehicle_info", PStr "Unknown");
       ("market_source", PStr "Mock Data (KBB/NADA in production)");
       ("confidence", PFloat (8 # 10)) ].
Proof. reflexivity. Qed.

(** ** Damage heuristic *)

Lemma label_matches_named (label : pyval) (n : string) :
  label_name label = Some n ->
  Damage.label_matches label = Ok (in_vocabulary n).
Proof.
  unfold label_name, Damage.label_matches, py_getitem.
  destruct label as [| | | | |l|d]; try discriminate.
  destruct (dlookup "name" d) as [[| | | |s| |]|]; try discriminate.
  intros [= ->]. reflexivity.
Qed.

Lemma any_label_named (labels : list pyval) :
  Forall (fun l => label_name l <> None) labels ->
  Damage.any_label labels =
  Ok (existsb (fun l => match label_name l with
                        | Some n => in_vocabulary n
                        | None => false
                        end) labels).
Proof.
  induction 1 as [|l ls Hl _ IH]; [reflexivity |].
  cbn [Damage.any_label existsb].
  destruct (label_name l) as [n|] eqn:Hn; [| congruence].
  rewrite (label_matches_named _ _ Hn). cbn [obind].
  destruct (in_vocabulary n); [reflexivity | exact IH].
Qed.

Lemma in_vocabulary_iff (n : string) :
  in_vocabulary n = true <->
  exists w, In w Damage.vocabulary /\ same_word n w.
Proof.
  unfold in_vocabulary, same_word. rewrite existsb_exists. split.
  - intros (w & Hw & Heq). apply String.eqb_eq in Heq. exists w. split; [exact Hw |].
    rewrite Heq. cbn in Hw.
    repeat (destruct Hw as [<- | Hw]; [reflexivity |]). destruct Hw.
  - intros (w & Hw & Heq). exists w. split; [exact Hw |].
    apply String.eqb_eq. rewrite Heq. cbn in Hw.
    repeat (destruct Hw as [<- | Hw]; [reflexivity |]). destruct Hw.
Qed.

(** C7. The label Car gives damage_detected true, severity MODERATE and
    repair cost 2500.0; the label Tree gives false, NONE and 0.0; and for
    any extracted data whose labels are well formed, damage is flagged
    exactly when the name of some label equals, up to case, one of car,
    vehicle, damage, accident, crash. *)
Theorem assess_damage_heuristic :
  Damage.assess_damage car_labels =
    Ok [ ("damage_detected", PBool true);
         ("severity", PStr "MODERATE");
         ("estimated_repair_cost", PFloat (2500 # 1));
         ("damage_locations", PList [ PStr "Front bumper"; PStr "Hood" ]);
         ("confidence", PFloat (75 # 100)) ]
  /\ Damage.assess_damage tree_labels =
    Ok [ ("damage_detected", PBool false);
         ("severity", PStr "NONE");
         ("estimated_repair_cost", PFloat (0 # 1));
         ("damage_locations", PList []);
         ("confidence", PFloat (75 # 100)) ]
  /\ forall (extracted_data : dict) (labels : list pyval),
       dget_or "labels" (PList []) extracted_data = PList labels ->
       Forall (fun l => label_name l <> None) labels ->
       exists flag assessment,
         Damage.assess_damage (PDict extracted_data) = Ok assessment
         /\ dget "damage_detected" assessment = PBool flag
         /\ (flag = true <->
             exists l n w,
               In l labels /\ label_name l = Some n
               /\ In w Damage.vocabulary /\ same_word n w).
Proof.
  split; [reflexivity |]. split; [reflexivity |].
  intros extracted_data labels Hget Hwf.
  unfold Damage.assess_damage, py_get_or. rewrite Hget. cbn [obind Damage.py_iter].
  rewrite (any_label_named _ Hwf). cbn [obind].
  eexists. eexists. split; [reflexivity |]. split; [reflexivity |].
  rewrite existsb_exists. split.
  - intros (l & Hin & Hm). destruct (label_name l) as [n|] eqn:Hn; [| discriminate].
    apply in_vocabulary_iff in Hm. destruct Hm as (w & Hw & Hs).
    exists l, n, w. auto.
  - intros (l & n & w & Hin & Hn & Hw & Hs). exists l. split; [exact Hin |].
    rewrite Hn. apply in_vocabulary_iff. exists w. auto.
Qed.

Lemma assess_damage_heuristic_witness :
  exists flag assessment,
    Damage.assess_damage car_labels = Ok assessment
    /\ dget "damage_detected" assessment = PBool flag
    /\ (flag = true <->
        exists l n w,
          In l [ PDict [ ("name", PStr "Car");
                         ("confidence", PFloat (912 # 10)) ] ]
          /\ label_name l = Some n
          /\ In w Damage.vocabulary /\ same_word n w).
Proof.
  apply (proj2 (proj2 assess_damage_heuristic)
           [ ("labels",
              PList [ PDict [ ("name", PStr "Car");
                              ("confidence", PFloat (912 # 10)) ] ]) ]).
  - reflexivity.
  - repeat constructor; discriminate.
Defined.

(** The search stops at the first match: an ill-formed label raises only when
    no earlier label has matched. *)
Example assess_damage_short_circuit :
  (exists a, Damage.assess_damage
     (PDict [ ("labels", PList [ PDict [ ("name", PStr "CRASH") ]; PInt 5 ]) ])
     = Ok a)
  /\ Damage.assess_damage
       (PDict [ ("labels", PList [ PInt 5; PDict [ ("name", PStr "CRASH") ] ]) ])
     = Raise (TypeError "'int' object is not subscriptable").
Proof. split; [eexists |]; reflexivity. Qed.

(** ** Audit entries of the stages *)

Lemma audit_log_store_artifact (E : Intake.env) (a : artifact) (w : world) :
  audit_log (Intake.store_artifact E a w) = audit_log w.
Proof.
  unfold Intake.store_artifact.
  destruct (Intake.weaviate_connect E), (Intake.weaviate_insert E); reflexivity.
Qed.

Ltac split_match :=
  match goal with
  | H : context [match ?x with _ => _ end] |- _ => destruct x eqn:?
  | H : context [if ?x then _ else _] |- _ => destruct x eqn:?
  end.

Ltac close_audited :=
  solve [ right; split; [reflexivity |];
          unfold put_audit; cbn [audit_log];
          rewrite ?audit_log_store_artifact; reflexivity
        | left; split; [reflexivity |];
          eexists; split;
          [ unfold put_audit, put_report, put_claim; cbn [audit_log];
            rewrite ?audit_log_store_artifact; reflexivity
          | reflexivity ] ].

Lemma intake_audited E w event w' r :
  Intake.lambda_handler E w event = Some (w', r) -> audited "intake" w w' r.
Proof.
  unfold Intake.lambda_handler, Intake.handler_body. intros H.
  repeat split_match; try discriminate;
    repeat match goal with
           | H : Some _ = Some _ |- _ => injection H as ? ?; subst
           | H : (_, _) = (_, _) |- _ => injection H as ? ?; subst
           end; try discriminate; close_audited.
Qed.

Lemma policy_audited E w event w' r :
  Policy.lambda_handler E w event = (w', r) -> audited "policy" w w' r.
Proof.
  unfold Policy.lambda_handler, Policy.handler_body. intros H.
  repeat split_match;
    repeat match goal with
           | H : (_, _) = (_, _) |- _ => injection H as ? ?; subst
           end; try discriminate; close_audited.
Qed.

Lemma damage_audited E w event w' r :
  Damage.lambda_handler E w event = (w', r) -> audited "damage" w w' r.
Proof.
  unfold Damage.lambda_handler, Damage.handler_body. intros H.
  repeat split_match;
    repeat match goal with
           | H : (_, _) = (_, _) |- _ => injection H as ? ?; subst
           end; try discriminate; close_audited.
Qed.

Lemma valuation_audited E w event w' r :
  Valuation.lambda_handler E w event = (w', r) -> audited "valuation" w w' r.
Proof.
  unfold Valuation.lambda_handler, Valuation.handler_body. intros H.
  repeat split_match;
    repeat match goal with
           | H : (_, _) = (_, _) |- _ => injection H as ? ?; subst
           end; try discriminate; close_audited.
Qed.

Lemma decision_audited json_loads E w event w' r :
  Decision.lambda_handler json_loads E w event = (w', r) ->
  audited "decision" w w' r.
Proof.
  unfold Decision.lambda_handler, Decision.handler_body. intros H.
  repeat split_match;
    repeat match goal with
           | H : (_, _) = (_, _) |- _ => injection H as ? ?; subst
           end; try discriminate; close_audited.
Qed.

(** C1, as the specification states it, fails: an Intake invocation without
    bucket and key returns its failure result and leaves the audit log as it
    was, so no entry records the fault. *)
Lemma intake_missing_location_unaudited :
  Intake.lambda_handler (intake_env (Ok tt) (Ok tt)) empty_world
    [ ("claim_id", PStr "CLAIM-20251022101500") ]
  = Some (empty_world,
          [ ("statusCode", PInt 500);
            ("error", PStr "Missing bucket or key in event") ])
  /\ length (audit_log empty_world) <> 1%nat.
Proof. split; [reflexivity | discriminate]. Qed.

(** C1 (amended). Each of the five stages appends exactly one audit entry,
    its own, in an execution that returns 200, and none in an execution that
    returns 500; an Intake invocation whose bucket or key is missing (absent,
    null or empty, in a direct invocation or in an S3 notification) returns
    500 with the message of the input error and writes no audit entry. *)
Theorem stages_audit_on_success_only :
  (forall E w event,
     match Intake.lambda_handler E w event with
     | Some (w', r) => audited "intake" w w' r
     | None => True
     end)
  /\ (forall E w event,
        audited "policy" w (fst (Policy.lambda_handler E w event))
                (snd (Policy.lambda_handler E w event)))
  /\ (forall E w event,
        audited "damage" w (fst (Damage.lambda_handler E w event))
                (snd (Damage.lambda_handler E w event)))
  /\ (forall E w event,
        audited "valuation" w (fst (Valuation.lambda_handler E w event))
                (snd (Valuation.lambda_handler E w event)))
  /\ (forall json_loads E w event,
        audited "decision" w
                (fst (Decision.lambda_handler json_loads E w event))
                (snd (Decision.lambda_handler json_loads E w event)))
  /\ (forall E w event bucket key,
        Intake.locate event = Ok (bucket, key) ->
        truthy bucket && truthy key = false ->
        Intake.lambda_handler E w event
        = Some (w, failure (ValueError "Missing bucket or key in event"))).
Proof.
  repeat split.
  - intros E w event.
    destruct (Intake.lambda_handler E w event) as [[w' r]|] eqn:H; [| exact I].
    exact (intake_audited _ _ _ _ _ H).
  - intros E w event.
    apply (policy_audited E w event), surjective_pairing.
  - intros E w event.
    apply (damage_audited E w event), surjective_pairing.
  - intros E w event.
    apply (valuation_audited E w event), surjective_pairing.
  - intros json_loads E w event.
    apply (decision_audited json_loads E w event), surjective_pairing.
  - intros E w event bucket key Hloc Hmiss.
    unfold Intake.lambda_handler, Intake.handler_body. rewrite Hloc.
    replace (negb (truthy bucket) || negb (truthy key)) with true;
      [reflexivity |].
    rewrite <- negb_andb, Hmiss. reflexivity.
Qed.

Lemma stages_audit_on_success_only_witness :
  Intake.lambda_handler (intake_env (Ok tt) (Ok tt)) empty_world
    [ ("bucket", PStr "claimvoyant-raw-claims"); ("key", PStr EmptyString) ]
  = Some (empty_world, failure (ValueError "Missing bucket or key in event")).
Proof.
  apply (proj2 (proj2 (proj2 (proj2 (proj2 stages_audit_on_success_only))))
           _ _ _ (PStr "claimvoyant-raw-claims") (PStr EmptyString));
    reflexivity.
Defined.

(** An execution that gets past the input check and the extraction is
    audited once. *)
Example intake_upload_audited :
  match Intake.lambda_handler (intake_env (Ok tt) (Ok tt)) empty_world
          upload_event with
  | Some (w', r) =>
      statusCode r = PInt 200 /\ map agent (audit_log w') = [ "intake" ]
      /\ map status (audit_log w') = [ "success" ]
  | None => False
  end.
Proof. repeat split. Qed.

(** ** Policy stage: the status it audits *)

(** C3, as the specification states it, fails: when the lookup itself
    faults (here the connection to the policy corpus is refused), the entry
    the stage writes has status not_found, the status of a lookup that found
    nothing, and not error. *)
Lemma policy_lookup_fault_audited_not_found :
  map status
      (audit_log (fst (Policy.lambda_handler
                         (policy_env (Raise (fault "connection refused")) [])
                         empty_world intake_output)))
  = [ "not_found" ]
  /\ map status
       (audit_log (fst (Policy.lambda_handler (policy_env (Ok tt) [])
                          empty_world intake_output)))
     = [ "not_found" ]
  /\ [ "not_found" ] <> [ "error" ].
Proof. repeat split. discriminate. Qed.

(** C3 (amended). An execution of the Policy stage that returns 200 writes
    one audit entry whose status is success when the lookup finds a policy
    and not_found otherwise, both when the lookup completes without a match
    and when it faults; the status error is never written. *)
Theorem policy_audit_status (E : Policy.env) (w : world) (event : dict) :
  let w' := fst (Policy.lambda_handler E w event) in
  let r := snd (Policy.lambda_handler E w event) in
  (statusCode r = PInt 500 /\ audit_log w' = audit_log w)
  \/ (statusCode r = PInt 200
      /\ exists entry,
           audit_log w' = (audit_log w ++ [entry])%list
           /\ status entry =
              match Policy.lookup E (dget "policy_number" r) with
              | Ok (_ :: _) => "success"
              | Ok [] => "not_found"
              | Raise _ => "not_found"
              end
           /\ status entry <> "error").
Proof.
  unfold Policy.lambda_handler, Policy.handler_body.
  destruct (py_get (dget_or "entities" (PDict []) event) "policy_number")
    as [pn|e]; [| left; split; reflexivity].
  destruct (Policy.audit_put_item E); [| left; split; reflexivity].
  right. split; [reflexivity |]. eexists. split; [reflexivity |].
  cbn [status fst snd]. unfold Policy.query_policy.
  change (dget "policy_number" _) with (if truthy pn then pn else PStr "AUTO-001").
  destruct (Policy.lookup E (if truthy pn then pn else PStr "AUTO-001"))
    as [[|p ps]|e]; split; (reflexivity || discriminate).
Qed.

(** The three outcomes of the lookup, seen from the stage's result: a fault
    and a miss differ only in the error text carried by policy_data. *)
Example policy_fault_and_miss :
  dget "policy_data"
       (snd (Policy.lambda_handler
               (policy_env (Raise (fault "connection refused")) [])
               empty_world intake_output))
  = PDict [ ("found", PBool false); ("error", PStr "connection refused") ]
  /\ dget "policy_data"
          (snd (Policy.lambda_handler (policy_env (Ok tt) [])
                  empty_world intake_output))
     = PDict [ ("found", PBool false); ("error", PStr "Policy not found") ].
Proof. split; reflexivity. Qed.

(** ** What the later stages forward *)

Ltac forward_fields :=
  let f := fresh "f" in
  let v := fresh "v" in
  let Hin := fresh "Hin" in
  let Hl := fresh "Hl" in
  intros f v Hin Hl; cbn [In] in Hin;
  repeat (destruct Hin as [<- | Hin];
          [ cbn; unfold dget, dget_or; rewrite Hl; reflexivity |]);
  destruct Hin.

Lemma policy_forwards E w event :
  statusCode (snd (Policy.lambda_handler E w event)) = PInt 200 ->
  forwards [ "claim_id"; "extracted_data"; "entities" ] event
           (snd (Policy.lambda_handler E w event)).
Proof.
  unfold Policy.lambda_handler, Policy.handler_body.
  destruct (py_get _ _); [| discriminate].
  destruct (Policy.audit_put_item E); [| discriminate].
  intros _. cbn [snd]. forward_fields.
Qed.

Lemma damage_forwards E w event :
  statusCode (snd (Damage.lambda_handler E w event)) = PInt 200 ->
  forwards [ "claim_id"; "extracted_data"; "entities"; "policy_data" ] event
           (snd (Damage.lambda_handler E w event)).
Proof.
  unfold Damage.lambda_handler, Damage.handler_body.
  destruct (Damage.assess_damage _); [| discriminate].
  destruct (Damage.audit_put_item E); [| discriminate].
  intros _. cbn [snd]. forward_fields.
Qed.

Lemma valuation_forwards E w event :
  statusCode (snd (Valuation.lambda_handler E w event)) = PInt 200 ->
  forwards [ "claim_id"; "extracted_data"; "entities"; "policy_data";
             "damage_assessment" ] event
           (snd (Valuation.lambda_handler E w event)).
Proof.
  unfold Valuation.lambda_handler, Valuation.handler_body.
  destruct (Valuation.get_vehicle_value _); [| discriminate].
  destruct (Valuation.audit_put_item E); [| discriminate].
  intros _. cbn [snd]. forward_fields.
Qed.

(** C5. A Policy, Damage or Valuation execution that returns its output
    context (status 200) has in it every field of its input that an earlier
    stage populated, with the value it had: claim_id, extracted_data and
    entities for Policy, also policy_data for Damage, also damage_assessment
    for Valuation. *)
Theorem stages_forward_context (w : world) (event : dict) :
  (forall E,
     statusCode (snd (Policy.lambda_handler E w event)) = PInt 200 ->
     forwards [ "claim_id"; "extracted_data"; "entities" ] event
              (snd (Policy.lambda_handler E w event)))
  /\ (forall E,
        statusCode (snd (Damage.lambda_handler E w event)) = PInt 200 ->
        forwards [ "claim_id"; "extracted_data"; "entities"; "policy_data" ]
                 event (snd (Damage.lambda_handler E w event)))
  /\ (forall E,
        statusCode (snd (Valuation.lambda_handler E w event)) = PInt 200 ->
        forwards [ "claim_id"; "extracted_data"; "entities"; "policy_data";
                   "damage_assessment" ]
                 event (snd (Valuation.lambda_handler E w event))).
Proof.
  split; [| split].
  - intros E. apply policy_forwards.
  - intros E. apply damage_forwards.
  - intros E. apply valuation_forwards.
Qed.

Lemma stages_forward_context_witness :
  forwards [ "claim_id"; "extracted_data"; "entities" ] intake_output
           policy_output
  /\ forwards [ "claim_id"; "extracted_data"; "entities"; "policy_data" ]
              policy_output damage_output
  /\ forwards [ "claim_id"; "extracted_data"; "entities"; "policy_data";
                "damage_assessment" ] damage_output valuation_output.
Proof.
  split; [| split].
  - apply (proj1 (stages_forward_context empty_world intake_output)).
    reflexivity.
  - apply (proj1 (proj2 (stages_forward_context empty_world policy_output))).
    reflexivity.
  - apply (proj2 (proj2 (stages_forward_context empty_world damage_output))).
    reflexivity.
Defined.

(** An execution that fails returns only the status and the message. *)
Example damage_failure_result :
  Damage.lambda_handler
    {| Damage.now_iso := "2025-10-22T10:15:03.000000";
       Damage.audit_put_item := Raise (fault "throttled") |}
    empty_world policy_output
  = (empty_world, [ ("statusCode", PInt 500); ("error", PStr "throttled") ]).
Proof. reflexivity. Qed.

(** The valuation of a context that went through Intake, Policy and Damage
    echoes the [None] that Intake stored under vehicle_info. *)
Example pipeline_valuation_echo :
  dget "valuation" valuation_output
  = PDict [ ("vehicle_value", PFloat (25000 # 1));
            ("vehicle_info", PNone);
            ("market_source", PStr "Mock Data (KBB/NADA in production)");
            ("confidence", PFloat (8 # 10)) ].
Proof. reflexivity. Qed.

(** The entities of a successful Intake result are those of some text. *)
Lemma intake_success_entities E w event w' r :
  Intake.lambda_handler E w event = Some (w', r) ->
  statusCode r = PInt 200 ->
  exists text, dlookup "entities" r = Some (PDict (Intake.extract_entities text)).
Proof.
  unfold Intake.lambda_handler, Intake.handler_body. intros H.
  repeat split_match; try discriminate;
    repeat match goal with
           | H : Some _ = Some _ |- _ => injection H as ? ?; subst
           | H : (_, _) = (_, _) |- _ => injection H as ? ?; subst
           end; try discriminate; intros _; eexists; reflexivity.
Qed.

(** In a run of Intake, Policy, Damage and Valuation in which each stage
    receives the output of the one before (the state machine that chains
    them is not among the sources) and returns 200, the valuation has
    vehicle_value 25000.0 and echoes [None] as vehicle_info. *)
Lemma pipeline_valuation_echo_none EI EP ED EV w event w1 r1 w2 w3 w4 :
  let r2 := snd (Policy.lambda_handler EP w2 r1) in
  let r3 := snd (Damage.lambda_handler ED w3 r2) in
  let r4 := snd (Valuation.lambda_handler EV w4 r3) in
  Intake.lambda_handler EI w event = Some (w1, r1) ->
  statusCode r1 = PInt 200 -> statusCode r2 = PInt 200 ->
  statusCode r3 = PInt 200 -> statusCode r4 = PInt 200 ->
  exists valuation,
    dget "valuation" r4 = PDict valuation
    /\ dget "vehicle_value" valuation = PFloat (25000 # 1)
    /\ dget "vehicle_info" valuation = PNone.
Proof.
  intros r2 r3 r4 H1 S1 S2 S3 S4.
  destruct (intake_success_entities _ _ _ _ _ H1 S1) as (text & He1).
  assert (He2 : dlookup "entities" r2 = Some (PDict (Intake.extract_entities text))).
  { apply (policy_forwards EP w2 r1 S2); [cbn; tauto | exact He1]. }
  assert (He3 : dlookup "entities" r3 = Some (PDict (Intake.extract_entities text))).
  { apply (damage_forwards ED w3 r2 S3); [cbn; tauto | exact He2]. }
  subst r4. revert S4.
  unfold Valuation.lambda_handler, Valuation.handler_body, dget_or.
  rewrite He3.
  destruct (extract_entities_unset text) as (_ & _ & Hv).
  unfold Valuation.get_vehicle_value, py_get_or, dget_or. rewrite Hv.
  cbn [obind].
  destruct (Valuation.audit_put_item EV); [| discriminate].
  intros _. eexists. repeat split.
Qed.

(** ** Intake: the write to the content index *)

Lemma intake_body_index_unobserved E w event connect insert :
  observed (Intake.lambda_handler (with_index E connect insert) w event)
  = observed (Intake.lambda_handler E w event).
Proof.
  unfold Intake.lambda_handler, Intake.handler_body.
  destruct (Intake.locate event) as [[bucket key]|e]; [| reflexivity].
  destruct (negb (truthy bucket) || negb (truthy key)); [reflexivity |].
  destruct key as [| | | |key_s| |]; try reflexivity.
  change (Intake.extract_text_from_pdf (with_index E connect insert))
    with (Intake.extract_text_from_pdf E).
  change (Intake.analyze_image (with_index E connect insert))
    with (Intake.analyze_image E).
  change (Intake.now_compact (with_index E connect insert))
    with (Intake.now_compact E).
  change (Intake.now_iso (with_index E connect insert))
    with (Intake.now_iso E).
  change (Intake.audit_put_item (with_index E connect insert))
    with (Intake.audit_put_item E).
  match goal with
  | |- context [match (if ?c then ?a else ?b) with
                | Some _ => _ | None => None end] =>
      destruct (if c then a else b) as [extracted_data|]
  end; [| reflexivity].
  match goal with
  | |- context [match obind ?m ?f with Ok _ => _ | Raise _ => _ end] =>
      destruct (obind m f) as [text_content|e]
  end; [| reflexivity].
  destruct (Intake.audit_put_item E); unfold observed, put_audit;
    cbn [audit_log]; rewrite !audit_log_store_artifact; reflexivity.
Qed.

(** C8, as the specification states it, fails in its second half: with the
    index write failing, the stage returns 200 and stores no artifact, and
    the audit entry it writes is the one it writes when the index write
    succeeds; its details are bucket, key, file_type and entities, nothing
    about the index. *)
Lemma intake_index_fault_not_in_audit :
  exists w_fault w_ok r,
    Intake.lambda_handler (intake_env (Ok tt) (Raise (fault "index down")))
                          empty_world upload_event = Some (w_fault, r)
    /\ Intake.lambda_handler (intake_env (Ok tt) (Ok tt))
                             empty_world upload_event = Some (w_ok, r)
    /\ statusCode r = PInt 200
    /\ artifacts w_fault = []
    /\ length (artifacts w_ok) = 1%nat
    /\ audit_log w_fault = audit_log w_ok
    /\ map (fun e => dkeys (details e)) (audit_log w_fault)
       = [ [ "bucket"; "key"; "file_type"; "entities" ] ].
Proof. do 3 eexists. repeat split; reflexivity. Qed.

(** C8 (amended). The outcome of the write to the content index changes
    neither what the Intake stage returns nor what it writes to the audit
    log: an execution whose index write fails returns the result, and writes
    the audit entries, of the same execution with the write succeeding.  The
    audit entry carries no note of the indexing. *)
Theorem intake_index_outcome_unobserved
    (E : Intake.env) (w : world) (event : dict)
    (connect insert : outcome unit) :
  observed (Intake.lambda_handler (with_index E connect insert) w event)
  = observed (Intake.lambda_handler (with_index E (Ok tt) (Ok tt)) w event).
Proof.
  rewrite !intake_body_index_unobserved. reflexivity.
Qed.

(** ** Decision stage: the fallback decision *)

Example decision_on_valid_response :
  snd (Decision.lambda_handler Json.json_loads
         (decision_env (Ok (bedrock_body "{}")) (Ok tt))
         empty_world valuation_output)
  = [ ("statusCode", PInt 200);
      ("claim_id", PStr "CLAIM-20251022101500");
      ("version", PStr "2025-10-22T10:15:05.000000");
      ("decision", PNone);
      ("decision_data", PDict []);
      ("report_s3_key", PStr "CLAIM-20251022101500/final_decision.json") ].
Proof. reflexivity. Qed.

(** C2, as the specification states it, fails twice.  A response that is
    JSON but not a decision object (here the text null) is not replaced by
    the fallback: the stage returns 500 and commits no record.  And after a
    fault of the reasoning call the stage still returns 500 when the write
    of the report faults, though the fallback record is committed. *)
Lemma decision_fallback_limits :
  Decision.lambda_handler Json.json_loads
    (decision_env (Ok (bedrock_body "null")) (Ok tt))
    empty_world valuation_output
  = (empty_world,
     [ ("statusCode", PInt 500);
       ("claim_id", PStr "CLAIM-20251022101500");
       ("error", PStr "'NoneType' object has no attribute 'get'") ])
  /\ (let out :=
        Decision.lambda_handler Json.json_loads
          (decision_env (Raise (fault "model timeout"))
                        (Raise (fault "access denied")))
          empty_world valuation_output in
      statusCode (snd out) = PInt 500
      /\ map decision_data (claims (fst out))
         = [ fallback_decision (fault "model timeout") ]).
Proof. repeat split. Qed.

(** C2 (amended). When the reasoning call raises a fault or returns text
    that is not JSON, invoke_claude returns the fallback decision: decision
    ERROR, confidence 0.0 and a reasoning text that is not empty.  The stage
    then commits, for a string claim id and a claim store that accepts the
    write, a record with that decision_data and status ERROR, and, when the
    writes of the report and of the audit entry succeed too, returns 200 with
    that decision. *)
Theorem decision_fallback
    (json_loads : string -> outcome pyval) (E : Decision.env)
    (w : world) (event : dict) (e : exn) (c : string) :
  reasoning json_loads E = Raise e ->
  dget "claim_id" event = PStr c ->
  Decision.claims_put_item E = Ok tt ->
  let out := Decision.lambda_handler json_loads E w event in
  Decision.invoke_claude json_loads E = PDict (fallback_decision e)
  /\ dget "decision" (fallback_decision e) = PStr "ERROR"
  /\ dget "confidence" (fallback_decision e) = PFloat (0 # 1)
  /\ (exists text, dget "reasoning" (fallback_decision e) = PStr text
                   /\ text <> EmptyString)
  /\ (exists record,
        claims (fst out) = (claims w ++ [record])%list
        /\ claim_id record = c
        /\ decision_data record = fallback_decision e
        /\ c_status record = PStr "ERROR")
  /\ (Decision.s3_put_object E = Ok tt ->
      Decision.audit_put_item E = Ok tt ->
      statusCode (snd out) = PInt 200
      /\ dget "decision" (snd out) = PStr "ERROR"
      /\ dget "decision_data" (snd out) = PDict (fallback_decision e)).
Proof.
  intros Hr Hc Hput out.
  assert (Hinv : Decision.invoke_claude json_loads E = PDict (fallback_decision e)).
  { unfold Decision.invoke_claude. fold (reasoning json_loads E).
    rewrite Hr. reflexivity. }
  split; [exact Hinv |]. split; [reflexivity |]. split; [reflexivity |].
  split; [eexists; split; [reflexivity | discriminate] |].
  subst out. unfold Decision.lambda_handler, Decision.handler_body.
  rewrite Hinv, Hc. unfold Decision.put_claim_item. rewrite Hput. cbn [obind].
  split.
  - destruct (Decision.s3_put_object E) as [[]|e1];
      [destruct (Decision.audit_put_item E) as [[]|e2] |];
      (eexists; split; [reflexivity |]; repeat split).
  - intros -> ->. repeat split.
Qed.

Lemma decision_fallback_witness :
  Decision.invoke_claude Json.json_loads
    (decision_env (Ok (bedrock_body "I cannot decide this claim.")) (Ok tt))
  = PDict (fallback_decision Json.decode_error)
  /\ statusCode
       (snd (Decision.lambda_handler Json.json_loads
               (decision_env (Ok (bedrock_body "I cannot decide this claim."))
                             (Ok tt))
               empty_world valuation_output))
     = PInt 200.
Proof.
  destruct (decision_fallback Json.json_loads
              (decision_env (Ok (bedrock_body "I cannot decide this claim."))
                            (Ok tt))
              empty_world valuation_output Json.decode_error
              "CLAIM-20251022101500" eq_refl eq_refl eq_refl)
    as (Hinv & _ & _ & _ & _ & Hok).
  split; [exact Hinv |]. apply Hok; reflexivity.
Defined.

(** ** Claim status of a claim without a record *)

Lemma filter_no_record (items : list claim_record) (cid : string) :
  (forall r, In r items -> claim_id r <> cid) ->
  List.filter (fun r => String.eqb (claim_id r) cid) items = [].
Proof.
  induction items as [|r items IH]; [reflexivity |]. intros H. cbn.
  destruct (String.eqb_spec (claim_id r) cid) as [Heq|_].
  - exfalso. apply (H r); [left; reflexivity | exact Heq].
  - apply IH. intros r' Hr'. apply H. right. exact Hr'.
Qed.

(** A claim id that DynamoDB refuses as the value of a key is answered 500
    by both status queries, whatever the table holds. *)
Lemma refused_claim_id_reported_error (db : dynamo) (cid : string) :
  key_accepted cid = false ->
  (exists detail, Api.get_claim db cid = Api.HTTPException 500 detail)
  /\ ApiSimple.gw_statusCode (ApiSimple.handle_get_claim db cid) = 500.
Proof.
  intros Hkey. unfold Api.get_claim, ApiSimple.handle_get_claim, query_latest.
  rewrite Hkey. destruct (outage db); (split; [eexists |]; reflexivity).
Qed.

(** C10, as the specification states it, fails for the empty claim id, which
    the plain module takes from a GET of /api/v1/claims/.  No record has it
    and the table answers, but the query names it as the value of the key:
    both status queries answer 500, not 200 with status processing. *)
Lemma empty_claim_id_not_processing :
  outage eleven_versions = None
  /\ (forall r, In r (table eleven_versions) -> claim_id r <> EmptyString)
  /\ Api.get_claim eleven_versions EmptyString
     = Api.HTTPException 500 (exn_str key_refused)
  /\ ApiSimple.gw_statusCode
       (ApiSimple.handle_get_claim eleven_versions EmptyString) = 500
  /\ ApiSimple.gw_statusCode
       (snd (ApiSimpleHandler.handler Json.json_loads no_base64
               (simple_env None) eleven_versions []
               (request "GET" "/api/v1/claims/"))) = 500.
Proof.
  split; [reflexivity |]. split; [| repeat split].
  intros r Hr. cbn in Hr.
  repeat (destruct Hr as [<- | Hr]; [discriminate |]). destruct Hr.
Qed.

(** C10 (amended). For every claim id that DynamoDB accepts as the value of
    a key (not empty, at most 2048 bytes) and that has no record in the
    store, known to the system or not, both status queries answer 200 with
    status processing when the table answers; the answer depends on the
    claim id alone. *)
Theorem unknown_claim_reported_processing (db : dynamo) (cid : string) :
  outage db = None ->
  key_accepted cid = true ->
  (forall r, In r (table db) -> claim_id r <> cid) ->
  Api.get_claim db cid =
    Api.Returns [ ("claim_id", PStr cid);
                  ("status", PStr "processing");
                  ("message", PStr "Claim is being processed") ]
  /\ ApiSimple.handle_get_claim db cid =
       ApiSimple.response 200
         [ ("claim_id", PStr cid);
           ("status", PStr "processing");
           ("message", PStr "Claim is being processed") ]
  /\ ApiSimple.gw_statusCode (ApiSimple.handle_get_claim db cid) = 200.
Proof.
  intros Hup Hkey Hnone.
  unfold Api.get_claim, ApiSimple.handle_get_claim, query_latest.
  rewrite Hup, Hkey, (filter_no_record _ _ Hnone). repeat split.
Qed.

Lemma unknown_claim_reported_processing_witness :
  Api.get_claim eleven_versions "CLAIM-19990101000000" =
    Api.Returns [ ("claim_id", PStr "CLAIM-19990101000000");
                  ("status", PStr "processing");
                  ("message", PStr "Claim is being processed") ].
Proof.
  apply (unknown_claim_reported_processing eleven_versions
           "CLAIM-19990101000000").
  - reflexivity.
  - reflexivity.
  - intros r Hr. cbn in Hr.
    repeat (destruct Hr as [<- | Hr]; [discriminate |]). destruct Hr.
Defined.

(** A claim with records is answered from its latest version. *)
Example known_claim_latest_version :
  Api.get_claim eleven_versions "CLAIM-20251022101500" =
    Api.Returns [ ("claim_id", PStr "CLAIM-20251022101500");
                  ("version", PStr "2025-10-22T10:15:11.000000");
                  ("status", PStr "APPROVED");
                  ("timestamp", PStr "2025-10-22T10:15:11.000000");
                  ("decision", PStr "APPROVED");
                  ("reasoning", PNone);
                  ("confidence", PFloat (9 # 10));
                  ("estimated_payout", PNone);
                  ("entities", PDict []) ].
Proof. reflexivity. Qed.

(** ** Listing claims *)

(** *** The order on version strings *)

Lemma leb_iff (a b : string) :
  String.leb a b = true <-> a = b \/ String_as_OT.lt a b.
Proof.
  unfold String.leb.
  destruct (String.compare a b) eqn:Hc.
  - apply String.compare_eq_iff in Hc. tauto.
  - apply String_as_OT.cmp_lt in Hc. tauto.
  - split; [discriminate |]. intros [Heq | Hlt].
    + apply String_as_OT.cmp_eq in Heq. unfold String_as_OT.cmp in Heq. congruence.
    + apply String_as_OT.cmp_lt in Hlt. unfold String_as_OT.cmp in Hlt. congruence.
Qed.

Lemma leb_refl (a : string) : String.leb a a = true.
Proof. apply leb_iff. left. reflexivity. Qed.

Lemma leb_trans (a b c : string) :
  String.leb a b = true -> String.leb b c = true -> String.leb a c = true.
Proof.
  rewrite !leb_iff. intros [-> | Hab] [-> | Hbc]; auto.
  right. exact (String_as_OT.lt_trans _ _ _ Hab Hbc).
Qed.

Lemma ltb_leb (a b : string) :
  String.ltb a b = true -> String.leb a b = true.
Proof.
  unfold String.ltb, String.leb. destruct (String.compare a b); congruence.
Qed.

Lemma not_ltb_leb (a b : string) :
  String.ltb a b = false -> String.leb b a = true.
Proof.
  unfold String.ltb, String.leb. rewrite (String.compare_antisym b a).
  destruct (String.compare a b); cbn; congruence.
Qed.

(** *** Dictionaries *)

Lemma dlookup_dset {V : Type} (k k' : string) (v : V) (d : list (string * V)) :
  dlookup k' (dset k v d) = if String.eqb k' k then Some v else dlookup k' d.
Proof.
  induction d as [|[k0 v0] d IH]; [reflexivity |]. cbn.
  destruct (String.eqb_spec k k0) as [->|Hk]; cbn.
  - destruct (String.eqb k' k0); reflexivity.
  - rewrite IH. destruct (String.eqb_spec k' k0) as [->|Hk'];
      [| reflexivity].
    destruct (String.eqb_spec k0 k) as [Heq|_]; [congruence | reflexivity].
Qed.

Lemma dlookup_None_keys {V : Type} (k : string) (d : list (string * V)) :
  dlookup k d = None -> ~ In k (dkeys d).
Proof.
  induction d as [|[k0 v0] d IH]; cbn; [tauto |].
  destruct (String.eqb_spec k k0) as [->|Hk]; [discriminate |].
  intros Hl [Heq | Hin]; [congruence | exact (IH Hl Hin)].
Qed.

Lemma dkeys_dset {V : Type} (k : string) (v : V) (d : list (string * V)) :
  dkeys (dset k v d) =
  match dlookup k d with
  | Some _ => dkeys d
  | None => (dkeys d ++ [k])%list
  end.
Proof.
  induction d as [|[k0 v0] d IH]; [reflexivity |]. cbn.
  destruct (String.eqb_spec k k0) as [->|Hk]; [reflexivity |].
  cbn. fold (dkeys (dset k v d)). fold (dkeys d). rewrite IH.
  destruct (dlookup k d); reflexivity.
Qed.

Lemma in_dlookup {V : Type} (k : string) (v : V) (d : list (string * V)) :
  NoDup (dkeys d) -> In (k, v) d -> dlookup k d = Some v.
Proof.
  induction d as [|[k0 v0] d IH]; cbn; [tauto |].
  intros Hnd [Heq | Hin].
  - injection Heq as -> ->. rewrite String.eqb_refl. reflexivity.
  - inversion Hnd as [|? ? Hk0 Hnd']; subst.
    destruct (String.eqb_spec k k0) as [->|_]; [| exact (IH Hnd' Hin)].
    exfalso. apply Hk0. change k0 with (fst (k0, v)). apply in_map. exact Hin.
Qed.

(** *** The grouping loop *)

Lemma latest_among_other seen item r :
  latest_among seen r -> claim_id r <> claim_id item ->
  latest_among (seen ++ [item]) r.
Proof.
  intros [Hin Hmax] Hne. split; [apply in_or_app; left; exact Hin |].
  intros r' Hr' Hid. apply in_app_or in Hr'. destruct Hr' as [Hr' | [<- | []]].
  - exact (Hmax r' Hr' Hid).
  - congruence.
Qed.

Lemma group_step_grouped seen d item :
  grouped seen d -> grouped (seen ++ [item]) (group_step d item).
Proof.
  intros [Hnd Hlat Hall]. unfold group_step.
  destruct (dlookup (claim_id item) d) as [current|] eqn:Hcur.
  - destruct (Hlat _ _ Hcur) as [Hid [Hcin Hcmax]].
    destruct (String.ltb (version current) (version item)) eqn:Hlt.
    + split.
      * rewrite dkeys_dset, Hcur. exact Hnd.
      * intros k r. rewrite dlookup_dset.
        destruct (String.eqb_spec k (claim_id item)) as [->|Hk].
        -- intros [= <-]. split; [reflexivity |]. split.
           ++ apply in_or_app. right. left. reflexivity.
           ++ intros r' Hr' Hid'. apply in_app_or in Hr'.
              destruct Hr' as [Hr' | [<- | []]]; [| apply leb_refl].
              apply leb_trans with (version current);
                [apply Hcmax; [exact Hr' | congruence] | apply ltb_leb, Hlt].
        -- intros Hl. destruct (Hlat _ _ Hl) as [Hrid Hrl].
           split; [exact Hrid |].
           apply latest_among_other; [exact Hrl | congruence].
      * intros r Hr. rewrite dlookup_dset.
        destruct (String.eqb (claim_id r) (claim_id item)); [discriminate |].
        apply in_app_or in Hr. destruct Hr as [Hr | [<- | []]];
          [exact (Hall r Hr) | congruence].
    + split.
      * exact Hnd.
      * intros k r Hl. destruct (Hlat _ _ Hl) as [Hrid [Hrin Hrmax]].
        split; [exact Hrid |]. split; [apply in_or_app; left; exact Hrin |].
        intros r' Hr' Hid'. apply in_app_or in Hr'.
        destruct Hr' as [Hr' | [<- | []]]; [exact (Hrmax r' Hr' Hid') |].
        assert (r = current) as -> by congruence.
        apply not_ltb_leb, Hlt.
      * intros r Hr. apply in_app_or in Hr.
        destruct Hr as [Hr | [<- | []]]; [exact (Hall r Hr) | congruence].
  - split.
    + rewrite dkeys_dset, Hcur.
      apply NoDup_app; [exact Hnd | repeat constructor; intros [] |].
      intros k Hk [<- | []]. exact (dlookup_None_keys _ _ Hcur Hk).
    + intros k r. rewrite dlookup_dset.
      destruct (String.eqb_spec k (claim_id item)) as [->|Hk].
      * intros [= <-]. split; [reflexivity |]. split.
        -- apply in_or_app. right. left. reflexivity.
        -- intros r' Hr' Hid'. apply in_app_or in Hr'.
           destruct Hr' as [Hr' | [<- | []]]; [| apply leb_refl].
           exfalso. apply (Hall r' Hr'). congruence.
      * intros Hl. destruct (Hlat _ _ Hl) as [Hrid Hrl].
        split; [exact Hrid |].
        apply latest_among_other; [exact Hrl | congruence].
    + intros r Hr. rewrite dlookup_dset.
      destruct (String.eqb_spec (claim_id r) (claim_id item)) as [_|Hne];
        [discriminate |].
      apply in_app_or in Hr. destruct Hr as [Hr | [<- | []]];
        [exact (Hall r Hr) | congruence].
Qed.

Lemma fold_group_step_grouped items seen d :
  grouped seen d -> grouped (seen ++ items) (fold_left group_step items d).
Proof.
  revert seen d. induction items as [|item items IH]; intros seen d H; cbn.
  - rewrite app_nil_r. exact H.
  - replace (seen ++ item :: items)%list with ((seen ++ [item]) ++ items)%list
      by (rewrite <- app_assoc; reflexivity).
    apply IH, group_step_grouped, H.
Qed.

Lemma group_latest_grouped items : grouped items (group_latest items).
Proof.
  apply (fold_group_step_grouped items [] []).
  split; [constructor | discriminate | intros r []].
Qed.

Lemma length_dset {V : Type} (k : string) (v : V) (d : list (string * V)) :
  (length (dset k v d) <= S (length d))%nat.
Proof.
  induction d as [|[k0 v0] d IH]; cbn; [lia |].
  destruct (String.eqb k k0); cbn; lia.
Qed.

Lemma length_fold_group_step items d :
  (length (fold_left group_step items d) <= length d + length items)%nat.
Proof.
  revert d. induction items as [|item items IH]; intros d; cbn; [lia |].
  specialize (IH (group_step d item)).
  assert (length (group_step d item) <= S (length d))%nat; [| lia].
  unfold group_step. destruct (dlookup (claim_id item) d).
  - destruct (String.ltb _ _); [apply length_dset | lia].
  - apply length_dset.
Qed.

(** *** The sort *)

Lemma insert_desc_perm {A : Type} (key : A -> string) (x : A) (l : list A) :
  Permutation (insert_desc key x l) (x :: l).
Proof.
  induction l as [|y l IH]; cbn; [reflexivity |].
  destruct (String.ltb (key x) (key y)); [| reflexivity].
  rewrite IH. apply perm_swap.
Qed.

Lemma sort_desc_perm {A : Type} (key : A -> string) (l : list A) :
  Permutation (sort_desc key l) l.
Proof.
  induction l as [|x l IH]; cbn; [reflexivity |].
  rewrite insert_desc_perm. constructor. exact IH.
Qed.

(** *** What a listing holds *)

Lemma recent_claims_length items :
  (length (recent_claims items) <= length items)%nat.
Proof.
  unfold recent_claims.
  rewrite (Permutation_length (sort_desc_perm _ _)), !length_map.
  apply (length_fold_group_step items []).
Qed.

Lemma recent_claims_latest items e :
  In e (recent_claims items) ->
  exists r, e = summary r /\ latest_among items r.
Proof.
  unfold recent_claims. intros He.
  apply (Permutation_in _ (sort_desc_perm _ _)) in He.
  apply in_map_iff in He. destruct He as (r & <- & Hr).
  apply in_map_iff in Hr. destruct Hr as ([k r'] & Heq & Hin). cbn in Heq. subst r'.
  exists r. split; [reflexivity |].
  destruct (group_latest_grouped items) as [Hnd Hlat _].
  apply (Hlat k r), in_dlookup; assumption.
Qed.

Lemma recent_claims_distinct items :
  NoDup (map (dget "claim_id") (recent_claims items)).
Proof.
  unfold recent_claims.
  eapply Permutation_NoDup;
    [apply Permutation_sym, Permutation_map, sort_desc_perm |].
  rewrite !map_map.
  destruct (group_latest_grouped items) as [Hnd Hlat _].
  rewrite (map_ext_in _ (fun kr => PStr (fst kr))).
  - rewrite <- (map_map fst PStr).
    apply Finite.Injective_map_NoDup; [| exact Hnd].
    intros a b [= ->]. reflexivity.
  - intros [k r] Hin. cbn.
    destruct (Hlat k r (in_dlookup _ _ _ Hnd Hin)) as [-> _]. reflexivity.
Qed.

(** C6, as the specification states it, fails in its second half: of
    eleven stored versions of one claim the scan with limit 10 meets the
    first ten, so both listings return the entry of the tenth version while
    a later one is in the store. *)
Lemma listing_misses_later_version :
  let tenth := decided "CLAIM-20251022101500" "2025-10-22T10:15:10.000000" in
  let last := decided "CLAIM-20251022101500" "2025-10-22T10:15:11.000000" in
  Api.list_claims eleven_versions 10 =
    Api.Returns [ ("claims", PList [ PDict (summary tenth) ]) ]
  /\ ApiSimple.handle_list_claims eleven_versions =
       ApiSimple.response 200 [ ("claims", PList [ PDict (summary tenth) ]) ]
  /\ In last (table eleven_versions)
  /\ claim_id last = claim_id tenth
  /\ String.ltb (version tenth) (version last) = true.
Proof.
  cbn zeta. split; [reflexivity |]. split; [reflexivity |].
  split; [| split; reflexivity].
  cbn. do 10 right. left. reflexivity.
Qed.

(** C6 (amended). With limit 10, both listings return at most one entry per
    claim id, and each entry is the record with the greatest version among
    the records of its claim that the scan returned, the first ten of the
    table; for a store of at most ten records that is the greatest version
    among all the stored records of the claim. *)
Theorem listing_latest_of_scanned (db : dynamo) :
  outage db = None ->
  exists entries,
    Api.list_claims db 10 =
      Api.Returns [ ("claims", PList (map PDict entries)) ]
    /\ ApiSimple.handle_list_claims db =
         ApiSimple.response 200 [ ("claims", PList (map PDict entries)) ]
    /\ NoDup (map (dget "claim_id") entries)
    /\ (forall e, In e entries ->
          exists r, e = summary r /\ latest_among (firstn 10 (table db)) r)
    /\ ((length (table db) <= 10)%nat ->
        forall e, In e entries ->
          exists r, e = summary r /\ latest_among (table db) r).
Proof.
  intros Hup. exists (recent_claims (firstn 10 (table db))).
  split; [| split; [| split; [| split]]].
  - unfold Api.list_claims, scan. rewrite Hup.
    change (10 <? 1) with false. cbv beta iota.
    change (Z.to_nat 10) with 10%nat.
    rewrite (firstn_all2 (recent_claims _)); [reflexivity |].
    etransitivity; [apply recent_claims_length |].
    apply firstn_le_length.
  - unfold ApiSimple.handle_list_claims, scan. rewrite Hup. reflexivity.
  - apply recent_claims_distinct.
  - intros e. apply recent_claims_latest.
  - intros Hlen e He. rewrite <- (firstn_all2 (table db)) by exact Hlen.
    exact (recent_claims_latest _ _ He).
Qed.

Lemma listing_latest_of_scanned_witness :
  exists entries,
    Api.list_claims eleven_versions 10 =
      Api.Returns [ ("claims", PList (map PDict entries)) ]
    /\ NoDup (map (dget "claim_id") entries).
Proof.
  destruct (listing_latest_of_scanned eleven_versions eq_refl)
    as (entries & Hapi & _ & Hnd & _).
  exists entries. split; assumption.
Defined.

(** * Further properties *)

(** ** Intake: shape of an execution *)

Lemma intake_handler_shape E w event :
  Intake.handler_body E w event =
  match Intake.locate event with
  | Raise e => Some (w, Raise e)
  | Ok (bucket, key) =>
      if negb (truthy bucket) || negb (truthy key) then
        Some (w, Raise (ValueError "Missing bucket or key in event"))
      else
        match key with
        | PStr key_s =>
            match intake_extraction E key_s with
            | None => None
            | Some extracted_data =>
                match intake_text extracted_data with
                | Raise e => Some (w, Raise e)
                | Ok text =>
                    let w1 :=
                      Intake.store_artifact E
                        (intake_artifact E event bucket key_s extracted_data text)
                        w in
                    match Intake.audit_put_item E with
                    | Raise e => Some (w1, Raise e)
                    | Ok _ =>
                        Some (put_audit
                                (intake_entry E event bucket key_s
                                              extracted_data text) w1,
                              Ok (intake_result E event bucket key_s
                                                extracted_data text))
                    end
                end
            end
        | _ => Some (w, Raise (AttributeError key "lower"))
        end
  end.
Proof.
  unfold Intake.handler_body.
  destruct (Intake.locate event) as [[bucket key]|e]; [| reflexivity].
  destruct key; reflexivity.
Qed.

(** What is known of an execution that returned 200. *)
Lemma intake_success_inv E w event w' r :
  Intake.lambda_handler E w event = Some (w', r) ->
  statusCode r = PInt 200 ->
  exists bucket key_s extracted_data text,
    Intake.locate event = Ok (bucket, PStr key_s)
    /\ truthy bucket = true
    /\ key_s <> EmptyString
    /\ intake_extraction E key_s = Some extracted_data
    /\ intake_text extracted_data = Ok text
    /\ w' = put_audit
              (intake_entry E event bucket key_s extracted_data text)
              (Intake.store_artifact E
                 (intake_artifact E event bucket key_s extracted_data text) w)
    /\ r = intake_result E event bucket key_s extracted_data text.
Proof.
  unfold Intake.lambda_handler. rewrite intake_handler_shape.
  destruct (Intake.locate event) as [[bucket key]|e];
    [| intros [= <- <-]; discriminate].
  destruct (truthy bucket) eqn:Hb; [| intros [= <- <-]; discriminate].
  destruct (truthy key) eqn:Hk; [| intros [= <- <-]; discriminate].
  cbn [negb orb].
  destruct key as [| | | |key_s| |];
    try (intros [= <- <-]; discriminate).
  destruct (intake_extraction E key_s) as [ed|] eqn:Hed; [| discriminate].
  destruct (intake_text ed) as [text|e] eqn:Ht;
    [| intros [= <- <-]; discriminate].
  cbv zeta.
  destruct (Intake.audit_put_item E) as [[]|e];
    [| intros [= <- <-]; discriminate].
  intros [= <- <-] _. exists bucket, key_s, ed, text.
  split; [reflexivity |]. split; [exact Hb |].
  split; [intros ->; discriminate Hk |].
  split; [exact Hed |]. split; [exact Ht |].
  split; reflexivity.
Qed.

(** X1. The audit entry of a successful Intake execution agrees with the result
    it returns: same claim id, bucket, key, file type and entities; its status
    is error exactly when the extracted data carry an error text that is not
    empty, and success otherwise. *)
Theorem intake_audit_agrees_with_result E w event w' r :
  Intake.lambda_handler E w event = Some (w', r) ->
  statusCode r = PInt 200 ->
  exists entry extracted_data,
    audit_log w' = (audit_log w ++ [entry])%list
    /\ dget "extracted_data" r = PDict extracted_data
    /\ a_claim_id entry = dget "claim_id" r
    /\ log_id entry = (dget "claim_id" r, "-intake")
    /\ details entry =
         [ ("bucket", dget "bucket" r);
           ("key", dget "key" r);
           ("file_type", dget "file_type" extracted_data);
           ("entities", dget "entities" r) ]
    /\ status entry =
         (if truthy (dget "error" extracted_data) then "error" else "success").
Proof.
  intros H S.
  destruct (intake_success_inv _ _ _ _ _ H S)
    as (bucket & key_s & ed & text & _ & _ & _ & _ & _ & -> & ->).
  exists (intake_entry E event bucket key_s ed text), ed.
  split.
  { unfold put_audit. cbn [audit_log]. rewrite audit_log_store_artifact.
    reflexivity. }
  repeat (split; [reflexivity |]).
  cbn [status intake_entry]. destruct (truthy (dget "error" ed)); reflexivity.
Qed.

Lemma intake_audit_agrees_with_result_witness :
  exists entry extracted_data,
    audit_log (fst intake_upload_run) = (audit_log empty_world ++ [entry])%list
    /\ dget "extracted_data" (snd intake_upload_run) = PDict extracted_data
    /\ a_claim_id entry = dget "claim_id" (snd intake_upload_run)
    /\ log_id entry = (dget "claim_id" (snd intake_upload_run), "-intake")
    /\ details entry =
         [ ("bucket", dget "bucket" (snd intake_upload_run));
           ("key", dget "key" (snd intake_upload_run));
           ("file_type", dget "file_type" extracted_data);
           ("entities", dget "entities" (snd intake_upload_run)) ]
    /\ status entry =
         (if truthy (dget "error" extracted_data) then "error" else "success").
Proof.
  apply (intake_audit_agrees_with_result
           (intake_env (Ok tt) (Ok tt)) empty_world upload_event);
    reflexivity.
Defined.

(** X2. The claim id of a successful Intake execution is the one of the event
    when that is given and not empty, and otherwise CLAIM- followed by the
    time of the invocation; it is never null or empty. *)
Theorem intake_claim_id_rule E w event w' r :
  Intake.lambda_handler E w event = Some (w', r) ->
  statusCode r = PInt 200 ->
  truthy (dget "claim_id" r) = true
  /\ (truthy (dget "claim_id" event) = true ->
      dget "claim_id" r = dget "claim_id" event)
  /\ (truthy (dget "claim_id" event) = false ->
      dget "claim_id" r = PStr ("CLAIM-" ++ Intake.now_compact E)).
Proof.
  intros H S.
  destruct (intake_success_inv _ _ _ _ _ H S)
    as (bucket & key_s & ed & text & _ & _ & _ & _ & _ & _ & ->).
  change (dget "claim_id" (intake_result E event bucket key_s ed text))
    with (intake_claim_id E event).
  unfold intake_claim_id.
  destruct (truthy (dget "claim_id" event)) eqn:Hc.
  - split; [exact Hc |]. split; [reflexivity | discriminate].
  - split; [reflexivity |]. split; [discriminate | reflexivity].
Qed.

Lemma intake_claim_id_rule_witness :
  dget "claim_id"
       (match Intake.lambda_handler (intake_env (Ok tt) (Ok tt)) empty_world
                [ ("claim_id", PStr EmptyString);
                  ("bucket", PStr "claimvoyant-raw-claims");
                  ("key", PStr "upload/photo.png") ] with
        | Some (_, r) => r
        | None => []
        end)
  = PStr "CLAIM-20251022101500".
Proof.
  refine (proj2 (proj2 (intake_claim_id_rule
                          (intake_env (Ok tt) (Ok tt)) empty_world
                          [ ("claim_id", PStr EmptyString);
                            ("bucket", PStr "claimvoyant-raw-claims");
                            ("key", PStr "upload/photo.png") ]
                          _ _ eq_refl eq_refl)) eq_refl).
Defined.

Lemma intake_unsupported_run E w event bucket key_s :
  Intake.locate event = Ok (bucket, PStr key_s) ->
  truthy bucket = true ->
  key_s <> EmptyString ->
  String.eqb (last_segment (lower key_s) EmptyString) "pdf" = false ->
  existsb (String.eqb (last_segment (lower key_s) EmptyString))
          [ "jpg"; "jpeg"; "png" ] = false ->
  Intake.audit_put_item E = Ok tt ->
  exists w' r entry,
    Intake.lambda_handler E w event = Some (w', r)
    /\ statusCode r = PInt 200
    /\ dget "extracted_data" r =
         PDict [ ("file_type", PStr "unknown");
                 ("error",
                  PStr ("Unsupported file type: "
                        ++ last_segment (lower key_s) EmptyString)) ]
    /\ dget "entities" r =
         PDict [ ("policy_number", PNone); ("claimant_name", PNone);
                 ("incident_date", PNone); ("incident_location", PNone);
                 ("vehicle_info", PNone) ]
    /\ audit_log w' = (audit_log w ++ [entry])%list
    /\ status entry = "error".
Proof.
  intros Hloc Hb Hk Hpdf Himg Haudit.
  unfold Intake.lambda_handler. rewrite intake_handler_shape, Hloc, Hb.
  assert (Hkt : truthy (PStr key_s) = true).
  { destruct key_s; [congruence | reflexivity]. }
  rewrite Hkt. cbn [negb orb].
  unfold intake_extraction. rewrite Hpdf, Himg.
  change (intake_text _) with (Ok (A := string) " "). cbv zeta.
  rewrite Haudit.
  do 3 eexists. split; [reflexivity |].
  split; [reflexivity |]. split; [reflexivity |]. split; [reflexivity |].
  split.
  - unfold put_audit. cbn [audit_log]. rewrite audit_log_store_artifact.
    reflexivity.
  - reflexivity.
Qed.

(** X3. A key whose last dot-separated part, in lower case, is none of pdf, jpg,
    jpeg, png is not a failure of the stage: whatever Textract and
    Rekognition would answer, the execution returns 200 with file type
    unknown, the unsupported-type error in the extracted data, no entity, and
    an audit entry of status error. *)
Theorem intake_unsupported_type E w event bucket key_s :
  Intake.locate event = Ok (bucket, PStr key_s) ->
  truthy bucket = true ->
  key_s <> EmptyString ->
  String.eqb (last_segment (lower key_s) EmptyString) "pdf" = false ->
  existsb (String.eqb (last_segment (lower key_s) EmptyString))
          [ "jpg"; "jpeg"; "png" ] = false ->
  Intake.audit_put_item E = Ok tt ->
  exists w' r entry,
    Intake.lambda_handler E w event = Some (w', r)
    /\ statusCode r = PInt 200
    /\ dget "extracted_data" r =
         PDict [ ("file_type", PStr "unknown");
                 ("error",
                  PStr ("Unsupported file type: "
                        ++ last_segment (lower key_s) EmptyString)) ]
    /\ dget "entities" r =
         PDict [ ("policy_number", PNone); ("claimant_name", PNone);
                 ("incident_date", PNone); ("incident_location", PNone);
                 ("vehicle_info", PNone) ]
    /\ audit_log w' = (audit_log w ++ [entry])%list
    /\ status entry = "error".
Proof. apply intake_unsupported_run. Qed.

Lemma intake_unsupported_type_witness :
  exists w' r entry,
    Intake.lambda_handler (intake_env (Ok tt) (Ok tt)) empty_world
      [ ("claim_id", PStr "CLAIM-20251022101500");
        ("bucket", PStr "claimvoyant-raw-claims");
        ("key", PStr "CLAIM-20251022101500/test.txt") ] = Some (w', r)
    /\ statusCode r = PInt 200
    /\ dget "extracted_data" r =
         PDict [ ("file_type", PStr "unknown");
                 ("error", PStr "Unsupported file type: txt") ]
    /\ dget "entities" r =
         PDict [ ("policy_number", PNone); ("claimant_name", PNone);
                 ("incident_date", PNone); ("incident_location", PNone);
                 ("vehicle_info", PNone) ]
    /\ audit_log w' = (audit_log empty_world ++ [entry])%list
    /\ status entry = "error".
Proof.
  apply (intake_unsupported_type (intake_env (Ok tt) (Ok tt)) empty_world
           [ ("claim_id", PStr "CLAIM-20251022101500");
             ("bucket", PStr "claimvoyant-raw-claims");
             ("key", PStr "CLAIM-20251022101500/test.txt") ]
           (PStr "claimvoyant-raw-claims") "CLAIM-20251022101500/test.txt");
    try reflexivity.
  discriminate.
Defined.

(** ** Intake: the Textract loop *)

Lemma poll_job_pending job pre rest :
  Forall pending pre ->
  Intake.poll_job job (pre ++ rest) = Intake.poll_job job rest.
Proof.
  induction 1 as [|p pre Hp _ IH]; [reflexivity |].
  destruct p as [e|st blocks msg]; [destruct Hp |].
  destruct Hp as [Hs Hf]. cbn.
  apply String.eqb_neq in Hs, Hf. rewrite Hs, Hf. exact IH.
Qed.

Lemma poll_job_none job polls :
  Intake.poll_job job polls = None <-> Forall pending polls.
Proof.
  induction polls as [|p polls IH]; cbn.
  - split; [constructor | reflexivity].
  - destruct p as [e|st blocks msg].
    + split; [discriminate |].
      intros H; inversion H as [|? ? Hp]. exfalso. exact Hp.
    + destruct (String.eqb_spec st "SUCCEEDED") as [->|Hs].
      { split; [discriminate |].
        intros H; inversion H as [|? ? Hp]. destruct Hp as [Hn _].
        congruence. }
      destruct (String.eqb_spec st "FAILED") as [->|Hf].
      { split; [discriminate |].
        intros H; inversion H as [|? ? Hp]. destruct Hp as [_ Hn].
        congruence. }
      rewrite IH. split.
      * intros H. constructor; [split; assumption | exact H].
      * intros H. inversion H. assumption.
Qed.

(** X4. The text extraction reads the answers of the job up to the first that is
    final and no further: a job that FAILED gives empty text with the error
    "Textract job failed: <message>", a fault of the poll gives empty text
    with its message, and a job that SUCCEEDED gives the text of its LINE
    blocks; in no case does the extraction raise. *)
Theorem extract_text_first_final_answer E job pre rest :
  Intake.textract_start E = Ok job ->
  Forall pending pre ->
  (forall blocks msg,
     Intake.textract_polls E
       = (pre ++ Intake.PollResult "FAILED" blocks (Some msg) :: rest)%list ->
     Intake.extract_text_from_pdf E =
       Some [ ("text", PStr EmptyString);
              ("error", PStr ("Textract job failed: " ++ msg)) ])
  /\ (forall e,
        Intake.textract_polls E = (pre ++ Intake.PollRaise e :: rest)%list ->
        Intake.extract_text_from_pdf E =
          Some [ ("text", PStr EmptyString); ("error", PStr (exn_str e)) ])
  /\ (forall blocks msg,
        Intake.textract_polls E
          = (pre ++ Intake.PollResult "SUCCEEDED" blocks msg :: rest)%list ->
        Intake.extract_text_from_pdf E =
          Some [ ("text", PStr (strip (Intake.block_lines blocks)));
                 ("job_id", PStr job) ]).
Proof.
  intros Hstart Hpre. unfold Intake.extract_text_from_pdf. rewrite Hstart.
  repeat split; intros; match goal with H : Intake.textract_polls E = _ |- _ =>
    rewrite H, (poll_job_pending _ _ _ Hpre) end; reflexivity.
Qed.

Lemma extract_text_first_final_answer_witness :
  Intake.extract_text_from_pdf (intake_env (Ok tt) (Ok tt)) =
    Some [ ("text",
            PStr (strip (Intake.block_lines
                    [ {| Intake.BlockType := "LINE";
                         Intake.Text := Some "Policy: AUTO-042 reported" |};
                      {| Intake.BlockType := "LINE";
                         Intake.Text := Some "incident 2025-10-22" |} ])));
           ("job_id", PStr "job-1") ].
Proof.
  assert (Hpre : Forall pending [ Intake.PollResult "IN_PROGRESS" [] None ]).
  { repeat constructor; discriminate. }
  exact (proj2 (proj2 (extract_text_first_final_answer
                         (intake_env (Ok tt) (Ok tt)) "job-1"
                         [ Intake.PollResult "IN_PROGRESS" [] None ] []
                         eq_refl Hpre))
           _ None eq_refl).
Defined.

Lemma intake_extraction_none E key_s :
  intake_extraction E key_s = None <->
  last_segment (lower key_s) EmptyString = "pdf"
  /\ exists job, Intake.textract_start E = Ok job
                 /\ Forall pending (Intake.textract_polls E).
Proof.
  unfold intake_extraction, Intake.extract_text_from_pdf.
  destruct (String.eqb_spec (last_segment (lower key_s) EmptyString) "pdf")
    as [->|Hne].
  - destruct (Intake.textract_start E) as [job|e]; cbn.
    + destruct (Intake.poll_job job (Intake.textract_polls E))
        as [[d|e]|] eqn:Hp; cbn.
      * split; [discriminate |]. intros (_ & job' & [= <-] & Hall).
        apply (poll_job_none job) in Hall. congruence.
      * split; [discriminate |]. intros (_ & job' & [= <-] & Hall).
        apply (poll_job_none job) in Hall. congruence.
      * split; [| reflexivity]. intros _. split; [reflexivity |].
        exists job. split; [reflexivity |]. apply (poll_job_none job), Hp.
    + split; [discriminate |]. intros (_ & job' & Hj & _). discriminate.
  - destruct (existsb _ _); (split; [discriminate |]);
      intros (Heq & _); congruence.
Qed.

(** X5. The Intake stage fails to return in one situation only: the key names a
    PDF, the Textract job started, and every answer to the polls so far
    keeps the loop waiting.  In every other case it returns a result. *)
Theorem intake_waits_only_for_textract E w event :
  Intake.lambda_handler E w event = None <->
  exists bucket key_s job,
    Intake.locate event = Ok (bucket, PStr key_s)
    /\ truthy bucket = true
    /\ key_s <> EmptyString
    /\ last_segment (lower key_s) EmptyString = "pdf"
    /\ Intake.textract_start E = Ok job
    /\ Forall pending (Intake.textract_polls E).
Proof.
  unfold Intake.lambda_handler. rewrite intake_handler_shape. split.
  - destruct (Intake.locate event) as [[bucket key]|e]; [| discriminate].
    destruct (truthy bucket) eqn:Hb; [| discriminate].
    destruct (truthy key) eqn:Hk; [| discriminate].
    cbn [negb orb].
    destruct key as [| | | |key_s| |]; try discriminate.
    destruct (intake_extraction E key_s) as [ed|] eqn:Hed.
    + destruct (intake_text ed); [| discriminate]. cbv zeta.
      destruct (Intake.audit_put_item E); discriminate.
    + intros _. apply intake_extraction_none in Hed.
      destruct Hed as (Hext & job & Hj & Hall).
      exists bucket, key_s, job. repeat split; try assumption.
      intros ->. discriminate Hk.
  - intros (bucket & key_s & job & Hloc & Hb & Hk & Hext & Hj & Hall).
    rewrite Hloc, Hb.
    assert (Hkt : truthy (PStr key_s) = true).
    { destruct key_s; [congruence | reflexivity]. }
    rewrite Hkt. cbn [negb orb].
    replace (intake_extraction E key_s) with (@None dict); [reflexivity |].
    symmetry. apply intake_extraction_none. eauto.
Qed.

Lemma intake_waits_only_for_textract_witness :
  Intake.lambda_handler
    {| Intake.now_compact := "20251022101500";
       Intake.now_iso := "2025-10-22T10:15:00.000000";
       Intake.textract_start := Ok "job-1";
       Intake.textract_polls := [ Intake.PollResult "IN_PROGRESS" [] None ];
       Intake.rekognition_detect_labels := Ok [];
       Intake.rekognition_detect_text := Ok [];
       Intake.weaviate_connect := Ok tt;
       Intake.weaviate_insert := Ok tt;
       Intake.audit_put_item := Ok tt |}
    empty_world upload_event = None.
Proof.
  apply (proj2 (intake_waits_only_for_textract _ _ _)).
  exists (PStr "claimvoyant-raw-claims"), "CLAIM-20251022101500/report.pdf",
    "job-1".
  repeat split; try reflexivity; try discriminate.
  repeat constructor; discriminate.
Defined.

(** ** Intake: image analysis *)

(** When either Rekognition call faults, the analysis reports no label, no
    text and the message of the fault: the labels that were detected are
    dropped when the text detection that follows fails. *)
Lemma analyze_image_fault E e :
  Intake.rekognition_detect_labels E = Raise e
  \/ (exists labels, Intake.rekognition_detect_labels E = Ok labels
                     /\ Intake.rekognition_detect_text E = Raise e) ->
  Intake.analyze_image E =
    [ ("labels", PList []); ("detected_text", PStr EmptyString);
      ("error", PStr (exn_str e)) ].
Proof.
  unfold Intake.analyze_image.
  intros [-> | (labels & -> & ->)]; reflexivity.
Qed.

Lemma analyze_image_fault_witness :
  Intake.analyze_image
    {| Intake.now_compact := "20251022101500";
       Intake.now_iso := "2025-10-22T10:15:00.000000";
       Intake.textract_start := Ok "job-1";
       Intake.textract_polls := [];
       Intake.rekognition_detect_labels :=
         Ok [ {| Intake.Name := "Car"; Intake.Confidence := 912 # 10 |} ];
       Intake.rekognition_detect_text := Raise (fault "throttled");
       Intake.weaviate_connect := Ok tt;
       Intake.weaviate_insert := Ok tt;
       Intake.audit_put_item := Ok tt |}
  = [ ("labels", PList []); ("detected_text", PStr EmptyString);
      ("error", PStr "throttled") ].
Proof.
  apply (analyze_image_fault _ (fault "throttled")).
  right. eexists. split; reflexivity.
Defined.

(** ** Entity extraction: texts without digits *)

Lemma rep_match_no_digit {A : Type} (p : ascii -> bool) (s : string)
    (k : string -> option A) :
  no_digit s -> (forall s', no_digit s' -> k s' = None) ->
  rep_match p s k = None.
Proof.
  intros Hs Hk. induction s as [|c t IH]; cbn; [apply Hk; exact I |].
  destruct Hs as [Hc Ht].
  destruct (p c); [rewrite (IH Ht) |]; apply Hk; split; assumption.
Qed.

Lemma rmatch_no_digit {A : Type} (r : regex) :
  forall (s : string) (k : string -> option A),
    no_digit s -> (forall s', no_digit s' -> k s' = None) ->
    rmatch r s k = None.
Proof.
  induction r as [p|r1 IH1 r2 IH2|r1 IH1 r2 IH2|r1 IH1|p]; intros s k Hs Hk; cbn.
  - destruct s as [|c t]; [reflexivity |]. destruct Hs as [_ Ht].
    destruct (p c); [apply Hk, Ht | reflexivity].
  - apply IH1; [exact Hs |]. intros s' Hs'. apply IH2; assumption.
  - rewrite IH1 by assumption. apply IH2; assumption.
  - rewrite IH1 by assumption. apply Hk, Hs.
  - apply rep_match_no_digit; assumption.
Qed.

Lemma rmatch_needs_digit {A : Type} (r : regex) :
  needs_digit r ->
  forall (s : string) (k : string -> option A),
    no_digit s -> rmatch r s k = None.
Proof.
  induction 1 as [p Hp|r1 r2 _ IH|r1 r2 _ IH|r1 r2 _ IH1 _ IH2];
    intros s k Hs; cbn.
  - destruct s as [|c t]; [reflexivity |]. destruct Hs as [Hc _].
    destruct (p c) eqn:Hpc; [| reflexivity].
    rewrite (Hp c Hpc) in Hc. discriminate.
  - apply IH, Hs.
  - apply rmatch_no_digit; [exact Hs |]. intros s' Hs'. apply IH, Hs'.
  - rewrite IH1 by exact Hs. apply IH2, Hs.
Qed.

Lemma re_search_needs_digit (r : regex) (s : string) :
  needs_digit r -> no_digit s -> re_search r s = None.
Proof.
  intros Hr. induction s as [|c t IH]; intros Hs; cbn; unfold match_here;
    rewrite (rmatch_needs_digit r Hr _ _ Hs); [reflexivity |].
  apply IH, Hs.
Qed.

Lemma needs_digit_plus : needs_digit (plus is_digit).
Proof. apply needs_digit_left, needs_digit_cls. auto. Qed.

Lemma needs_digit_digit : needs_digit digit.
Proof. apply needs_digit_cls. auto. Qed.

Lemma policy_pattern_needs_digit : needs_digit Intake.policy_pattern.
Proof.
  unfold Intake.policy_pattern.
  repeat first [ apply needs_digit_alt
               | exact needs_digit_plus
               | apply needs_digit_right ].
Qed.

Lemma date_pattern_needs_digit : needs_digit Intake.date_pattern.
Proof.
  unfold Intake.date_pattern, Intake.digits4, Intake.digits1_2.
  apply needs_digit_alt; do 2 apply needs_digit_left; exact needs_digit_digit.
Qed.

(** X6. An ASCII text in which none of the digits 0 to 9 occurs has no
    policy number and no incident date: all five entities are null.  (On
    ASCII text the digit class of the patterns is the ten digits; beyond
    ASCII it holds other decimal digits, of which this says nothing.) *)
Theorem extract_entities_without_digits (text : string) :
  ascii_text text ->
  no_digit text ->
  Intake.extract_entities text =
    [ ("policy_number", PNone); ("claimant_name", PNone);
      ("incident_date", PNone); ("incident_location", PNone);
      ("vehicle_info", PNone) ].
Proof.
  intros _ H. unfold Intake.extract_entities.
  rewrite (re_search_needs_digit _ _ policy_pattern_needs_digit H),
          (re_search_needs_digit _ _ date_pattern_needs_digit H).
  reflexivity.
Qed.

Lemma extract_entities_without_digits_witness :
  Intake.extract_entities "Policy number: pending, incident date unknown" =
    [ ("policy_number", PNone); ("claimant_name", PNone);
      ("incident_date", PNone); ("incident_location", PNone);
      ("vehicle_info", PNone) ].
Proof.
  apply extract_entities_without_digits.
  - cbn. repeat split.
  - cbn. repeat split.
Defined.

(** ** Policy stage: what can fail it, and the number it looks up *)

(** X7. The Policy stage returns 200 exactly when the entities of the event are
    a dictionary (or absent) and the audit write succeeds: no outcome of the
    policy lookup, fault included, fails the stage. *)
Theorem policy_success_condition E w event :
  statusCode (snd (Policy.lambda_handler E w event)) = PInt 200 <->
  (exists d, dget_or "entities" (PDict []) event = PDict d)
  /\ Policy.audit_put_item E = Ok tt.
Proof.
  unfold Policy.lambda_handler, Policy.handler_body.
  destruct (dget_or "entities" (PDict []) event) as [| | | | | |d] eqn:He;
    try (cbn; split; [discriminate | intros [[d' [=]] _]]).
  cbn [py_get].
  destruct (Policy.audit_put_item E) as [[]|e]; cbn.
  - split; [intros _; split; [exists d |]; reflexivity | reflexivity].
  - split; [discriminate | intros [_ [=]]].
Qed.

Lemma policy_success_condition_witness :
  statusCode
    (snd (Policy.lambda_handler
            (policy_env (Raise (fault "connection refused")) [])
            empty_world intake_output)) = PInt 200.
Proof.
  apply (proj2 (policy_success_condition _ _ _)).
  split; [eexists |]; reflexivity.
Defined.

(** X8. In a Policy result of status 200 the policy number is never null or
    empty: it is the one of the entities when that is given, and AUTO-001
    otherwise; policy_data is the answer of the lookup for that number, and
    the audit entry records the same number and the same found flag. *)
Theorem policy_number_rule E w event :
  let w' := fst (Policy.lambda_handler E w event) in
  let r := snd (Policy.lambda_handler E w event) in
  statusCode r = PInt 200 ->
  truthy (dget "policy_number" r) = true
  /\ dget "policy_data" r =
       PDict (Policy.query_policy E (dget "policy_number" r))
  /\ (forall d,
        dget_or "entities" (PDict []) event = PDict d ->
        dget "policy_number" r =
          (if truthy (dget "policy_number" d) then dget "policy_number" d
           else PStr "AUTO-001"))
  /\ exists entry policy_data,
       audit_log w' = (audit_log w ++ [entry])%list
       /\ dget "policy_data" r = PDict policy_data
       /\ details entry = [ ("policy_number", dget "policy_number" r);
                            ("found", dget "found" policy_data) ].
Proof.
  unfold Policy.lambda_handler, Policy.handler_body.
  destruct (dget_or "entities" (PDict []) event) as [| | | | | |d] eqn:He;
    try (cbn; discriminate).
  cbn [py_get].
  destruct (Policy.audit_put_item E) as [[]|e]; [| cbn; discriminate].
  cbn [fst snd]. intros _.
  set (pn := if truthy (dget "policy_number" d) then dget "policy_number" d
             else PStr "AUTO-001").
  repeat match goal with
         | |- context [dget "policy_number" (?x :: ?l)] =>
             change (dget "policy_number" (x :: l)) with pn
         end.
  split.
  { subst pn. destruct (truthy (dget "policy_number" d)) eqn:Ht;
      [exact Ht | reflexivity]. }
  split; [reflexivity |].
  split; [intros d' [= <-]; reflexivity |].
  eexists. eexists. repeat split.
Qed.

Lemma policy_number_rule_witness :
  truthy (dget "policy_number" policy_output) = true
  /\ dget "policy_number" policy_output = PStr "POL-77".
Proof.
  destruct (policy_number_rule (policy_env (Ok tt) []) empty_world
              intake_output eq_refl) as (Ht & _ & Hn & _).
  split; [exact Ht |]. exact (Hn _ eq_refl).
Defined.

(** ** Chaining the stages *)

(** X9. An event without extracted_data is no problem for the Damage stage on its
    own (it assesses no damage), but not after the Policy stage: Policy
    forwards the absent field as null, and on that the Damage stage returns
    500 and writes nothing. *)
Theorem absent_extracted_data_after_policy EP ED w w2 event :
  dlookup "extracted_data" event = None ->
  Damage.audit_put_item ED = Ok tt ->
  statusCode (snd (Policy.lambda_handler EP w event)) = PInt 200 ->
  (statusCode (snd (Damage.lambda_handler ED w2 event)) = PInt 200
   /\ exists a, dget "damage_assessment" (snd (Damage.lambda_handler ED w2 event))
                = PDict a
                /\ dget "damage_detected" a = PBool false)
  /\ Damage.lambda_handler ED w2 (snd (Policy.lambda_handler EP w event))
     = (w2, failure (AttributeError PNone "get")).
Proof.
  intros Hnone Haudit.
  unfold Policy.lambda_handler, Policy.handler_body.
  destruct (py_get _ _) as [pn|e]; [| cbn; discriminate].
  destruct (Policy.audit_put_item EP) as [[]|e]; [| cbn; discriminate].
  cbn [snd]. intros _.
  unfold Damage.lambda_handler, Damage.handler_body, dget, dget_or.
  rewrite Hnone, Haudit. split; [| reflexivity].
  cbn. split; [reflexivity |]. eexists. split; reflexivity.
Qed.

Lemma absent_extracted_data_after_policy_witness :
  Damage.lambda_handler damage_env empty_world
    (snd (Policy.lambda_handler (policy_env (Ok tt) []) empty_world
            [ ("claim_id", PStr "CLAIM-20251022101500") ]))
  = (empty_world,
     [ ("statusCode", PInt 500);
       ("error", PStr "'NoneType' object has no attribute 'get'") ]).
Proof.
  apply (proj2 (absent_extracted_data_after_policy
                  (policy_env (Ok tt) []) damage_env empty_world empty_world
                  [ ("claim_id", PStr "CLAIM-20251022101500") ]
                  eq_refl eq_refl eq_refl)).
Defined.

Lemma poll_job_success job polls d :
  Intake.poll_job job polls = Some (Ok d) -> dlookup "labels" d = None.
Proof.
  induction polls as [|p polls IH]; cbn; [discriminate |].
  destruct p as [e|st blocks msg]; [discriminate |].
  destruct (String.eqb st "SUCCEEDED"); [intros [= <-]; reflexivity |].
  destruct (String.eqb st "FAILED"); [discriminate | exact IH].
Qed.

Lemma labels_named_absent ed :
  dlookup "labels" ed = None -> labels_named ed.
Proof.
  intros H. exists []. unfold dget_or. rewrite H. split; constructor.
Qed.

Lemma dlookup_dset_other {V : Type} (k k' : string) (v : V)
    (d : list (string * V)) :
  String.eqb k' k = false -> dlookup k' (dset k v d) = dlookup k' d.
Proof. intros H. rewrite dlookup_dset, H. reflexivity. Qed.

(** The extracted data of the Intake stage never make the label loop of the
    Damage stage raise. *)
Lemma intake_extraction_labels E key_s ed :
  intake_extraction E key_s = Some ed -> labels_named ed.
Proof.
  unfold intake_extraction.
  destruct (String.eqb _ "pdf").
  - unfold Intake.extract_text_from_pdf.
    destruct (Intake.textract_start E) as [job|e]; cbn.
    + destruct (Intake.poll_job job (Intake.textract_polls E))
        as [[d|e]|] eqn:Hp; cbn; try discriminate; intros [= <-];
        apply labels_named_absent.
      * rewrite dlookup_dset_other by reflexivity.
        exact (poll_job_success _ _ _ Hp).
      * reflexivity.
    + intros [= <-]. apply labels_named_absent. reflexivity.
  - destruct (existsb _ _); intros [= <-];
      [| apply labels_named_absent; reflexivity].
    unfold Intake.analyze_image.
    destruct (Intake.rekognition_detect_labels E) as [ls|e]; cbn;
      [| exists []; split; [reflexivity | constructor]].
    destruct (Intake.rekognition_detect_text E) as [ts|e]; cbn;
      [| exists []; split; [reflexivity | constructor]].
    eexists. split; [reflexivity |].
    apply Forall_forall. intros l Hl. apply in_map_iff in Hl.
    destruct Hl as (x & <- & _). discriminate.
Qed.

(** X10. After an Intake execution that returned 200, the Policy, Damage and
    Valuation stages, each fed the output of the one before, return 200
    whenever their audit writes succeed: no context that Intake produces can
    fail them, whatever the policy lookup answers.  The claim id, the
    extracted data and the entities reach the end unchanged. *)
Theorem pipeline_progress EI EP ED EV w event w1 r1 w2 w3 w4 :
  let r2 := snd (Policy.lambda_handler EP w2 r1) in
  let r3 := snd (Damage.lambda_handler ED w3 r2) in
  let r4 := snd (Valuation.lambda_handler EV w4 r3) in
  Intake.lambda_handler EI w event = Some (w1, r1) ->
  statusCode r1 = PInt 200 ->
  Policy.audit_put_item EP = Ok tt ->
  Damage.audit_put_item ED = Ok tt ->
  Valuation.audit_put_item EV = Ok tt ->
  statusCode r2 = PInt 200
  /\ statusCode r3 = PInt 200
  /\ statusCode r4 = PInt 200
  /\ dget "claim_id" r4 = dget "claim_id" r1
  /\ dget "extracted_data" r4 = dget "extracted_data" r1
  /\ dget "entities" r4 = dget "entities" r1.
Proof.
  intros r2 r3 r4 H S HP HD HV.
  destruct (intake_success_inv _ _ _ _ _ H S)
    as (bucket & key_s & ed & text & _ & _ & _ & Hed & _ & _ & ->).
  destruct (intake_extraction_labels _ _ _ Hed) as (labels & Hl & Hn).
  subst r4 r3 r2.
  unfold Policy.lambda_handler, Policy.handler_body.
  change (dget_or "entities" (PDict [])
            (intake_result EI event bucket key_s ed text))
    with (PDict (Intake.extract_entities text)).
  cbn [py_get]. rewrite HP. cbn [snd].
  unfold Damage.lambda_handler, Damage.handler_body.
  match goal with
  | |- context [Damage.assess_damage ?x] =>
      change x with (PDict ed);
      assert (Ha : exists a, Damage.assess_damage (PDict ed) = Ok a)
  end.
  { unfold Damage.assess_damage, py_get_or. rewrite Hl.
    cbn [obind Damage.py_iter]. rewrite (any_label_named _ Hn).
    eexists. reflexivity. }
  destruct Ha as (a & ->). rewrite HD. cbn [snd].
  unfold Valuation.lambda_handler, Valuation.handler_body.
  match goal with
  | |- context [Valuation.get_vehicle_value ?x] =>
      change x with (PDict (Intake.extract_entities text))
  end.
  unfold Valuation.get_vehicle_value, py_get_or. cbn [obind].
  rewrite HV. repeat split.
Qed.

Lemma pipeline_progress_witness :
  let r4 :=
    snd (Valuation.lambda_handler valuation_env empty_world
           (snd (Damage.lambda_handler damage_env empty_world
                   (snd (Policy.lambda_handler (policy_env (Ok tt) [])
                           empty_world (snd intake_upload_run)))))) in
  statusCode r4 = PInt 200
  /\ dget "entities" r4 = dget "entities" (snd intake_upload_run).
Proof.
  destruct (pipeline_progress (intake_env (Ok tt) (Ok tt))
              (policy_env (Ok tt) []) damage_env valuation_env
              empty_world upload_event (fst intake_upload_run)
              (snd intake_upload_run) empty_world empty_world empty_world
              eq_refl eq_refl eq_refl eq_refl eq_refl)
    as (_ & _ & S4 & _ & _ & He).
  split; [exact S4 | exact He].
Defined.

(** ** Damage stage: the order of the labels *)

(** X11. The label loop stops at the first label that matches: when the labels
    before it are well formed and match nothing, a matching label decides for
    damage whatever follows it, ill-formed labels included, and a label that
    cannot be read raises at that point. *)
Theorem damage_first_match_decides extracted_data pre l rest :
  dget_or "labels" (PList []) extracted_data = PList (pre ++ l :: rest) ->
  Forall (fun x => exists m, label_name x = Some m
                             /\ in_vocabulary m = false) pre ->
  (forall n, label_name l = Some n -> in_vocabulary n = true ->
     exists a, Damage.assess_damage (PDict extracted_data) = Ok a
               /\ dget "damage_detected" a = PBool true
               /\ dget "severity" a = PStr "MODERATE")
  /\ (forall e, Damage.label_matches l = Raise e ->
        Damage.assess_damage (PDict extracted_data) = Raise e).
Proof.
  intros Hl Hpre.
  assert (Hany : Damage.any_label (pre ++ l :: rest) =
                 (let* b := Damage.label_matches l in
                  if b then Ok true else Damage.any_label rest)).
  { clear Hl. induction Hpre as [|x pre (m & Hm & Hv) _ IH]; [reflexivity |].
    cbn [app Damage.any_label].
    rewrite (label_matches_named _ _ Hm), Hv. exact IH. }
  unfold Damage.assess_damage, py_get_or. rewrite Hl.
  cbn [obind Damage.py_iter]. rewrite Hany. split.
  - intros n Hn Hv. rewrite (label_matches_named _ _ Hn), Hv.
    eexists. repeat split.
  - intros e ->. reflexivity.
Qed.

Lemma damage_first_match_decides_witness :
  exists a,
    Damage.assess_damage
      (PDict [ ("labels",
                PList [ PDict [ ("name", PStr "Tree") ];
                        PDict [ ("name", PStr "Vehicle") ];
                        PInt 5 ]) ]) = Ok a
    /\ dget "damage_detected" a = PBool true
    /\ dget "severity" a = PStr "MODERATE".
Proof.
  assert (Hpre : Forall (fun x => exists m, label_name x = Some m
                                            /\ in_vocabulary m = false)
                        [ PDict [ ("name", PStr "Tree") ] ]).
  { constructor; [| constructor]. exists "Tree". split; reflexivity. }
  exact (proj1 (damage_first_match_decides
                  [ ("labels",
                     PList [ PDict [ ("name", PStr "Tree") ];
                             PDict [ ("name", PStr "Vehicle") ];
                             PInt 5 ]) ]
                  [ PDict [ ("name", PStr "Tree") ] ]
                  (PDict [ ("name", PStr "Vehicle") ])
                  [ PInt 5 ] eq_refl Hpre)
           "Vehicle" eq_refl eq_refl).
Defined.

(** ** Decision stage: what an execution writes *)

(** X12. A Decision execution that returns 200 has appended exactly one claim
    record, one report and one audit entry, and nothing else; the three and
    the result carry the same version, the time of the decision.  The record
    has the decision of the model as status, or ERROR when the answer has no
    decision, while the result reports that missing decision as null. *)
Theorem decision_success_writes json_loads E w event :
  let w' := fst (Decision.lambda_handler json_loads E w event) in
  let r := snd (Decision.lambda_handler json_loads E w event) in
  statusCode r = PInt 200 ->
  exists c dd report entry,
    dget "claim_id" event = PStr c
    /\ Decision.invoke_claude json_loads E = PDict dd
    /\ claims w' = (claims w ++ [decision_record E event c dd])%list
    /\ reports w' = (reports w ++ [report])%list
    /\ audit_log w' = (audit_log w ++ [entry])%list
    /\ artifacts w' = artifacts w
    /\ rep_key report = decision_report_key c
    /\ dget "report_s3_key" r = PStr (decision_report_key c)
    /\ dget "timestamp" (rep_body report) = PStr (Decision.now_iso E)
    /\ a_timestamp entry = Decision.now_iso E
    /\ dget "version" r = PStr (Decision.now_iso E)
    /\ c_status (decision_record E event c dd)
       = dget_or "decision" (PStr "ERROR") dd
    /\ dget "decision" r = dget "decision" dd
    /\ dget "decision_data" r = PDict dd.
Proof.
  unfold Decision.lambda_handler, Decision.handler_body.
  destruct (Decision.invoke_claude json_loads E) as [| | | | | |dd];
    try (cbn; discriminate).
  unfold Decision.put_claim_item.
  destruct (dget "claim_id" event) as [| | | |c| |]; try (cbn; discriminate).
  destruct (Decision.claims_put_item E) as [[]|e]; [| cbn; discriminate].
  cbn [obind].
  destruct (Decision.s3_put_object E) as [[]|e]; [| cbn; discriminate].
  destruct (Decision.audit_put_item E) as [[]|e]; [| cbn; discriminate].
  intros _. exists c, dd. eexists. eexists. repeat split.
Qed.

Lemma decision_success_writes_witness :
  exists c dd report entry,
    dget "claim_id" valuation_output = PStr c
    /\ Decision.invoke_claude Json.json_loads
         (decision_env (Ok (bedrock_body "{}")) (Ok tt)) = PDict dd
    /\ c_status (decision_record
                   (decision_env (Ok (bedrock_body "{}")) (Ok tt))
                   valuation_output c dd) = PStr "ERROR"
    /\ rep_key report = decision_report_key c
    /\ a_timestamp entry = "2025-10-22T10:15:05.000000".
Proof.
  destruct (decision_success_writes Json.json_loads
              (decision_env (Ok (bedrock_body "{}")) (Ok tt))
              empty_world valuation_output eq_refl)
    as (c & dd & report & entry & Hc & Hdd & _ & _ & _ & _ & Hk & _ & _ & Ht
        & _ & Hs & _).
  exists c, dd, report, entry.
  injection Hdd as <-.
  repeat split; assumption.
Defined.

(** X13. The Decision stage writes in a fixed order, the claim record, then the
    report, then the audit entry, and undoes nothing: whatever happens, each
    store has grown by at most one item, a report is there only with its
    record, an audit entry only with its report, and the stage returns 200
    exactly when the audit entry was written. *)
Theorem decision_write_order json_loads E w event :
  let w' := fst (Decision.lambda_handler json_loads E w event) in
  let r := snd (Decision.lambda_handler json_loads E w event) in
  exists records new_reports entries,
    claims w' = (claims w ++ records)%list
    /\ reports w' = (reports w ++ new_reports)%list
    /\ audit_log w' = (audit_log w ++ entries)%list
    /\ (length entries <= length new_reports <= length records)%nat
    /\ (length records <= 1)%nat
    /\ (statusCode r = PInt 200 <-> length entries = 1%nat).
Proof.
  unfold Decision.lambda_handler, Decision.handler_body.
  destruct (Decision.invoke_claude json_loads E) as [| | | | | |dd];
    try (exists [], [], []; cbn; rewrite !app_nil_r;
         repeat split; (lia || discriminate)).
  destruct (Decision.put_claim_item E _) as [c|e];
    [| exists [], [], []; cbn; rewrite !app_nil_r;
       repeat split; (lia || discriminate)].
  destruct (Decision.s3_put_object E) as [[]|e];
    [| eexists [_], [], []; cbn; rewrite !app_nil_r;
       repeat split; (lia || discriminate)].
  destruct (Decision.audit_put_item E) as [[]|e];
    [| eexists [_], [_], []; cbn; rewrite !app_nil_r;
       repeat split; (lia || discriminate)].
  eexists [_], [_], [_]. cbn. repeat split; lia.
Qed.

Lemma dget_same (k : string) (e1 e2 : dict) :
  dlookup k e1 = dlookup k e2 -> dget k e1 = dget k e2.
Proof. unfold dget. intros ->. reflexivity. Qed.

Lemma dget_or_same (k : string) (v : pyval) (e1 e2 : dict) :
  dlookup k e1 = dlookup k e2 -> dget_or k v e1 = dget_or k v e2.
Proof. unfold dget_or. intros ->. reflexivity. Qed.

(** X14. The Decision stage reads four fields of its event: claim_id,
    policy_data, extracted_data and entities.  Two events that agree on them
    give the same prompt, the same writes and the same result: the damage
    assessment and the valuation of the earlier stages reach neither the
    model, nor the claim record, nor the report, nor the result. *)
Theorem decision_reads_four_fields json_loads json_dumps_indent2 py_str
    E w e1 e2 :
  same_decision_inputs e1 e2 ->
  DecisionPrompt.build_decision_prompt json_dumps_indent2 py_str e1
  = DecisionPrompt.build_decision_prompt json_dumps_indent2 py_str e2
  /\ Decision.lambda_handler json_loads E w e1
     = Decision.lambda_handler json_loads E w e2.
Proof.
  intros H.
  assert (Hc : dlookup "claim_id" e1 = dlookup "claim_id" e2)
    by (apply H; cbn; tauto).
  assert (Hp : dlookup "policy_data" e1 = dlookup "policy_data" e2)
    by (apply H; cbn; tauto).
  assert (Hx : dlookup "extracted_data" e1 = dlookup "extracted_data" e2)
    by (apply H; cbn; tauto).
  assert (He : dlookup "entities" e1 = dlookup "entities" e2)
    by (apply H; cbn; tauto).
  unfold DecisionPrompt.build_decision_prompt,
    Decision.lambda_handler, Decision.handler_body.
  rewrite (dget_same _ _ _ Hc), (dget_same _ _ _ Hp), (dget_same _ _ _ He),
    (dget_or_same _ _ _ _ Hp), (dget_or_same _ _ _ _ Hx),
    (dget_or_same _ _ _ _ He).
  split; reflexivity.
Qed.

Lemma decision_reads_four_fields_witness :
  Decision.lambda_handler Json.json_loads
    (decision_env (Ok (bedrock_body "{}")) (Ok tt)) empty_world
    valuation_output
  = Decision.lambda_handler Json.json_loads
      (decision_env (Ok (bedrock_body "{}")) (Ok tt)) empty_world
      policy_output.
Proof.
  apply (decision_reads_four_fields Json.json_loads
           (fun _ => EmptyString) (fun _ => EmptyString)).
  intros k Hk. cbn in Hk.
  repeat (destruct Hk as [<- | Hk]; [reflexivity |]). destruct Hk.
Defined.

(** ** The claims API: order and completeness *)

Lemma insert_desc_descending {A : Type} (key : A -> string) (x : A)
    (l : list A) :
  descending key l -> descending key (insert_desc key x l).
Proof.
  induction l as [|y l IH]; cbn; [intros _; split; [intros ? [] | exact I] |].
  intros [Hy Hl].
  destruct (String.ltb (key x) (key y)) eqn:Hlt; cbn.
  - split; [| exact (IH Hl)].
    intros z Hz. apply (Permutation_in _ (insert_desc_perm key x l)) in Hz.
    destruct Hz as [<- | Hz]; [apply ltb_leb, Hlt | exact (Hy z Hz)].
  - split; [| split; assumption].
    intros z [<- | Hz]; [apply not_ltb_leb, Hlt |].
    apply leb_trans with (key y); [exact (Hy z Hz) | apply not_ltb_leb, Hlt].
Qed.

Lemma sort_desc_descending {A : Type} (key : A -> string) (l : list A) :
  descending key (sort_desc key l).
Proof.
  induction l as [|x l IH]; cbn; [exact I |].
  apply insert_desc_descending, IH.
Qed.

Lemma sort_desc_head {A : Type} (key : A -> string) (l : list A) x rest :
  sort_desc key l = x :: rest ->
  In x l /\ forall y, In y l -> String.leb (key y) (key x) = true.
Proof.
  intros H.
  pose proof (sort_desc_descending key l) as Hd. rewrite H in Hd.
  destruct Hd as [Hx _].
  pose proof (sort_desc_perm key l) as Hp. rewrite H in Hp.
  split; [apply (Permutation_in _ Hp); left; reflexivity |].
  intros y Hy. apply (Permutation_in _ (Permutation_sym Hp)) in Hy.
  destruct Hy as [<- | Hy]; [apply leb_refl | exact (Hx y Hy)].
Qed.

(** X15. For a claim that has records, under an id that DynamoDB accepts as
    the value of a key, both status queries answer with the record of the
    claim that has the greatest version, whatever the order of the table. *)
Theorem get_claim_latest_version (db : dynamo) (cid : string) :
  outage db = None ->
  key_accepted cid = true ->
  (exists r0, In r0 (table db) /\ claim_id r0 = cid) ->
  exists r,
    In r (table db) /\ claim_id r = cid
    /\ (forall r', In r' (table db) -> claim_id r' = cid ->
                   String.leb (version r') (version r) = true)
    /\ Api.get_claim db cid = Api.Returns (claim_details cid r)
    /\ ApiSimple.handle_get_claim db cid
       = ApiSimple.response 200 (claim_details cid r).
Proof.
  intros Hup Hkey (r0 & Hin0 & Hid0).
  unfold Api.get_claim, ApiSimple.handle_get_claim, query_latest.
  rewrite Hup, Hkey.
  set (mine := List.filter (fun r => String.eqb (claim_id r) cid) (table db)).
  assert (Hmine : forall r, In r mine <-> In r (table db) /\ claim_id r = cid).
  { intros r. unfold mine. rewrite filter_In, String.eqb_eq. reflexivity. }
  destruct (sort_desc version mine) as [|r rest] eqn:Hs.
  - exfalso.
    assert (Hr0 : In r0 mine) by (apply Hmine; auto).
    apply (Permutation_in _ (Permutation_sym (sort_desc_perm version mine)))
      in Hr0. rewrite Hs in Hr0. destruct Hr0.
  - destruct (sort_desc_head _ _ _ _ Hs) as [Hr Hmax].
    apply Hmine in Hr. destruct Hr as [Hr Hid].
    exists r. repeat split; try assumption.
    intros r' Hr' Hid'. apply Hmax, Hmine. auto.
Qed.

Lemma get_claim_latest_version_witness :
  exists r,
    In r (table eleven_versions) /\ claim_id r = "CLAIM-20251022101500"
    /\ (forall r', In r' (table eleven_versions) ->
                   claim_id r' = "CLAIM-20251022101500" ->
                   String.leb (version r') (version r) = true)
    /\ Api.get_claim eleven_versions "CLAIM-20251022101500"
       = Api.Returns (claim_details "CLAIM-20251022101500" r)
    /\ ApiSimple.handle_get_claim eleven_versions "CLAIM-20251022101500"
       = ApiSimple.response 200 (claim_details "CLAIM-20251022101500" r).
Proof.
  apply (get_claim_latest_version eleven_versions "CLAIM-20251022101500"
           eq_refl eq_refl).
  eexists. split; [left; reflexivity | reflexivity].
Defined.

Lemma recent_claims_complete items r :
  In r items ->
  exists e, In e (recent_claims items)
            /\ dget "claim_id" e = PStr (claim_id r).
Proof.
  intros Hr. destruct (group_latest_grouped items) as [Hnd Hlat Hall].
  destruct (dlookup (claim_id r) (group_latest items)) as [g|] eqn:Hg;
    [| destruct (Hall r Hr Hg)].
  destruct (Hlat _ _ Hg) as [Hid _].
  exists (summary g). split; [| cbn; rewrite Hid; reflexivity].
  unfold recent_claims.
  apply (Permutation_in _ (Permutation_sym (sort_desc_perm _ _))).
  apply in_map, in_map_iff. exists (claim_id r, g). split; [reflexivity |].
  clear -Hg. induction (group_latest items) as [|[k v] d IH];
    cbn in *; [discriminate |].
  destruct (String.eqb_spec (claim_id r) k) as [->|_];
    [injection Hg as ->; left; reflexivity | right; exact (IH Hg)].
Qed.

Lemma summary_timestamp r : str_key "timestamp" (summary r) = timestamp r.
Proof. reflexivity. Qed.

(** X16. For every limit of at least 1, the listing of the FastAPI module has at
    most that many entries, one for every claim id among the items the scan
    returned and no two for one claim id, in the order of their timestamps,
    latest first. *)
Theorem list_claims_order_and_coverage (db : dynamo) (limit : Z) :
  outage db = None ->
  1 <= limit ->
  exists entries,
    Api.list_claims db limit =
      Api.Returns [ ("claims", PList (map PDict entries)) ]
    /\ (Z.of_nat (length entries) <= limit)
    /\ descending (str_key "timestamp") entries
    /\ NoDup (map (dget "claim_id") entries)
    /\ (forall r, In r (firstn (Z.to_nat limit) (table db)) ->
          exists e, In e entries /\ dget "claim_id" e = PStr (claim_id r)).
Proof.
  intros Hup Hlimit.
  set (items := firstn (Z.to_nat limit) (table db)).
  assert (Hlen : (length (recent_claims items) <= Z.to_nat limit)%nat).
  { etransitivity; [apply recent_claims_length |]. apply firstn_le_length. }
  exists (recent_claims items).
  split; [| split; [| split; [| split]]].
  - unfold Api.list_claims, scan. rewrite Hup.
    destruct (Z.ltb_spec limit 1) as [Hlt|_]; [lia |].
    fold items. rewrite (firstn_all2 (recent_claims items)) by exact Hlen.
    reflexivity.
  - apply Nat2Z.inj_le in Hlen. rewrite Z2Nat.id in Hlen by lia. exact Hlen.
  - apply sort_desc_descending.
  - apply recent_claims_distinct.
  - intros r. apply recent_claims_complete.
Qed.

Lemma list_claims_order_and_coverage_witness :
  exists entries,
    Api.list_claims eleven_versions 3 =
      Api.Returns [ ("claims", PList (map PDict entries)) ]
    /\ (Z.of_nat (length entries) <= 3)
    /\ descending (str_key "timestamp") entries.
Proof.
  destruct (list_claims_order_and_coverage eleven_versions 3 eq_refl)
    as (entries & H1 & H2 & H3 & _); [lia |].
  exists entries. repeat split; assumption.
Defined.

(** ** From the Decision stage to the status query *)

Lemma sort_desc_snoc {A : Type} (key : A -> string) (l : list A) (x : A) :
  (forall y, In y l -> String.ltb (key y) (key x) = true) ->
  sort_desc key (l ++ [x]) = x :: sort_desc key l.
Proof.
  induction l as [|y l IH]; intros H; [reflexivity |].
  change (sort_desc key ((y :: l) ++ [x]))
    with (insert_desc key y (sort_desc key (l ++ [x]))).
  rewrite IH by (intros z Hz; apply H; right; exact Hz).
  cbn [insert_desc]. rewrite (H y) by (left; reflexivity). reflexivity.
Qed.

(** X17. A decision that was committed is what the status query answers next:
    after a Decision execution that returned 200 for a claim whose stored
    versions are all earlier, under an id that DynamoDB accepts as the value
    of a key, the query returns the new version with the status, decision,
    reasoning, confidence and payout of the decision and the entities of the
    event. *)
Theorem decision_then_get_claim json_loads E w event c :
  let out := Decision.lambda_handler json_loads E w event in
  statusCode (snd out) = PInt 200 ->
  dget "claim_id" event = PStr c ->
  key_accepted c = true ->
  (forall rec, In rec (claims w) -> claim_id rec = c ->
               String.ltb (version rec) (Decision.now_iso E) = true) ->
  exists dd,
    dget "decision_data" (snd out) = PDict dd
    /\ Api.get_claim (dynamo_of (fst out)) c =
         Api.Returns
           [ ("claim_id", PStr c);
             ("version", PStr (Decision.now_iso E));
             ("status", dget_or "decision" (PStr "ERROR") dd);
             ("timestamp", PStr (Decision.now_iso E));
             ("decision", dget "decision" dd);
             ("reasoning", dget "reasoning" dd);
             ("confidence", dget "confidence" dd);
             ("estimated_payout", dget "estimated_payout" dd);
             ("entities", dget_or "entities" (PDict []) event) ].
Proof.
  intros out S Hc Hkey Hold. subst out. revert S.
  unfold Decision.lambda_handler, Decision.handler_body.
  destruct (Decision.invoke_claude json_loads E) as [| | | | | |dd];
    try (cbn; discriminate).
  unfold Decision.put_claim_item. rewrite Hc.
  destruct (Decision.claims_put_item E) as [[]|e]; [| cbn; discriminate].
  cbn [obind].
  destruct (Decision.s3_put_object E) as [[]|e]; [| cbn; discriminate].
  destruct (Decision.audit_put_item E) as [[]|e]; [| cbn; discriminate].
  intros _. exists dd. split; [reflexivity |].
  cbn [fst]. unfold Api.get_claim, query_latest, dynamo_of.
  cbn [outage table claims put_audit put_report put_claim].
  rewrite Hkey, filter_app. cbn [List.filter claim_id].
  rewrite String.eqb_refl, sort_desc_snoc; [reflexivity |].
  intros y Hy. apply filter_In in Hy. destruct Hy as [Hy Hid].
  apply String.eqb_eq in Hid. exact (Hold y Hy Hid).
Qed.

Lemma decision_then_get_claim_witness :
  exists dd,
    Api.get_claim
      (dynamo_of
         (fst (Decision.lambda_handler Json.json_loads
                 (decision_env (Raise (fault "model timeout")) (Ok tt))
                 empty_world valuation_output)))
      "CLAIM-20251022101500"
    = Api.Returns
        [ ("claim_id", PStr "CLAIM-20251022101500");
          ("version", PStr "2025-10-22T10:15:05.000000");
          ("status", dget_or "decision" (PStr "ERROR") dd);
          ("timestamp", PStr "2025-10-22T10:15:05.000000");
          ("decision", dget "decision" dd);
          ("reasoning", dget "reasoning" dd);
          ("confidence", dget "confidence" dd);
          ("estimated_payout", dget "estimated_payout" dd);
          ("entities", dget_or "entities" (PDict []) valuation_output) ].
Proof.
  destruct (decision_then_get_claim Json.json_loads
              (decision_env (Raise (fault "model timeout")) (Ok tt))
              empty_world valuation_output "CLAIM-20251022101500"
              eq_refl eq_refl eq_refl) as (dd & _ & H).
  - intros rec [].
  - exists dd. exact H.
Defined.

(** ** The audit log route *)

(** X18. The audit log of a claim is read through the index on the claim id, and
    when that query faults, by a scan: the answer then holds the entries of
    the claim, all of them and no other.  When
    the scan faults as well, the error reported is the one of the scan; the
    fault of the query is not reported. *)
Theorem audit_log_falls_back_to_scan (t : ApiRoutes.audit_table)
    (cid : string) (e : exn) :
  ApiRoutes.index_query t cid = Raise e ->
  (ApiRoutes.scan_fault t = None ->
   exists logs,
     ApiRoutes.get_claim_audit_log t cid = ApiRoutes.AuditLogs cid logs
     /\ (forall x, In x logs <->
                   In x (ApiRoutes.audit_items t) /\ a_claim_id x = PStr cid))
  /\ (forall scan_error,
        ApiRoutes.scan_fault t = Some scan_error ->
        ApiRoutes.get_claim_audit_log t cid
        = ApiRoutes.AuditException 500 (exn_str scan_error)).
Proof.
  intros Hq. unfold ApiRoutes.get_claim_audit_log, ApiRoutes.scan_claim.
  rewrite Hq. split.
  - intros ->. eexists. split; [reflexivity |].
    intros x. rewrite filter_In. unfold is_str.
    split; intros [H1 H2]; (split; [exact H1 |]).
    + destruct (a_claim_id x); try discriminate.
      apply String.eqb_eq in H2. congruence.
    + rewrite H2. apply String.eqb_refl.
  - intros scan_error ->. reflexivity.
Qed.

Lemma audit_log_falls_back_to_scan_witness :
  exists logs,
    ApiRoutes.get_claim_audit_log audit_table_without_index
      "CLAIM-20251022101500"
    = ApiRoutes.AuditLogs "CLAIM-20251022101500" logs
    /\ (forall x, In x logs <->
                  In x (ApiRoutes.audit_items audit_table_without_index)
                  /\ a_claim_id x = PStr "CLAIM-20251022101500").
Proof.
  apply (proj1 (audit_log_falls_back_to_scan audit_table_without_index
                  "CLAIM-20251022101500" (fault "index not found") eq_refl)).
  reflexivity.
Defined.

(** ** The handler of the plain module: paths and routes *)

(** X19. The stage prefix /prod is taken off a path once, and the path the routes
    are matched against always starts with a slash. *)
Theorem normalize_stage_prefix (raw_path : string) :
  String.prefix "/" (ApiSimpleHandler.normalize raw_path) = true
  /\ (String.prefix "/" raw_path = true ->
      ApiSimpleHandler.normalize ("/prod" ++ raw_path) = raw_path)
  /\ (String.prefix "/prod" raw_path = false ->
      String.prefix "/" raw_path = true ->
      ApiSimpleHandler.normalize raw_path = raw_path).
Proof.
  split; [| split].
  - unfold ApiSimpleHandler.normalize.
    match goal with
    | |- context [if String.prefix "/" ?p then _ else _] =>
        destruct (String.prefix "/" p) eqn:Hp; [exact Hp |];
        generalize p; intros q; destruct q; reflexivity
    end.
  - intros H. destruct raw_path as [|c t]; [cbn in H; discriminate H |].
    change (String.prefix "/" (String c t))
      with (if ascii_dec "/" c then String.prefix EmptyString t else false)
      in H.
    destruct (ascii_dec "/" c) as [<-|_]; [| discriminate H].
    destruct t; reflexivity.
  - intros Hprod Hslash. unfold ApiSimpleHandler.normalize.
    assert (Hprod' : String.prefix "/prod/" raw_path = false).
    { destruct (String.prefix "/prod/" raw_path) eqn:H; [| reflexivity].
      rewrite <- Hprod. symmetry.
      apply prefix_correct in H. apply prefix_correct.
      cbn in H |- *.
      repeat (destruct raw_path as [|? raw_path]; [discriminate |];
              injection H as <- H).
      reflexivity. }
    rewrite Hprod', Hprod, Hslash. reflexivity.
Qed.

Lemma normalize_stage_prefix_witness :
  ApiSimpleHandler.normalize ("/prod" ++ "/api/v1/claims") = "/api/v1/claims".
Proof.
  apply (proj1 (proj2 (normalize_stage_prefix "/api/v1/claims"))).
  reflexivity.
Defined.

Lemma last_part_app (sep : ascii) (a b acc : string) :
  last_part sep (a ++ String sep b) acc = last_part sep b EmptyString.
Proof.
  revert acc. induction a as [|c a IH]; intros acc; cbn.
  - rewrite Ascii.eqb_refl. reflexivity.
  - destruct (Ascii.eqb c sep); apply IH.
Qed.

(** X20. Every GET below /api/v1/claims/ is answered as the status query of the
    last part of the path.  So the audit log of a claim is not served by this
    module: a GET of /api/v1/claims/<id>/audit answers for a claim named
    audit, and a GET of the upload path for a claim named upload. *)
Theorem simple_handler_claim_routes json_loads b64decode_utf8 E db started
    event rest :
  ApiSimpleHandler.request_line event
    = Ok (PStr "GET", "/api/v1/claims/" ++ rest) ->
  ApiSimpleHandler.handler json_loads b64decode_utf8 E db started event
    = (started,
       ApiSimple.handle_get_claim db (last_part "/"%char rest EmptyString))
  /\ (forall cid, rest = cid ++ "/audit" ->
        ApiSimpleHandler.handler json_loads b64decode_utf8 E db started event
        = (started, ApiSimple.handle_get_claim db "audit")).
Proof.
  intros Hreq.
  assert (H : ApiSimpleHandler.handler json_loads b64decode_utf8 E db started
                event
              = (started,
                 ApiSimple.handle_get_claim db
                   (last_part "/"%char rest EmptyString))).
  { unfold ApiSimpleHandler.handler. rewrite Hreq.
    change (is_str (PStr "GET") "GET") with true.
    change (String.eqb ("/api/v1/claims/" ++ rest) "/") with false.
    change (String.eqb ("/api/v1/claims/" ++ rest) "/api/v1/claims")
      with false.
    replace (String.prefix "/api/v1/claims/" ("/api/v1/claims/" ++ rest))
      with true by (destruct rest; reflexivity).
    cbn [andb].
    change ("/api/v1/claims/" ++ rest)
      with ("/api/v1/claims" ++ String "/"%char rest).
    rewrite last_part_app. reflexivity. }
  split; [exact H |].
  intros cid ->. rewrite H.
  change (cid ++ "/audit") with (cid ++ String "/"%char "audit").
  rewrite last_part_app. reflexivity.
Qed.

Lemma simple_handler_claim_routes_witness :
  ApiSimpleHandler.handler Json.json_loads no_base64 (simple_env None)
    eleven_versions []
    (request "GET" "/prod/api/v1/claims/CLAIM-20251022101500/audit")
  = ([], ApiSimple.handle_get_claim eleven_versions "audit").
Proof.
  apply (proj2 (simple_handler_claim_routes Json.json_loads no_base64
                  (simple_env None) eleven_versions []
                  (request "GET"
                     "/prod/api/v1/claims/CLAIM-20251022101500/audit")
                  "CLAIM-20251022101500/audit" eq_refl)
           "CLAIM-20251022101500").
  reflexivity.
Defined.

(** A request whose method is not GET is answered 404 with the path and the
    method, unless it is a POST to /api/v1/claims/upload; whatever the
    request, only the upload can start an execution. *)
Lemma simple_handler_not_found json_loads b64decode_utf8 E db started
    event http_method path :
  ApiSimpleHandler.request_line event = Ok (http_method, path) ->
  is_str http_method "GET" = false ->
  is_str http_method "POST" && String.eqb path "/api/v1/claims/upload" = false ->
  ApiSimpleHandler.handler json_loads b64decode_utf8 E db started event
  = (started,
     ApiSimple.response 404
       [ ("error", PStr "Not found");
         ("path", PStr path);
         ("method", http_method) ]).
Proof.
  intros Hreq Hget Hpost. unfold ApiSimpleHandler.handler.
  rewrite Hreq, Hget, !andb_false_r, andb_comm, Hpost. reflexivity.
Qed.

Lemma simple_handler_not_found_witness :
  ApiSimpleHandler.handler Json.json_loads no_base64 (simple_env None)
    eleven_versions [] (request "POST" "/api/v1/claims")
  = ([],
     ApiSimple.response 404
       [ ("error", PStr "Not found");
         ("path", PStr "/api/v1/claims");
         ("method", PStr "POST") ]).
Proof.
  apply (simple_handler_not_found Json.json_loads no_base64 (simple_env None)
           eleven_versions [] (request "POST" "/api/v1/claims")
           (PStr "POST") "/api/v1/claims"); reflexivity.
Defined.

(** ** Uploads through the plain module *)

Lemma last_segment_app_dot (a b acc : string) :
  last_segment (a ++ String "."%char b) acc = last_segment b EmptyString.
Proof.
  revert acc. induction a as [|c a IH]; intros acc; cbn; [reflexivity |].
  destruct (Ascii.eqb c "."%char); apply IH.
Qed.

Lemma lower_app (a b : string) : lower (a ++ b) = lower a ++ lower b.
Proof. induction a as [|c a IH]; cbn; [| rewrite IH]; reflexivity. Qed.

Lemma append_assoc (a b c : string) : (a ++ b) ++ c = a ++ (b ++ c).
Proof. induction a as [|x a IH]; cbn; [| rewrite IH]; reflexivity. Qed.

Lemma test_txt_extension (claim_id : string) :
  last_segment (lower (claim_id ++ "/test.txt")) EmptyString = "txt".
Proof.
  rewrite lower_app.
  change (lower "/test.txt") with ("/test" ++ String "."%char "txt").
  rewrite <- append_assoc, last_segment_app_dot. reflexivity.
Qed.

Lemma truthy_app_nonempty (a : string) (c : ascii) (b : string) :
  truthy (PStr (a ++ String c b)) = true.
Proof. destruct a; reflexivity. Qed.

Lemma intake_unsupported_result E w event bucket key_s :
  Intake.locate event = Ok (bucket, PStr key_s) ->
  truthy bucket = true ->
  key_s <> EmptyString ->
  String.eqb (last_segment (lower key_s) EmptyString) "pdf" = false ->
  existsb (String.eqb (last_segment (lower key_s) EmptyString))
          [ "jpg"; "jpeg"; "png" ] = false ->
  Intake.audit_put_item E = Ok tt ->
  exists w',
    Intake.lambda_handler E w event
    = Some (w',
            intake_result E event bucket key_s
              [ ("file_type", PStr "unknown");
                ("error",
                 PStr ("Unsupported file type: "
                       ++ last_segment (lower key_s) EmptyString)) ]
              " ").
Proof.
  intros Hloc Hb Hk Hpdf Himg Haudit.
  unfold Intake.lambda_handler. rewrite intake_handler_shape, Hloc, Hb.
  assert (Hkt : truthy (PStr key_s) = true).
  { destruct key_s; [congruence | reflexivity]. }
  rewrite Hkt. cbn [negb orb].
  unfold intake_extraction. rewrite Hpdf, Himg.
  change (intake_text _) with (Ok (A := string) " "). cbv zeta.
  rewrite Haudit. eexists. reflexivity.
Qed.

(** X21. The upload of the plain module parses the body of the request and then
    ignores it: a body that cannot be parsed is answered 500 with the parser's
    message and starts nothing, and any two requests whose bodies parse are
    answered alike and start the same execution. *)
Theorem simple_upload_ignores_body json_loads b64decode_utf8 E started event :
  (forall e, ApiSimpleHandler.parse_body json_loads b64decode_utf8 event
             = Raise e ->
     ApiSimpleHandler.handle_upload_claim json_loads b64decode_utf8 E started
       event
     = (started, ApiSimple.response 500 [ ("error", PStr (exn_str e)) ]))
  /\ (forall v event' v',
        ApiSimpleHandler.parse_body json_loads b64decode_utf8 event = Ok v ->
        ApiSimpleHandler.parse_body json_loads b64decode_utf8 event' = Ok v' ->
        ApiSimpleHandler.handle_upload_claim json_loads b64decode_utf8 E
          started event
        = ApiSimpleHandler.handle_upload_claim json_loads b64decode_utf8 E
            started event').
Proof.
  split.
  - intros e He. unfold ApiSimpleHandler.handle_upload_claim. rewrite He.
    reflexivity.
  - intros v event' v' Hv Hv'.
    unfold ApiSimpleHandler.handle_upload_claim. rewrite Hv, Hv'. reflexivity.
Qed.

Lemma simple_upload_ignores_body_witness :
  ApiSimpleHandler.handle_upload_claim Json.json_loads no_base64
    (simple_env (Some "arn:aws:states:::stateMachine:claims")) []
    (("body", PStr "[1, 2]") :: request "POST" "/api/v1/claims/upload")
  = ApiSimpleHandler.handle_upload_claim Json.json_loads no_base64
      (simple_env (Some "arn:aws:states:::stateMachine:claims")) []
      (request "POST" "/api/v1/claims/upload").
Proof.
  apply (proj2 (simple_upload_ignores_body Json.json_loads no_base64
                  (simple_env (Some "arn:aws:states:::stateMachine:claims")) []
                  (("body", PStr "[1, 2]")
                     :: request "POST" "/api/v1/claims/upload"))
           (PList [PInt 1; PInt 2])
           (request "POST" "/api/v1/claims/upload")
           (PDict []));
    vm_compute; reflexivity.
Defined.

(** X22. What an upload through the plain module starts is an execution on the key
    <claim id>/test.txt, whatever was sent.  The Intake stage takes that key
    for an unsupported file: under the claim id of the upload it returns 200
    with file type unknown and the error Unsupported file type: txt, and
    audits the status error. *)
Theorem simple_upload_then_intake json_loads b64decode_utf8 E started event
    x resp EI w :
  ApiSimpleHandler.handle_upload_claim json_loads b64decode_utf8 E started
    event = ((started ++ [x])%list, resp) ->
  Intake.audit_put_item EI = Ok tt ->
  dget "key" (exec_input x)
    = PStr ("CLAIM-" ++ ApiSimpleHandler.now_compact E ++ "/test.txt")
  /\ exists w' r entry,
       Intake.lambda_handler EI w (exec_input x) = Some (w', r)
       /\ statusCode r = PInt 200
       /\ dget "claim_id" r = dget "claim_id" (ApiSimple.gw_body resp)
       /\ dget "extracted_data" r =
            PDict [ ("file_type", PStr "unknown");
                    ("error", PStr "Unsupported file type: txt") ]
       /\ audit_log w' = (audit_log w ++ [entry])%list
       /\ status entry = "error".
Proof.
  assert (Hsnoc : forall (x : execution) (r r' : ApiSimple.gateway_response),
             (started, r) = ((started ++ [x])%list, r') -> False).
  { intros y r r' [= Hs _]. apply (f_equal (@length execution)) in Hs.
    rewrite length_app in Hs. cbn in Hs. lia. }
  intros Hup Haudit.
  unfold ApiSimpleHandler.handle_upload_claim in Hup.
  destruct (ApiSimpleHandler.parse_body _ _ event) as [v|e];
    [| exfalso; exact (Hsnoc _ _ _ Hup)].
  destruct (truthy (PStr (ApiSimpleHandler.state_machine_arn E)));
    [| exfalso; exact (Hsnoc _ _ _ Hup)].
  destruct (ApiSimpleHandler.start_execution E) as [[]|e];
    [| exfalso; exact (Hsnoc _ _ _ Hup)].
  injection Hup as Hs <-. apply app_inv_head in Hs. injection Hs as <-.
  cbn [exec_input]. split; [reflexivity |].
  set (cid := "CLAIM-" ++ ApiSimpleHandler.now_compact E).
  set (bucket := PStr (ApiSimpleHandler.bucket_prefix E ++ "-raw-claims")).
  set (input := [ ("claim_id", PStr cid); ("bucket", bucket);
                  ("key", PStr (cid ++ "/test.txt")) ]).
  assert (Hloc : Intake.locate input = Ok (bucket, PStr (cid ++ "/test.txt")))
    by reflexivity.
  assert (Hb : truthy bucket = true) by apply truthy_app_nonempty.
  assert (Hk : cid ++ "/test.txt" <> EmptyString) by discriminate.
  assert (Hpdf : String.eqb
                   (last_segment (lower (cid ++ "/test.txt")) EmptyString)
                   "pdf" = false)
    by (rewrite test_txt_extension; reflexivity).
  assert (Himg : existsb
                   (String.eqb
                      (last_segment (lower (cid ++ "/test.txt")) EmptyString))
                   [ "jpg"; "jpeg"; "png" ] = false)
    by (rewrite test_txt_extension; reflexivity).
  destruct (intake_unsupported_run EI w input bucket (cid ++ "/test.txt")
              Hloc Hb Hk Hpdf Himg Haudit)
    as (w' & r & entry & Hrun & Hs & Hed & _ & Hlog & Hst).
  destruct (intake_unsupported_result EI w input bucket (cid ++ "/test.txt")
              Hloc Hb Hk Hpdf Himg Haudit) as (w'' & Hres).
  exists w', r, entry. split; [exact Hrun |]. split; [exact Hs |].
  split.
  { rewrite Hres in Hrun. injection Hrun as _ <-. reflexivity. }
  split; [| split; assumption].
  rewrite Hed, test_txt_extension. reflexivity.
Qed.

Lemma simple_upload_then_intake_witness :
  exists w' r entry,
    Intake.lambda_handler (intake_env (Ok tt) (Ok tt)) empty_world
      [ ("claim_id", PStr "CLAIM-20251022101500");
        ("bucket", PStr "claimvoyant-raw-claims");
        ("key", PStr "CLAIM-20251022101500/test.txt") ]
    = Some (w', r)
    /\ statusCode r = PInt 200
    /\ dget "claim_id" r = PStr "CLAIM-20251022101500"
    /\ dget "extracted_data" r =
         PDict [ ("file_type", PStr "unknown");
                 ("error", PStr "Unsupported file type: txt") ]
    /\ audit_log w' = (audit_log empty_world ++ [entry])%list
    /\ status entry = "error".
Proof.
  exact (proj2
           (simple_upload_then_intake Json.json_loads no_base64
              (simple_env (Some "arn:aws:states:::stateMachine:claims")) []
              (request "POST" "/api/v1/claims/upload")
              {| exec_name := "CLAIM-20251022101500-20251022101500";
                 exec_input :=
                   [ ("claim_id", PStr "CLAIM-20251022101500");
                     ("bucket", PStr "claimvoyant-raw-claims");
                     ("key", PStr "CLAIM-20251022101500/test.txt") ] |}
              (ApiSimple.response 200
                 [ ("claim_id", PStr "CLAIM-20251022101500");
                   ("status", PStr "processing");
                   ("message", PStr "Claim uploaded successfully") ])
              (intake_env (Ok tt) (Ok tt)) empty_world
              eq_refl eq_refl)).
Defined.

(** ** Uploads through the FastAPI module *)

Lemma upload_files_all_put E claim_id files :
  Forall (fun f => ApiRoutes.s3_put_object E (ApiRoutes.file_key claim_id f)
                   = Ok tt) files ->
  forall objs uploaded,
    ApiRoutes.upload_files E claim_id files objs uploaded
    = ((objs ++ map (ApiRoutes.stored_object E claim_id) files)%list,
       Ok (uploaded ++ map (ApiRoutes.uploaded_entry claim_id) files)%list).
Proof.
  induction 1 as [|f files Hf _ IH]; intros objs uploaded; cbn.
  - rewrite !app_nil_r. reflexivity.
  - rewrite Hf, IH, <- !app_assoc. reflexivity.
Qed.

Lemma upload_files_fault E claim_id before file after e :
  Forall (fun f => ApiRoutes.s3_put_object E (ApiRoutes.file_key claim_id f)
                   = Ok tt) before ->
  ApiRoutes.s3_put_object E (ApiRoutes.file_key claim_id file) = Raise e ->
  forall objs uploaded,
    ApiRoutes.upload_files E claim_id (before ++ file :: after)%list objs
      uploaded
    = ((objs ++ map (ApiRoutes.stored_object E claim_id) before)%list,
       Raise e).
Proof.
  intros Hb He. induction Hb as [|f before Hf _ IH]; intros objs uploaded; cbn.
  - rewrite He, app_nil_r. reflexivity.
  - rewrite Hf, IH, <- app_assoc. reflexivity.
Qed.

(** X23. When every file is put and the state machine is configured and starts,
    all the files of the upload are stored, in their order and under keys
    that begin with the new claim id, and exactly one execution is started:
    on the key of the first file.  The other files are listed in the answer
    but no execution names them. *)
Theorem upload_claim_stores_all_starts_first E c first others :
  Forall (fun f => ApiRoutes.s3_put_object E
                     (ApiRoutes.file_key ("CLAIM-" ++ ApiRoutes.now_compact E) f)
                   = Ok tt) (first :: others) ->
  ApiRoutes.state_machine_arn E <> EmptyString ->
  ApiRoutes.start_execution E = Ok tt ->
  let claim_id := "CLAIM-" ++ ApiRoutes.now_compact E in
  exists x body,
    ApiRoutes.upload_claim E c (first :: others)
    = ({| ApiRoutes.objects :=
            (ApiRoutes.objects c
             ++ map (ApiRoutes.stored_object E claim_id) (first :: others))%list;
          ApiRoutes.executions := (ApiRoutes.executions c ++ [x])%list |},
       Api.Returns body)
    /\ exec_input x =
         [ ("claim_id", PStr claim_id);
           ("bucket", PStr (ApiRoutes.bucket_prefix E ++ "-raw-claims"));
           ("key", PStr (ApiRoutes.file_key claim_id first)) ]
    /\ dget "claim_id" body = PStr claim_id
    /\ dget "status" body = PStr "processing"
    /\ dget "files" body =
         PList (map (fun f => PDict (ApiRoutes.uploaded_entry claim_id f))
                    (first :: others)).
Proof.
  intros Hput Harn Hstart claim_id. unfold ApiRoutes.upload_claim.
  fold claim_id. rewrite (upload_files_all_put E claim_id _ Hput).
  assert (Ht : truthy (PStr (ApiRoutes.state_machine_arn E)) = true).
  { destruct (ApiRoutes.state_machine_arn E); [congruence | reflexivity]. }
  rewrite Ht. cbn [app map]. 
  change (py_getitem (PDict (ApiRoutes.uploaded_entry claim_id first)) "s3_key")
    with (Ok (A := pyval) (PStr (ApiRoutes.file_key claim_id first))).
  rewrite Hstart. do 2 eexists. split; [reflexivity |].
  split; [reflexivity |]. split; [reflexivity |]. split; [reflexivity |].
  cbn [dget dlookup String.eqb Ascii.eqb Bool.eqb]. rewrite map_map.
  reflexivity.
Qed.

Lemma upload_claim_stores_all_starts_first_witness :
  exists x body,
    ApiRoutes.upload_claim
      (routes_env (Some "arn:aws:states:::stateMachine:claims")
                  (fun _ => Ok tt))
      empty_cloud [ report_pdf; photo_jpg ]
    = ({| ApiRoutes.objects :=
            [ {| obj_bucket := "claimvoyant-raw-claims";
                 obj_key := "CLAIM-20251022101500/report.pdf";
                 obj_body := "%PDF-1.4";
                 obj_content_type := "application/pdf" |};
              {| obj_bucket := "claimvoyant-raw-claims";
                 obj_key := "CLAIM-20251022101500/photo.jpg";
                 obj_body := "JFIF";
                 obj_content_type := "application/octet-stream" |} ];
          ApiRoutes.executions := [x] |},
       Api.Returns body)
    /\ exec_input x = upload_event
    /\ dget "claim_id" body = PStr "CLAIM-20251022101500"
    /\ dget "status" body = PStr "processing"
    /\ dget "files" body =
         PList [ PDict [ ("filename", PStr "report.pdf");
                         ("s3_key", PStr "CLAIM-20251022101500/report.pdf");
                         ("size", PInt 8) ];
                 PDict [ ("filename", PStr "photo.jpg");
                         ("s3_key", PStr "CLAIM-20251022101500/photo.jpg");
                         ("size", PInt 4) ] ].
Proof.
  assert (Hput : Forall
                   (fun f =>
                      ApiRoutes.s3_put_object
                        (routes_env (Some "arn:aws:states:::stateMachine:claims")
                                    (fun _ => Ok tt))
                        (ApiRoutes.file_key
                           ("CLAIM-" ++ ApiRoutes.now_compact
                              (routes_env
                                 (Some "arn:aws:states:::stateMachine:claims")
                                 (fun _ => Ok tt))) f)
                      = Ok tt) [ report_pdf; photo_jpg ]).
  { repeat constructor. }
  assert (Harn : ApiRoutes.state_machine_arn
                   (routes_env (Some "arn:aws:states:::stateMachine:claims")
                               (fun _ => Ok tt)) <> EmptyString).
  { discriminate. }
  exact (upload_claim_stores_all_starts_first
           (routes_env (Some "arn:aws:states:::stateMachine:claims")
                       (fun _ => Ok tt))
           empty_cloud report_pdf [ photo_jpg ] Hput Harn eq_refl).
Defined.

(** X24. A fault leaves what was stored before it: when the put of one file
    faults, the files before it stay in the bucket, the files after it are
    not put, no execution is started, and the answer is 500 with the fault's
    message; when every put succeeds and the start of the execution faults,
    all the files stay in the bucket and the answer is again 500. *)
Theorem upload_claim_fault_keeps_stored_files E c :
  let claim_id := "CLAIM-" ++ ApiRoutes.now_compact E in
  (forall before file after e,
     Forall (fun f => ApiRoutes.s3_put_object E (ApiRoutes.file_key claim_id f)
                      = Ok tt) before ->
     ApiRoutes.s3_put_object E (ApiRoutes.file_key claim_id file) = Raise e ->
     ApiRoutes.upload_claim E c (before ++ file :: after)%list
     = ({| ApiRoutes.objects :=
             (ApiRoutes.objects c
              ++ map (ApiRoutes.stored_object E claim_id) before)%list;
           ApiRoutes.executions := ApiRoutes.executions c |},
        Api.HTTPException 500 (exn_str e)))
  /\ (forall first others e,
        Forall (fun f => ApiRoutes.s3_put_object E
                           (ApiRoutes.file_key claim_id f) = Ok tt)
               (first :: others) ->
        ApiRoutes.state_machine_arn E <> EmptyString ->
        ApiRoutes.start_execution E = Raise e ->
        ApiRoutes.upload_claim E c (first :: others)
        = ({| ApiRoutes.objects :=
                (ApiRoutes.objects c
                 ++ map (ApiRoutes.stored_object E claim_id)
                        (first :: others))%list;
              ApiRoutes.executions := ApiRoutes.executions c |},
           Api.HTTPException 500 (exn_str e))).
Proof.
  intros claim_id. split.
  - intros before file after e Hb He. unfold ApiRoutes.upload_claim.
    fold claim_id. rewrite (upload_files_fault E claim_id _ _ after e Hb He).
    reflexivity.
  - intros first others e Hput Harn Hstart. unfold ApiRoutes.upload_claim.
    fold claim_id. rewrite (upload_files_all_put E claim_id _ Hput).
    assert (Ht : truthy (PStr (ApiRoutes.state_machine_arn E)) = true).
    { destruct (ApiRoutes.state_machine_arn E); [congruence | reflexivity]. }
    rewrite Ht. cbn [app map].
    change (py_getitem (PDict (ApiRoutes.uploaded_entry claim_id first))
                       "s3_key")
      with (Ok (A := pyval) (PStr (ApiRoutes.file_key claim_id first))).
    rewrite Hstart. reflexivity.
Qed.

Lemma upload_claim_fault_keeps_stored_files_witness :
  ApiRoutes.upload_claim
    (routes_env (Some "arn:aws:states:::stateMachine:claims")
       (fun key => if String.eqb key "CLAIM-20251022101500/photo.jpg"
                   then Raise (fault "AccessDenied") else Ok tt))
    empty_cloud [ report_pdf; photo_jpg; report_pdf ]
  = ({| ApiRoutes.objects :=
          [ {| obj_bucket := "claimvoyant-raw-claims";
               obj_key := "CLAIM-20251022101500/report.pdf";
               obj_body := "%PDF-1.4";
               obj_content_type := "application/pdf" |} ];
        ApiRoutes.executions := [] |},
     Api.HTTPException 500 (exn_str (fault "AccessDenied"))).
Proof.
  assert (Hb : Forall
                 (fun f =>
                    (if String.eqb
                          (ApiRoutes.file_key "CLAIM-20251022101500" f)
                          "CLAIM-20251022101500/photo.jpg"
                     then Raise (fault "AccessDenied") else Ok tt) = Ok tt)
                 [ report_pdf ]).
  { repeat constructor. }
  exact (proj1
           (upload_claim_fault_keeps_stored_files
              (routes_env (Some "arn:aws:states:::stateMachine:claims")
                 (fun key => if String.eqb key "CLAIM-20251022101500/photo.jpg"
                             then Raise (fault "AccessDenied") else Ok tt))
              empty_cloud)
           [ report_pdf ] photo_jpg [ report_pdf ] (fault "AccessDenied")
           Hb eq_refl).
Defined.

(** X25. Without a configured state machine (the variable unset or empty) an
    upload whose puts succeed stores the files and starts nothing, and still
    answers that processing started. *)
Theorem upload_claim_without_state_machine E c files :
  Forall (fun f => ApiRoutes.s3_put_object E
                     (ApiRoutes.file_key ("CLAIM-" ++ ApiRoutes.now_compact E) f)
                   = Ok tt) files ->
  ApiRoutes.state_machine_arn E = EmptyString ->
  exists body,
    ApiRoutes.upload_claim E c files
    = ({| ApiRoutes.objects :=
            (ApiRoutes.objects c
             ++ map (ApiRoutes.stored_object E
                       ("CLAIM-" ++ ApiRoutes.now_compact E)) files)%list;
          ApiRoutes.executions := ApiRoutes.executions c |},
       Api.Returns body)
    /\ dget "status" body = PStr "processing"
    /\ dget "message" body =
         PStr "Claim uploaded successfully and processing started".
Proof.
  intros Hput Harn. unfold ApiRoutes.upload_claim.
  rewrite (upload_files_all_put E _ _ Hput), Harn. cbn [truthy].
  eexists. split; [reflexivity |]. split; reflexivity.
Qed.

Lemma upload_claim_without_state_machine_witness :
  exists body,
    ApiRoutes.upload_claim (routes_env None (fun _ => Ok tt)) empty_cloud
      [ photo_jpg ]
    = ({| ApiRoutes.objects :=
            [ {| obj_bucket := "claimvoyant-raw-claims";
                 obj_key := "CLAIM-20251022101500/photo.jpg";
                 obj_body := "JFIF";
                 obj_content_type := "application/octet-stream" |} ];
          ApiRoutes.executions := [] |},
       Api.Returns body)
    /\ dget "status" body = PStr "processing"
    /\ dget "message" body =
         PStr "Claim uploaded successfully and processing started".
Proof.
  assert (Hput : Forall
                   (fun f =>
                      ApiRoutes.s3_put_object (routes_env None (fun _ => Ok tt))
                        (ApiRoutes.file_key
                           ("CLAIM-" ++ ApiRoutes.now_compact
                              (routes_env None (fun _ => Ok tt))) f)
                      = Ok tt) [ photo_jpg ]).
  { repeat constructor. }
  exact (upload_claim_without_state_machine
           (routes_env None (fun _ => Ok tt)) empty_cloud [ photo_jpg ]
           Hput eq_refl).
Defined.

(** ** The set-up script *)

Ltac script_step :=
  cbn [InitWeaviate.input InitWeaviate.stdin InitWeaviate.calls
       InitWeaviate.request InitWeaviate.lift InitWeaviate.ret
       InitWeaviate.insert_each negb app].

Lemma grows_ret {A : Type} (a : A) : grows (InitWeaviate.ret a).
Proof. intros s. exists []. cbn. rewrite app_nil_r. reflexivity. Qed.

Lemma grows_lift {A : Type} (o : outcome A) : grows (InitWeaviate.lift o).
Proof. intros s. exists []. cbn. rewrite app_nil_r. reflexivity. Qed.

Lemma grows_input : grows InitWeaviate.input.
Proof.
  intros s. exists []. unfold InitWeaviate.input.
  destruct (InitWeaviate.stdin s); cbn; rewrite app_nil_r; reflexivity.
Qed.

Lemma grows_request c o : grows (InitWeaviate.request c o).
Proof. intros s. exists [c]. reflexivity. Qed.

Lemma grows_bind {A B : Type} (m : InitWeaviate.script A)
    (k : A -> InitWeaviate.script B) :
  grows m -> (forall a, grows (k a)) -> grows (InitWeaviate.bind m k).
Proof.
  intros Hm Hk s. unfold InitWeaviate.bind.
  destruct (Hm s) as [more Hmore]. destruct (m s) as [s' [a|e]]; cbn in *.
  - destruct (Hk a s') as [more' Hmore']. exists (more ++ more')%list.
    rewrite Hmore', Hmore, app_assoc. reflexivity.
  - exists more. exact Hmore.
Qed.

Lemma grows_if {A : Type} (b : bool) (m1 m2 : InitWeaviate.script A) :
  grows m1 -> grows m2 -> grows (if b then m1 else m2).
Proof. destruct b; auto. Qed.

Lemma grows_insert_each E l : grows (InitWeaviate.insert_each E l).
Proof.
  induction l; cbn; [apply grows_ret |].
  apply grows_bind; [apply grows_request | intros; assumption].
Qed.

Lemma grows_create_collections E : grows (InitWeaviate.create_collections E).
Proof.
  apply grows_bind; [apply grows_request | intros; apply grows_request].
Qed.

Ltac grows_tac :=
  repeat first
    [ apply grows_ret | apply grows_lift | apply grows_input
    | apply grows_request | apply grows_insert_each
    | apply grows_create_collections
    | apply grows_bind; [| intros ?]
    | apply grows_if
    | match goal with
      | |- grows (match ?x with _ => _ end) => destruct x
      end ].

Lemma quiet_ret {A : Type} (a : A) : quiet (InitWeaviate.ret a).
Proof. intros s H. exact H. Qed.

Lemma quiet_lift {A : Type} (o : outcome A) : quiet (InitWeaviate.lift o).
Proof. intros s H. exact H. Qed.

Lemma quiet_input : quiet InitWeaviate.input.
Proof.
  intros s H. unfold InitWeaviate.input.
  destruct (InitWeaviate.stdin s); exact H.
Qed.

Lemma quiet_request c o :
  is_close c = false -> quiet (InitWeaviate.request c o).
Proof.
  intros Hc s H. cbn. rewrite existsb_app, H. cbn. rewrite Hc. reflexivity.
Qed.

Lemma quiet_bind {A B : Type} (m : InitWeaviate.script A)
    (k : A -> InitWeaviate.script B) :
  quiet m -> (forall a, quiet (k a)) -> quiet (InitWeaviate.bind m k).
Proof.
  intros Hm Hk s H. unfold InitWeaviate.bind. specialize (Hm s H).
  destruct (m s) as [s' [a|e]]; cbn in *; [apply Hk |]; exact Hm.
Qed.

Lemma quiet_insert_each E l : quiet (InitWeaviate.insert_each E l).
Proof.
  induction l; cbn; [apply quiet_ret |].
  apply quiet_bind; [apply quiet_request; reflexivity | intros; assumption].
Qed.

Lemma quiet_create_collections E : quiet (InitWeaviate.create_collections E).
Proof.
  apply quiet_bind; [| intros ?]; apply quiet_request; reflexivity.
Qed.

Lemma closes_last_bind {A B : Type} (m : InitWeaviate.script A)
    (k : A -> InitWeaviate.script B) :
  quiet m -> (forall a, closes_last (k a)) ->
  closes_last (InitWeaviate.bind m k).
Proof.
  intros Hm Hk s H. unfold InitWeaviate.bind. specialize (Hm s H).
  destruct (m s) as [s' [a|e]]; cbn in *; [apply Hk |]; exact Hm.
Qed.

Lemma closes_last_close :
  closes_last (InitWeaviate.request InitWeaviate.Close (Ok tt)).
Proof.
  intros s H. cbn. exists (InitWeaviate.calls s).
  split; [reflexivity | exact H].
Qed.

Ltac quiet_tac :=
  repeat first
    [ apply quiet_ret | apply quiet_lift | apply quiet_input
    | apply quiet_request; reflexivity | apply quiet_insert_each
    | apply quiet_create_collections
    | apply quiet_bind; [| intros ?]
    | match goal with
      | |- quiet (if ?b then _ else _) => destruct b
      | |- quiet (match ?x with _ => _ end) => destruct x
      end ].

(** X26. On a cluster that holds neither collection the script asks three
    questions only (the address, the key, and whether to load the samples),
    creates PolicyDocuments and then ClaimArtifacts, inserts the three sample
    policies unless the last answer is n or N, and closes the connection. *)
Theorem init_fresh_cluster E existing url key answer rest :
  InitWeaviate.connect E = Ok tt ->
  InitWeaviate.list_all E = Ok existing ->
  existsb (String.eqb "PolicyDocuments") existing = false ->
  existsb (String.eqb "ClaimArtifacts") existing = false ->
  (forall name, InitWeaviate.create E name = Ok tt) ->
  (forall p, InitWeaviate.insert E p = Ok tt) ->
  InitWeaviate.close E = Ok tt ->
  InitWeaviate.main E (typed (url :: key :: answer :: rest))
  = ({| InitWeaviate.stdin := rest;
        InitWeaviate.calls :=
          (InitWeaviate.Connect
             (InitWeaviate.getenv (InitWeaviate.WEAVIATE_URL E) (strip url))
             (InitWeaviate.getenv (InitWeaviate.WEAVIATE_API_KEY E) (strip key))
           :: InitWeaviate.Create "PolicyDocuments"
           :: InitWeaviate.Create "ClaimArtifacts"
           :: map InitWeaviate.Insert
                (if String.eqb (lower (strip answer)) "n" then []
                 else [ "AUTO-001"; "AUTO-002"; "AUTO-003" ])
              ++ [InitWeaviate.Close])%list |},
     Ok tt).
Proof.
  intros Hc Hl Hpd Hca Hcr Hi Hcl.
  unfold InitWeaviate.main, InitWeaviate.bind, typed. script_step.
  rewrite Hc, Hl, Hpd, Hca. script_step.
  unfold InitWeaviate.create_collections, InitWeaviate.bind. script_step.
  rewrite !Hcr. script_step.
  destruct (String.eqb (lower (strip answer)) "n"); script_step.
  - rewrite Hcl. reflexivity.
  - unfold InitWeaviate.load_sample_policies, InitWeaviate.sample_policies,
      InitWeaviate.bind.
    script_step. rewrite !Hi, Hcl. reflexivity.
Qed.

Lemma init_fresh_cluster_witness :
  InitWeaviate.main (weaviate_env None (Some "secret") [])
    (typed [ " https://claims.weaviate.cloud "; EmptyString; EmptyString ])
  = ({| InitWeaviate.stdin := [];
        InitWeaviate.calls :=
          [ InitWeaviate.Connect "https://claims.weaviate.cloud" "secret";
            InitWeaviate.Create "PolicyDocuments";
            InitWeaviate.Create "ClaimArtifacts";
            InitWeaviate.Insert "AUTO-001";
            InitWeaviate.Insert "AUTO-002";
            InitWeaviate.Insert "AUTO-003";
            InitWeaviate.Close ] |},
     Ok tt).
Proof.
  exact (init_fresh_cluster (weaviate_env None (Some "secret") []) []
           " https://claims.weaviate.cloud " EmptyString EmptyString []
           eq_refl eq_refl eq_refl eq_refl
           (fun _ => eq_refl) (fun _ => eq_refl) eq_refl).
Defined.

(** X27. The two questions about existing collections share one variable.  On a
    cluster that holds both collections, answering y for PolicyDocuments and
    anything else for ClaimArtifacts deletes PolicyDocuments and creates
    nothing: the script ends successfully with the policy collection gone,
    after inserting the samples (unless told not to) into the collection it
    deleted. *)
Theorem init_deleted_policies_not_recreated E existing url key a1 a2 a3 rest :
  InitWeaviate.connect E = Ok tt ->
  InitWeaviate.list_all E = Ok existing ->
  existsb (String.eqb "PolicyDocuments") existing = true ->
  existsb (String.eqb "ClaimArtifacts") existing = true ->
  lower (strip a1) = "y" ->
  lower (strip a2) <> "y" ->
  InitWeaviate.delete E "PolicyDocuments" = Ok tt ->
  (forall p, InitWeaviate.insert E p = Ok tt) ->
  InitWeaviate.close E = Ok tt ->
  InitWeaviate.main E (typed (url :: key :: a1 :: a2 :: a3 :: rest))
  = ({| InitWeaviate.stdin := rest;
        InitWeaviate.calls :=
          (InitWeaviate.Connect
             (InitWeaviate.getenv (InitWeaviate.WEAVIATE_URL E) (strip url))
             (InitWeaviate.getenv (InitWeaviate.WEAVIATE_API_KEY E) (strip key))
           :: InitWeaviate.Delete "PolicyDocuments"
           :: map InitWeaviate.Insert
                (if String.eqb (lower (strip a3)) "n" then []
                 else [ "AUTO-001"; "AUTO-002"; "AUTO-003" ])
              ++ [InitWeaviate.Close])%list |},
     Ok tt).
Proof.
  intros Hc Hl Hpd Hca H1 H2 Hd Hi Hcl.
  apply String.eqb_neq in H2.
  unfold InitWeaviate.main, InitWeaviate.bind, typed. script_step.
  rewrite Hc, Hl, Hpd, Hca. script_step.
  rewrite H1. cbn [String.eqb Ascii.eqb Bool.eqb]. script_step.
  rewrite Hd. repeat first [rewrite H2 | progress script_step].
  destruct (String.eqb (lower (strip a3)) "n"); script_step.
  - rewrite Hcl. reflexivity.
  - unfold InitWeaviate.load_sample_policies, InitWeaviate.sample_policies,
      InitWeaviate.bind.
    script_step. rewrite !Hi, Hcl. reflexivity.
Qed.

Lemma init_deleted_policies_not_recreated_witness :
  InitWeaviate.main
    (weaviate_env (Some "https://claims.weaviate.cloud") (Some "secret")
                  [ "PolicyDocuments"; "ClaimArtifacts" ])
    (typed [ EmptyString; EmptyString; " Y"; "n"; EmptyString ])
  = ({| InitWeaviate.stdin := [];
        InitWeaviate.calls :=
          [ InitWeaviate.Connect "https://claims.weaviate.cloud" "secret";
            InitWeaviate.Delete "PolicyDocuments";
            InitWeaviate.Insert "AUTO-001";
            InitWeaviate.Insert "AUTO-002";
            InitWeaviate.Insert "AUTO-003";
            InitWeaviate.Close ] |},
     Ok tt).
Proof.
  assert (Hn : lower (strip "n") <> "y") by (vm_compute; discriminate).
  exact (init_deleted_policies_not_recreated
           (weaviate_env (Some "https://claims.weaviate.cloud") (Some "secret")
                         [ "PolicyDocuments"; "ClaimArtifacts" ])
           [ "PolicyDocuments"; "ClaimArtifacts" ]
           EmptyString EmptyString " Y" "n" EmptyString []
           eq_refl eq_refl eq_refl eq_refl eq_refl Hn eq_refl
           (fun _ => eq_refl) eq_refl).
Defined.

(** X28. The other way round: on a cluster that holds both collections, keeping
    PolicyDocuments and answering y for ClaimArtifacts makes the script
    delete ClaimArtifacts and then ask for the creation of PolicyDocuments,
    which it kept.  When the cluster refuses that, the script ends with the
    refusal: ClaimArtifacts is deleted and not created again, no sample is
    loaded and the connection is not closed. *)
Theorem init_recreate_answer_overwritten E existing url key a1 a2 rest e :
  InitWeaviate.connect E = Ok tt ->
  InitWeaviate.list_all E = Ok existing ->
  existsb (String.eqb "PolicyDocuments") existing = true ->
  existsb (String.eqb "ClaimArtifacts") existing = true ->
  lower (strip a1) <> "y" ->
  lower (strip a2) = "y" ->
  InitWeaviate.delete E "ClaimArtifacts" = Ok tt ->
  InitWeaviate.create E "PolicyDocuments" = Raise e ->
  InitWeaviate.main E (typed (url :: key :: a1 :: a2 :: rest))
  = ({| InitWeaviate.stdin := rest;
        InitWeaviate.calls :=
          [ InitWeaviate.Connect
              (InitWeaviate.getenv (InitWeaviate.WEAVIATE_URL E) (strip url))
              (InitWeaviate.getenv (InitWeaviate.WEAVIATE_API_KEY E)
                                   (strip key));
            InitWeaviate.Delete "ClaimArtifacts";
            InitWeaviate.Create "PolicyDocuments" ] |},
     Raise e).
Proof.
  intros Hc Hl Hpd Hca H1 H2 Hd Hcr.
  apply String.eqb_neq in H1.
  unfold InitWeaviate.main, InitWeaviate.bind, typed. script_step.
  rewrite Hc, Hl, Hpd, Hca. script_step.
  rewrite H1. script_step. rewrite H2.
  cbn [String.eqb Ascii.eqb Bool.eqb]. script_step. rewrite Hd. script_step.
  cbn [String.eqb Ascii.eqb Bool.eqb].
  unfold InitWeaviate.create_collections, InitWeaviate.bind. script_step.
  rewrite Hcr. reflexivity.
Qed.

Lemma init_recreate_answer_overwritten_witness :
  InitWeaviate.main
    (weaviate_refusing
       (weaviate_env None None [ "PolicyDocuments"; "ClaimArtifacts" ])
       "PolicyDocuments")
    (typed [ "https://claims.weaviate.cloud"; "secret"; EmptyString; "y";
             "n" ])
  = ({| InitWeaviate.stdin := [ "n" ];
        InitWeaviate.calls :=
          [ InitWeaviate.Connect "https://claims.weaviate.cloud" "secret";
            InitWeaviate.Delete "ClaimArtifacts";
            InitWeaviate.Create "PolicyDocuments" ] |},
     Raise (fault "class already exists")).
Proof.
  assert (Hn : lower (strip EmptyString) <> "y") by (vm_compute; discriminate).
  exact (init_recreate_answer_overwritten
           (weaviate_refusing
              (weaviate_env None None [ "PolicyDocuments"; "ClaimArtifacts" ])
              "PolicyDocuments")
           [ "PolicyDocuments"; "ClaimArtifacts" ]
           "https://claims.weaviate.cloud" "secret" EmptyString "y" [ "n" ]
           (fault "class already exists")
           eq_refl eq_refl eq_refl eq_refl Hn eq_refl eq_refl eq_refl).
Defined.

(** X29. The address and the key are asked for before the environment is looked
    at: with fewer than two lines to read the script ends with EOFError
    before any request, whatever the environment holds; with two lines, the
    first request is the connection, made with the values of the environment
    where they are set and with the typed lines, stripped, where not. *)
Theorem init_prompts_before_environment E :
  (forall lines, (length lines < 2)%nat ->
     exists s',
       InitWeaviate.main E (typed lines)
       = (s', Raise (Exn "EOFError" "EOF when reading a line"))
       /\ InitWeaviate.calls s' = [])
  /\ (forall url key rest,
        exists more,
          InitWeaviate.calls
            (fst (InitWeaviate.main E (typed (url :: key :: rest))))
          = InitWeaviate.Connect
              (InitWeaviate.getenv (InitWeaviate.WEAVIATE_URL E) (strip url))
              (InitWeaviate.getenv (InitWeaviate.WEAVIATE_API_KEY E)
                                   (strip key))
            :: more).
Proof.
  split.
  - intros [|l1 [|l2 lines]] Hlen; cbn in Hlen; try lia;
      (eexists; split;
       [ unfold InitWeaviate.main, typed;
         repeat (unfold InitWeaviate.bind at 1; script_step); reflexivity
       | reflexivity ]).
  - intros url key rest.
    unfold InitWeaviate.main, typed.
    unfold InitWeaviate.bind at 1. script_step.
    unfold InitWeaviate.bind at 1. script_step.
    unfold InitWeaviate.bind at 1. script_step.
    destruct (InitWeaviate.connect E) as [[]|e].
    2:{ eexists. reflexivity. }
    match goal with
    | |- context [fst (?m ?s)] =>
        assert (Hg : grows m); [| destruct (Hg s) as [more Hmore]]
    end.
    { unfold InitWeaviate.load_sample_policies. grows_tac. }
    rewrite Hmore. cbn. eexists. reflexivity.
Qed.

Lemma init_prompts_before_environment_witness :
  exists s',
    InitWeaviate.main
      (weaviate_env (Some "https://claims.weaviate.cloud") (Some "secret") [])
      (typed [])
    = (s', Raise (Exn "EOFError" "EOF when reading a line"))
    /\ InitWeaviate.calls s' = [].
Proof.
  apply (proj1 (init_prompts_before_environment
                  (weaviate_env (Some "https://claims.weaviate.cloud")
                                (Some "secret") []))
           []).
  cbn. lia.
Defined.

(** X30. The connection is closed only at the end of a run that succeeds: when
    closing itself does not fault, a run that ends with a fault has not asked
    to close the connection, and a run that succeeds has asked once, as its
    last request. *)
Theorem init_closes_only_on_success E lines :
  InitWeaviate.close E = Ok tt ->
  match InitWeaviate.main E (typed lines) with
  | (s', Raise _) => existsb is_close (InitWeaviate.calls s') = false
  | (s', Ok _) =>
      exists before,
        InitWeaviate.calls s' = (before ++ [InitWeaviate.Close])%list
        /\ existsb is_close before = false
  end.
Proof.
  intros Hcl.
  assert (H : closes_last (InitWeaviate.main E)).
  { unfold InitWeaviate.main, InitWeaviate.load_sample_policies. rewrite Hcl.
    repeat (apply closes_last_bind; [quiet_tac | intros ?]).
    apply closes_last_close. }
  apply (H (typed lines)). reflexivity.
Qed.

Lemma init_closes_only_on_success_witness :
  existsb is_close
    (InitWeaviate.calls
       (fst (InitWeaviate.main
               (weaviate_refusing (weaviate_env None None []) "ClaimArtifacts")
               (typed [ "https://claims.weaviate.cloud"; "secret"; "y" ]))))
  = false.
Proof.
  exact (init_closes_only_on_success
           (weaviate_refusing (weaviate_env None None []) "ClaimArtifacts")
           [ "https://claims.weaviate.cloud"; "secret"; "y" ] eq_refl).
Defined.
